(** * CO2 monitor: aggregation and retention engine

    A shallow embedding of [database.py] (class [CO2Database]),
    [aggregator.py] (class [Aggregator]), the history endpoint of
    [api_server.py] and the frame decoding of [co2_reader.py], together
    with the properties of the multi-resolution aggregation and
    retention engine.

    Modelling conventions.

    - A stored timestamp is the text ['YYYY-MM-DD HH:MM:SS'] that SQLite
      keeps (second resolution, written by [DEFAULT CURRENT_TIMESTAMP]
      or by [strftime] in the aggregation engine).  Texts of this shape
      are ordered as the instants they name ([stored_text_compare]), and
      [datetime]/[timedelta] arithmetic on naive datetimes is linear, so
      a stored timestamp, and a window start that the aggregation engine
      derives from one, is embedded as the number of seconds elapsed on
      the naive wall-clock line since 1970-01-01 00:00:00 (a [Z]); a
      [date] is a number of days since 1970-01-01.
    - A [datetime] that is read from the clock or handed to a range
      query or to the retention functions carries its microseconds and
      may lie in any year from 1 to 9999: it is embedded as a number of
      microseconds on the same line.  [strftime] drops the microseconds
      and writes years below 1000 without padding, the SQL comparison
      with a stored timestamp is a comparison of texts, and arithmetic
      that leaves the years 1 to 9999 is an [OverflowError].
    - SQLite [REAL] values and Python floats are embedded as exact
      rationals ([Q]); [AVG] is the exact quotient sum/count and
      [round(x, 1)] rounds to the nearest tenth, ties to even.  The
      binary doubles of SQLite and Python agree with these values where
      sums and means are exactly representable; they can differ at ties
      of the decimal rounding and where a sum is itself rounded.
    - A nullable column or a Python value that may be [None] is an
      [option].
    - A table with [INTEGER PRIMARY KEY AUTOINCREMENT] is the list of its
      rows in rowid order together with the largest rowid ever handed out
      (the [sqlite_sequence] counter).
    - A Python exception is the result [None] of a computation in the
      [option] monad, or an outcome [Raised] where the database that the
      call leaves behind matters.  For the window starts of the
      aggregation engine the bounds of [datetime] (years 1 to 9999) are
      not modelled.
    - A [while] loop is a function recursive on a number of rounds
      still allowed (fuel), which answers [None] when the rounds run
      out; the callers pass a number of rounds that is proved to be
      enough. *)

From Stdlib Require Import ZArith QArith Qabs Qround List Bool Lia String Ascii.
From Stdlib Require Import Sorting.Sorted Sorting.Permutation.
Import ListNotations.
Open Scope Z_scope.

(** ** Exceptions *)

Definition bind {A B : Type} (c : option A) (k : A -> option B) : option B :=
  match c with
  | Some a => k a
  | None => None
  end.

Notation "x <- c ;; k" := (bind c (fun x => k))
  (at level 100, c at next level, right associativity).

(** ** Time *)

(** database.py, lines 14-17. *)
Definition DAYTIME_START : Z := 6.
Definition DAYTIME_END : Z := 22.
Definition WORKDAY_START : Z := 8.
Definition WORKDAY_END : Z := 18.

Definition SECONDS_PER_MINUTE : Z := 60.
Definition SECONDS_PER_HOUR : Z := 3600.
Definition SECONDS_PER_DAY : Z := 86400.

(** [timedelta(minutes=m)], [timedelta(hours=h)], [timedelta(days=d)]. *)
Definition timedelta_minutes (m : Z) : Z := m * SECONDS_PER_MINUTE.
Definition timedelta_hours (h : Z) : Z := h * SECONDS_PER_HOUR.
Definition timedelta_days (d : Z) : Z := d * SECONDS_PER_DAY.

(** [dt.date()], [dt.hour], [dt.minute]; [hour] is also what
    [CAST(strftime('%H', timestamp) AS INTEGER)] yields. *)
Definition date_of (dt : Z) : Z := dt / SECONDS_PER_DAY.
Definition hour (dt : Z) : Z := (dt mod SECONDS_PER_DAY) / SECONDS_PER_HOUR.
Definition minute (dt : Z) : Z := (dt mod SECONDS_PER_HOUR) / SECONDS_PER_MINUTE.

(** [date.weekday()]: Monday is 0; 1970-01-01 was a Thursday. *)
Definition weekday (d : Z) : Z := (d + 3) mod 7.

(** [datetime.combine(d, datetime.min.time())]. *)
Definition combine_midnight (d : Z) : Z := d * SECONDS_PER_DAY.

(** [dt.replace(minute=m, second=0, microsecond=0)]. *)
Definition replace_minute (dt m : Z) : Z :=
  dt - dt mod SECONDS_PER_HOUR + m * SECONDS_PER_MINUTE.

(** ** Timestamps as text *)

(** The date [(year, month, day)] of the day [z] since 1970-01-01 in the
    proleptic Gregorian calendar of [datetime] and of SQLite: days are
    counted from 0000-03-01 in eras of 400 years, years from March. *)
Definition civil_from_days (z : Z) : Z * Z * Z :=
  let z := z + 719468 in
  let era := z / 146097 in
  let doe := z mod 146097 in
  let yoe := (doe - doe / 1460 + doe / 36524 - doe / 146096) / 365 in
  let y := yoe + era * 400 in
  let doy := doe - (365 * yoe + yoe / 4 - yoe / 100) in
  let mp := (5 * doy + 2) / 153 in
  let d := doy - (153 * mp + 2) / 5 + 1 in
  let m := if mp <? 10 then mp + 3 else mp - 9 in
  (if m <=? 2 then y + 1 else y, m, d).

(** The character of the last decimal digit of [n]. *)
Definition digit (n : Z) : ascii := ascii_of_N (Z.to_N (48 + n mod 10)).

(** [n] padded with zeros to two and to four digits, in front of [rest]. *)
Definition pad2 (n : Z) (rest : string) : string :=
  String (digit (n / 10)) (String (digit n) rest).

Definition pad4 (n : Z) (rest : string) : string :=
  pad2 (n / 100) (pad2 n rest).

(** [%Y] of [strftime]: the year as it is, without padding. *)
Definition year_text (y : Z) (rest : string) : string :=
  if y <? 10 then String (digit y) rest
  else if y <? 100 then pad2 y rest
  else if y <? 1000 then String (digit (y / 100)) (pad2 y rest)
  else pad4 y rest.

(** The second [t] of the time line as ['<year>-MM-DD HH:MM:SS']. *)
Definition time_text (year : Z -> string -> string) (t : Z) : string :=
  let '(y, m, d) := civil_from_days (t / SECONDS_PER_DAY) in
  let s := t mod SECONDS_PER_DAY in
  year y (String "-"%char (pad2 m (String "-"%char (pad2 d (String " "%char
    (pad2 (s / 3600) (String ":"%char (pad2 (s mod 3600 / 60) (String ":"%char
      (pad2 (s mod 60) EmptyString)))))))))).

(** The text of a stored timestamp, ['YYYY-MM-DD HH:MM:SS']. *)
Definition stored_text (t : Z) : string := time_text pad4 t.

(** A [datetime] with its microseconds is a number of microseconds;
    [at_second t] is the datetime of the whole second [t]. *)
Definition MICROSECONDS_PER_SECOND : Z := 1000000.

Definition second_of (dt : Z) : Z := dt / MICROSECONDS_PER_SECOND.

Definition at_second (t : Z) : Z := t * MICROSECONDS_PER_SECOND.

(** [dt.strftime('%Y-%m-%d %H:%M:%S')]: the microseconds are dropped. *)
Definition strftime (dt : Z) : string := time_text year_text (second_of dt).

(** [datetime.min] and [datetime.max]: 0001-01-01 00:00:00 and
    9999-12-31 23:59:59.999999. *)
Definition DATETIME_MIN : Z := at_second (-62135596800).
Definition DATETIME_MAX : Z := at_second 253402300800 - 1.

(** [dt - delta] for a [timedelta] of [delta] seconds; [None] is the
    [OverflowError] of a difference that is no [datetime] (a [timedelta]
    too large to be built raises the same error). *)
Definition datetime_sub (dt delta : Z) : option Z :=
  let r := dt - at_second delta in
  if (DATETIME_MIN <=? r) && (r <=? DATETIME_MAX) then Some r else None.

(** ** Rows *)

Module Measurement.
Record t : Type := mk {
  id : Z;
  timestamp : Z;
  co2_ppm : Z;
  temperature_celsius : option Q
}.
End Measurement.

Module HourlyStats.
Record t : Type := mk {
  id : Z;
  hour_start : Z;
  co2_min : option Z;
  co2_max : option Z;
  co2_avg : option Q;
  co2_count : Z;
  temp_min : option Q;
  temp_max : option Q;
  temp_avg : option Q;
  is_workday : bool;
  is_daytime : bool;
  hour_of_day : Z;
  day_of_week : Z
}.

(** Every column but the surrogate key [id]. *)
Definition contents (r : t) :=
  (hour_start r, co2_min r, co2_max r, co2_avg r, co2_count r,
   (temp_min r, temp_max r, temp_avg r),
   (is_workday r, is_daytime r, hour_of_day r, day_of_week r)).
End HourlyStats.

Module DailyStats.
Record t : Type := mk {
  id : Z;
  date : Z;
  co2_min : option Z;
  co2_max : option Z;
  co2_avg : option Q;
  co2_day_avg : option Q;
  co2_night_avg : option Q;
  temp_min : option Q;
  temp_max : option Q;
  temp_avg : option Q;
  measurement_count : Z;
  is_weekend : bool
}.

Definition contents (r : t) :=
  (date r, co2_min r, co2_max r, co2_avg r,
   (co2_day_avg r, co2_night_avg r),
   (temp_min r, temp_max r, temp_avg r),
   (measurement_count r, is_weekend r)).
End DailyStats.

Module MinuteStats.
Record t : Type := mk {
  id : Z;
  interval_start : Z;
  interval_minutes : Z;
  co2_min : option Z;
  co2_max : option Z;
  co2_avg : option Q;
  co2_count : Z;
  temp_min : option Q;
  temp_max : option Q;
  temp_avg : option Q
}.

Definition contents (r : t) :=
  (interval_start r, interval_minutes r, co2_min r, co2_max r, co2_avg r,
   co2_count r, (temp_min r, temp_max r, temp_avg r)).
End MinuteStats.

Module PatternAverage.
Record t : Type := mk {
  id : Z;
  pattern_type : string;
  pattern_key : string;
  co2_avg : option Q;
  temp_avg : option Q;
  sample_count : Z;
  last_updated : Z
}.
End PatternAverage.

(** ** Tables and the database *)

Record Table (R : Type) : Type := mkTable {
  rows : list R;
  seq : Z
}.
Arguments mkTable {R} _ _.
Arguments rows {R} _.
Arguments seq {R} _.

(** [INSERT OR REPLACE INTO tbl (...) VALUES (...)] without a value for
    [id]: the rows that clash with the new one on the UNIQUE key are
    deleted, then the new row is inserted under a fresh rowid, larger
    than any the table has ever held. *)
Definition insert_or_replace {R : Type} (clashes : R -> bool)
    (new_row : Z -> R) (tbl : Table R) : Table R :=
  let rowid := seq tbl + 1 in
  {| rows := filter (fun r => negb (clashes r)) (rows tbl) ++ [new_row rowid];
     seq := rowid |}.

Record Database : Type := mkDatabase {
  measurements : list Measurement.t;
  minute_stats : Table MinuteStats.t;
  hourly_stats : Table HourlyStats.t;
  daily_stats : Table DailyStats.t;
  pattern_averages : Table PatternAverage.t
}.

Definition with_measurements (db : Database) (ms : list Measurement.t) :=
  {| measurements := ms;
     minute_stats := minute_stats db;
     hourly_stats := hourly_stats db;
     daily_stats := daily_stats db;
     pattern_averages := pattern_averages db |}.

Definition with_minute_stats (db : Database) (tbl : Table MinuteStats.t) :=
  {| measurements := measurements db;
     minute_stats := tbl;
     hourly_stats := hourly_stats db;
     daily_stats := daily_stats db;
     pattern_averages := pattern_averages db |}.

Definition with_hourly_stats (db : Database) (tbl : Table HourlyStats.t) :=
  {| measurements := measurements db;
     minute_stats := minute_stats db;
     hourly_stats := tbl;
     daily_stats := daily_stats db;
     pattern_averages := pattern_averages db |}.

Definition with_daily_stats (db : Database) (tbl : Table DailyStats.t) :=
  {| measurements := measurements db;
     minute_stats := minute_stats db;
     hourly_stats := hourly_stats db;
     daily_stats := tbl;
     pattern_averages := pattern_averages db |}.

(** ** SQL aggregate functions and Python's [round] *)

Definition min_Z (l : list Z) : option Z :=
  match l with
  | [] => None
  | x :: l' => Some (fold_left Z.min l' x)
  end.

Definition max_Z (l : list Z) : option Z :=
  match l with
  | [] => None
  | x :: l' => Some (fold_left Z.max l' x)
  end.

Definition sum_Z (l : list Z) : Z := fold_left Z.add l 0.

Definition count {A : Type} (l : list A) : Z := Z.of_nat (List.length l).

Definition avg_Z (l : list Z) : option Q :=
  match l with
  | [] => None
  | _ => Some (inject_Z (sum_Z l) / inject_Z (count l))%Q
  end.

Definition Qmin' (a b : Q) : Q := if Qle_bool a b then a else b.
Definition Qmax' (a b : Q) : Q := if Qle_bool a b then b else a.

Definition min_Q (l : list Q) : option Q :=
  match l with
  | [] => None
  | x :: l' => Some (fold_left Qmin' l' x)
  end.

Definition max_Q (l : list Q) : option Q :=
  match l with
  | [] => None
  | x :: l' => Some (fold_left Qmax' l' x)
  end.

Definition sum_Q (l : list Q) : Q := fold_left Qplus l 0%Q.

Definition avg_Q (l : list Q) : option Q :=
  match l with
  | [] => None
  | _ => Some (sum_Q l / inject_Z (count l))%Q
  end.

(** The non-NULL values of a nullable column: SQL aggregates skip NULL. *)
Definition non_null {A : Type} (l : list (option A)) : list A :=
  flat_map (fun o => match o with Some a => [a] | None => [] end) l.

(** [round(x, 1)]: the nearest multiple of 1/10, ties to the even one. *)
Definition round1 (x : Q) : Q :=
  let n := 10 * Qnum x in
  let d := Zpos (Qden x) in
  let f := n / d in
  let r := n mod d in
  let tenths :=
    match 2 * r ?= d with
    | Lt => f
    | Gt => f + 1
    | Eq => if Z.even f then f else f + 1
    end in
  tenths # 10.

(** [round(v, 1)] on a value that may be [None]: a [TypeError]. *)
Definition round1_strict (v : option Q) : option Q :=
  match v with
  | Some x => Some (round1 x)
  | None => None
  end.

(** Truthiness of an optional number: [None] and zero are falsy. *)
Definition truthy (v : option Q) : bool :=
  match v with
  | Some x => negb (Qeq_bool x 0)
  | None => false
  end.

(** [round(v, 1) if v else None]. *)
Definition round1_if_truthy (v : option Q) : option Q :=
  if truthy v then
    match v with
    | Some x => Some (round1 x)
    | None => None
    end
  else None.

(** ** Raw measurements ([CO2Database], database.py) *)

(** [WHERE timestamp >= ? AND timestamp < ?]. *)
Definition in_window (start_ end_ : Z) (m : Measurement.t) : bool :=
  (start_ <=? Measurement.timestamp m) && (Measurement.timestamp m <? end_).

(** [WHERE timestamp BETWEEN ? AND ?] for the two parameter texts. *)
Definition between (start_str end_str : string) (m : Measurement.t) : bool :=
  String.leb start_str (stored_text (Measurement.timestamp m))
  && String.leb (stored_text (Measurement.timestamp m)) end_str.

(** [ORDER BY timestamp]: insertion of a row behind the rows that do not
    come after it, so rows of equal timestamp stay in rowid order. *)
Fixpoint insert_by_timestamp (m : Measurement.t) (l : list Measurement.t)
    : list Measurement.t :=
  match l with
  | [] => [m]
  | x :: l' =>
      if Measurement.timestamp m <? Measurement.timestamp x
      then m :: x :: l'
      else x :: insert_by_timestamp m l'
  end.

Definition order_by_timestamp (l : list Measurement.t) : list Measurement.t :=
  fold_right insert_by_timestamp [] (rev l).

(** [get_range], database.py lines 276-295; [start_] and [end_] are
    datetimes with their microseconds. *)
Definition get_range (db : Database) (start_ end_ : Z) : list Measurement.t :=
  let start_str := strftime start_ in
  let end_str := strftime end_ in
  order_by_timestamp (filter (between start_str end_str) (measurements db)).

(** How a call that writes to the database ends: it returns a value,
    or it raises ([OverflowError]); either way it leaves a database
    behind. *)
Inductive Outcome (A : Type) : Type :=
  | Returned (a : A) (db : Database)
  | Raised (db : Database).

Arguments Returned {A} a db.
Arguments Raised {A} db.

Definition database_after {A : Type} (o : Outcome A) : Database :=
  match o with
  | Returned _ db => db
  | Raised db => db
  end.

(** [delete_older_than], database.py lines 341-350; [now] is the value
    of [datetime.now()] at the call.  Returns [cursor.rowcount]; the
    cutoff is computed before the database is opened. *)
Definition delete_older_than (db : Database) (now days : Z) : Outcome Z :=
  match datetime_sub now (timedelta_days days) with
  | None => Raised db
  | Some cutoff_dt =>
      let cutoff := strftime cutoff_dt in
      let doomed := fun m =>
        String.ltb (stored_text (Measurement.timestamp m)) cutoff in
      Returned (count (filter doomed (measurements db)))
        (with_measurements db (filter (fun m => negb (doomed m)) (measurements db)))
  end.

(** What [cleanup_if_size_exceeded] observes of the outside world: the
    value of the [k]-th call of [datetime.now()], with its microseconds,
    and of the [k]-th call of [get_database_size_mb()]. *)
Record World : Type := mkWorld {
  clock : nat -> Z;
  file_size_mb : nat -> Q
}.

(** [VACUUM] rebuilds the file; no row of any table changes. *)
Definition vacuum (db : Database) : Database := db.

(** The [while] loop of [cleanup_if_size_exceeded], lines 380-389; [k]
    counts the observations of the world made so far. *)
Fixpoint cleanup_loop (fuel : nat) (w : World) (k : nat)
    (max_size_mb current_size : Q) (days_to_delete total_deleted : Z)
    (db : Database) : option (Outcome Z) :=
  if negb (Qle_bool current_size max_size_mb) && (1 <? days_to_delete) then
    match fuel with
    | O => None
    | S fuel' =>
        match delete_older_than db (clock w k) days_to_delete with
        | Raised db1 => Some (Raised db1)
        | Returned deleted db1 =>
            let total_deleted := total_deleted + deleted in
            let db2 := vacuum db1 in
            let current_size := file_size_mb w k in
            cleanup_loop fuel' w (S k) max_size_mb current_size
              (days_to_delete - 1) total_deleted db2
        end
    end
  else Some (Returned total_deleted db).

(** [cleanup_if_size_exceeded], database.py lines 358-391.  The loop
    counter falls by one per round and the loop stops at 1, so
    [days_to_keep] rounds always suffice. *)
Definition cleanup_if_size_exceeded (db : Database) (w : World)
    (max_size_gb : Q) (days_to_keep : Z) : option (Outcome Z) :=
  let total_deleted := 0 in
  let max_size_mb := (max_size_gb * 1024)%Q in
  match delete_older_than db (clock w 0%nat) days_to_keep with
  | Raised db1 => Some (Raised db1)
  | Returned deleted db1 =>
      let total_deleted := total_deleted + deleted in
      let current_size := file_size_mb w 0%nat in
      if Qle_bool current_size max_size_mb then Some (Returned total_deleted db1)
      else
        let days_to_delete := days_to_keep - 1 in
        cleanup_loop (Z.to_nat days_to_keep) w 1%nat max_size_mb current_size
          days_to_delete total_deleted db1
  end.

(** ** Aggregate stores ([CO2Database], database.py) *)

(** [insert_hourly_stats], lines 431-450. *)
Definition insert_hourly_stats (db : Database) (hour_start : Z)
    (co2_min co2_max : option Z) (co2_avg : option Q) (co2_count : Z)
    (temp_min temp_max temp_avg : option Q) : Database :=
  let hour_of_day := hour hour_start in
  let day_of_week := weekday (date_of hour_start) in
  let is_daytime := (DAYTIME_START <=? hour_of_day) && (hour_of_day <? DAYTIME_END) in
  let is_workday :=
    (day_of_week <? 5) && ((WORKDAY_START <=? hour_of_day) && (hour_of_day <? WORKDAY_END)) in
  with_hourly_stats db
    (insert_or_replace
       (fun r => HourlyStats.hour_start r =? hour_start)
       (fun rowid =>
          HourlyStats.mk rowid hour_start co2_min co2_max co2_avg co2_count
            temp_min temp_max temp_avg is_workday is_daytime
            hour_of_day day_of_week)
       (hourly_stats db)).

(** [insert_minute_stats], lines 490-502. *)
Definition insert_minute_stats (db : Database) (interval_start interval_minutes : Z)
    (co2_min co2_max : option Z) (co2_avg : option Q) (co2_count : Z)
    (temp_min temp_max temp_avg : option Q) : Database :=
  with_minute_stats db
    (insert_or_replace
       (fun r => (MinuteStats.interval_start r =? interval_start)
                 && (MinuteStats.interval_minutes r =? interval_minutes))
       (fun rowid =>
          MinuteStats.mk rowid interval_start interval_minutes co2_min co2_max
            co2_avg co2_count temp_min temp_max temp_avg)
       (minute_stats db)).

(** [insert_daily_stats], lines 541-557. *)
Definition insert_daily_stats (db : Database) (stat_date : Z)
    (co2_min co2_max : option Z) (co2_avg co2_day_avg co2_night_avg : option Q)
    (temp_min temp_max temp_avg : option Q) (measurement_count : Z) : Database :=
  let is_weekend := 5 <=? weekday stat_date in
  with_daily_stats db
    (insert_or_replace
       (fun r => DailyStats.date r =? stat_date)
       (fun rowid =>
          DailyStats.mk rowid stat_date co2_min co2_max co2_avg co2_day_avg
            co2_night_avg temp_min temp_max temp_avg measurement_count
            is_weekend)
       (daily_stats db)).

(** ** The aggregation engine ([Aggregator], aggregator.py) *)

Definition MINUTE_INTERVALS : list Z := [5; 10; 15].

(** The seven-column row that the statistics query fetches:
    [MIN(co2_ppm), MAX(co2_ppm), AVG(co2_ppm), COUNT( * ),
     MIN(temperature_celsius), MAX(temperature_celsius),
     AVG(temperature_celsius)]. *)
Record StatsRow : Type := mkStatsRow {
  row0 : option Z;
  row1 : option Z;
  row2 : option Q;
  row3 : Z;
  row4 : option Q;
  row5 : option Q;
  row6 : option Q
}.

Definition co2_values (ms : list Measurement.t) : list Z :=
  map Measurement.co2_ppm ms.

Definition temperature_values (ms : list Measurement.t) : list Q :=
  non_null (map Measurement.temperature_celsius ms).

Definition select_stats (db : Database) (start_ end_ : Z) : StatsRow :=
  let ms := filter (in_window start_ end_) (measurements db) in
  {| row0 := min_Z (co2_values ms);
     row1 := max_Z (co2_values ms);
     row2 := avg_Z (co2_values ms);
     row3 := count ms;
     row4 := min_Q (temperature_values ms);
     row5 := max_Q (temperature_values ms);
     row6 := avg_Q (temperature_values ms) |}.

(** [aggregate_minute_interval], lines 29-74. *)
Definition aggregate_minute_interval (db : Database)
    (interval_start interval_minutes : Z) : option (bool * Database) :=
  let interval_end := interval_start + timedelta_minutes interval_minutes in
  let row := select_stats db interval_start interval_end in
  if row3 row =? 0 then Some (false, db)
  else
    co2_avg <- round1_strict (row2 row) ;;
    Some (true,
          insert_minute_stats db interval_start interval_minutes
            (row0 row) (row1 row) (Some co2_avg) (row3 row)
            (row4 row) (row5 row) (round1_if_truthy (row6 row))).

(** [aggregate_hour], lines 76-119. *)
Definition aggregate_hour (db : Database) (hour_start : Z)
    : option (bool * Database) :=
  let hour_end := hour_start + timedelta_hours 1 in
  let row := select_stats db hour_start hour_end in
  if row3 row =? 0 then Some (false, db)
  else
    co2_avg <- round1_strict (row2 row) ;;
    Some (true,
          insert_hourly_stats db hour_start
            (row0 row) (row1 row) (Some co2_avg) (row3 row)
            (row4 row) (row5 row) (round1_if_truthy (row6 row))).

(** The daytime and the night predicate of the two sub-window queries of
    [aggregate_day], lines 157-172. *)
Definition day_hours (m : Measurement.t) : bool :=
  (DAYTIME_START <=? hour (Measurement.timestamp m))
  && (hour (Measurement.timestamp m) <? DAYTIME_END).

Definition night_hours (m : Measurement.t) : bool :=
  (DAYTIME_END <=? hour (Measurement.timestamp m))
  || (hour (Measurement.timestamp m) <? DAYTIME_START).

Definition select_day_rows (db : Database) (start_ end_ : Z) : list Measurement.t :=
  filter (fun m => in_window start_ end_ m && day_hours m) (measurements db).

Definition select_night_rows (db : Database) (start_ end_ : Z) : list Measurement.t :=
  filter (fun m => in_window start_ end_ m && night_hours m) (measurements db).

(** [aggregate_day], lines 121-186. *)
Definition aggregate_day (db : Database) (stat_date : Z)
    : option (bool * Database) :=
  let day_start := combine_midnight stat_date in
  let day_end := day_start + timedelta_days 1 in
  let row := select_stats db day_start day_end in
  if row3 row =? 0 then Some (false, db)
  else
    let day_avg_row := avg_Z (co2_values (select_day_rows db day_start day_end)) in
    let night_avg_row := avg_Z (co2_values (select_night_rows db day_start day_end)) in
    co2_avg <- round1_strict (row2 row) ;;
    Some (true,
          insert_daily_stats db stat_date
            (row0 row) (row1 row) (Some co2_avg)
            (round1_if_truthy day_avg_row) (round1_if_truthy night_avg_row)
            (row4 row) (row5 row) (round1_if_truthy (row6 row)) (row3 row)).

(** The number of rounds of [while current <= end: ...; current += step]
    for a positive [step]. *)
Definition rounds (current end_ step : Z) : nat :=
  S (Z.to_nat ((end_ - current) / step)).

(** The three [while] loops of [backfill_all]; the counters
    [intervals_aggregated], [hours_aggregated] and [days_aggregated] are
    only printed and are left out. *)
Fixpoint backfill_minutes (fuel : nat) (db : Database)
    (current end_ interval : Z) : option Database :=
  if current <=? end_ then
    match fuel with
    | O => None
    | S fuel' =>
        r <- aggregate_minute_interval db current interval ;;
        backfill_minutes fuel' (snd r) (current + timedelta_minutes interval)
          end_ interval
    end
  else Some db.

Fixpoint backfill_hours (fuel : nat) (db : Database)
    (current_hour end_ : Z) : option Database :=
  if current_hour <=? end_ then
    match fuel with
    | O => None
    | S fuel' =>
        r <- aggregate_hour db current_hour ;;
        backfill_hours fuel' (snd r) (current_hour + timedelta_hours 1) end_
    end
  else Some db.

Fixpoint backfill_days (fuel : nat) (db : Database)
    (current_date end_date : Z) : option Database :=
  if current_date <=? end_date then
    match fuel with
    | O => None
    | S fuel' =>
        r <- aggregate_day db current_date ;;
        backfill_days fuel' (snd r) (current_date + 1) end_date
    end
  else Some db.

(** [for interval in self.MINUTE_INTERVALS: ...], lines 210-224. *)
Fixpoint backfill_intervals (intervals : list Z) (db : Database)
    (start_ end_ : Z) : option Database :=
  match intervals with
  | [] => Some db
  | interval :: intervals' =>
      let current := replace_minute start_ (minute start_ / interval * interval) in
      db' <- backfill_minutes (rounds current end_ (timedelta_minutes interval))
               db current end_ interval ;;
      backfill_intervals intervals' db' start_ end_
  end.

Definition timestamps (db : Database) : list Z :=
  map Measurement.timestamp (measurements db).

(** [backfill_all], lines 188-249. *)
Definition backfill_all (db : Database) : option Database :=
  match min_Z (timestamps db), max_Z (timestamps db) with
  | Some start_, Some end_ =>
      db1 <- backfill_intervals MINUTE_INTERVALS db start_ end_ ;;
      let current_hour := replace_minute start_ 0 in
      db2 <- backfill_hours (rounds current_hour end_ (timedelta_hours 1))
               db1 current_hour end_ ;;
      let current_date := date_of start_ in
      backfill_days (rounds current_date (date_of end_) 1)
        db2 current_date (date_of end_)
  | _, _ => Some db
  end.

(** ** Sample data *)

Definition empty_table {R : Type} : Table R := mkTable [] 0.

Definition empty_db : Database :=
  mkDatabase [] empty_table empty_table empty_table empty_table.

(** 2025-12-28 is day 20450 of the epoch; its 14:00:00. *)
Definition day_20251228 : Z := 20450.
Definition t_14_00 : Z := combine_midnight day_20251228 + timedelta_hours 14.

(** Readings of 500 ppm at 14:03, 600 ppm at 14:17 and 550 ppm at 14:59. *)
Definition example_db : Database :=
  with_measurements empty_db
    [ Measurement.mk 1 (t_14_00 + timedelta_minutes 3) 500 (Some (215 # 10));
      Measurement.mk 2 (t_14_00 + timedelta_minutes 17) 600 (Some (217 # 10));
      Measurement.mk 3 (t_14_00 + timedelta_minutes 59) 550 None ].

(** The reading at 14:59 of [example_db]. *)
Definition last_reading : Measurement.t :=
  Measurement.mk 3 (t_14_00 + timedelta_minutes 59) 550 None.

(** The reading at 14:03 of [example_db]. *)
Definition first_reading : Measurement.t :=
  Measurement.mk 1 (t_14_00 + timedelta_minutes 3) 500 (Some (215 # 10)).

(** A store with a single reading, stamped 14:00:00 sharp. *)
Definition boundary_reading : Measurement.t := Measurement.mk 1 t_14_00 500 None.

Definition boundary_db : Database := with_measurements empty_db [boundary_reading].

(** The same reading behind one stamped 13:59:59, the last second of
    the hour before. *)
Definition eve_reading : Measurement.t := Measurement.mk 1 (t_14_00 - 1) 480 None.

Definition sharp_reading : Measurement.t := Measurement.mk 2 t_14_00 500 None.

Definition turn_of_hour_db : Database :=
  with_measurements empty_db [eve_reading; sharp_reading].

(** A store with a single reading of 500 ppm and 0.0 degrees at 14:03. *)
Definition freezing_db : Database :=
  with_measurements empty_db
    [ Measurement.mk 1 (t_14_00 + timedelta_minutes 3) 500 (Some 0%Q) ].

(** Readings in the hours from 12:00, 14:00 and 15:00 of one day. *)
Definition afternoon_db : Database :=
  with_measurements empty_db
    [ Measurement.mk 1 (t_14_00 - timedelta_minutes 95) 450 (Some (21 # 1));
      Measurement.mk 2 (t_14_00 + timedelta_minutes 3) 500 (Some (215 # 10));
      Measurement.mk 3 (t_14_00 + timedelta_minutes 59) 550 None;
      Measurement.mk 4 (t_14_00 + timedelta_hours 1) 700 (Some (22 # 1)) ].

(** A world whose clock stands still and whose file never shrinks. *)
Definition steady_world (now : Z) (size_mb : Q) : World :=
  mkWorld (fun _ => now) (fun _ => size_mb).

(** 16:00:00.250000 with a file of 6000 MB; 14:01:00.250000 with a file
    of 1 MB. *)
Definition two_hours_later : World :=
  steady_world (at_second (t_14_00 + timedelta_hours 2) + 250000) 6000.

Definition one_minute_later : World :=
  steady_world (at_second (t_14_00 + timedelta_minutes 1) + 250000) 1.

(** 14:03:00.500000. *)
Definition half_past_14_03_00 : Z := at_second (t_14_00 + timedelta_minutes 3) + 500000.

(** * Further operations *)

(** ** Raw measurements, continued ([CO2Database], database.py) *)

(** The database together with the [sqlite_sequence] entry of
    [measurements], which [insert] reads and advances. *)
Record Store : Type := mkStore {
  database : Database;
  measurements_seq : Z
}.

(** The largest rowid among the stored readings, 0 when there is none. *)
Definition max_rowid (ms : list Measurement.t) : Z :=
  fold_left Z.max (map Measurement.id ms) 0.

(** [insert], lines 249-257.  [utc_now] is the value that
    [DEFAULT CURRENT_TIMESTAMP] gives the row; the rowid is one more
    than the largest rowid the table holds or has ever held.  Returns
    [cursor.lastrowid]. *)
Definition insert (s : Store) (utc_now co2_ppm : Z)
    (temperature_celsius : option Q) : Z * Store :=
  let db := database s in
  let rowid := Z.max (measurements_seq s) (max_rowid (measurements db)) + 1 in
  (rowid,
   {| database :=
        with_measurements db
          (measurements db
           ++ [Measurement.mk rowid utc_now co2_ppm temperature_celsius]);
      measurements_seq := rowid |}).

(** [ORDER BY timestamp DESC LIMIT 1]: a row of the greatest timestamp;
    among several, the one stored last, which is the first row of a
    backward scan of the index on [timestamp]. *)
Definition later_of (best : option Measurement.t) (m : Measurement.t)
    : option Measurement.t :=
  match best with
  | None => Some m
  | Some b =>
      if Measurement.timestamp b <=? Measurement.timestamp m then Some m else Some b
  end.

(** [get_latest], lines 259-274. *)
Definition get_latest (db : Database) : option Measurement.t :=
  fold_left later_of (measurements db) None.

(** [get_last_hours], lines 297-301; [now] is [datetime.now()]. *)
Definition get_last_hours (db : Database) (now hours : Z)
    : option (list Measurement.t) :=
  let end_ := now in
  start_ <- datetime_sub end_ (timedelta_hours hours) ;;
  Some (get_range db start_ end_).

Module Summary.
Record t (A : Type) : Type := mk {
  min : option A;
  max : option A;
  avg : option Q
}.
Arguments mk {A} _ _ _.
Arguments min {A} _.
Arguments max {A} _.
Arguments avg {A} _.
End Summary.

Module Statistics.
Record t : Type := mk {
  count : Z;
  co2 : Summary.t Z;
  temperature : Summary.t Q
}.
End Statistics.

(** [get_statistics], lines 303-334: the query has a lower bound on
    [timestamp] and no upper bound; [now] is [datetime.now()]. *)
Definition get_statistics (db : Database) (now hours : Z) : option Statistics.t :=
  start_dt <- datetime_sub now (timedelta_hours hours) ;;
  let start_ := strftime start_dt in
  let ms := filter (fun m => String.leb start_ (stored_text (Measurement.timestamp m)))
              (measurements db) in
  Some
    {| Statistics.count := count ms;
       Statistics.co2 :=
         {| Summary.min := min_Z (co2_values ms);
            Summary.max := max_Z (co2_values ms);
            Summary.avg := round1_if_truthy (avg_Z (co2_values ms)) |};
       Statistics.temperature :=
         {| Summary.min := min_Q (temperature_values ms);
            Summary.max := max_Q (temperature_values ms);
            Summary.avg := round1_if_truthy (avg_Q (temperature_values ms)) |} |}.

(** [count], lines 336-339. *)
Definition count_measurements (db : Database) : Z := count (measurements db).

(** ** Aggregate stores, continued ([CO2Database], database.py) *)

(** [ORDER BY] a column: insertion of a row behind the rows that do
    not come after it, so rows that compare equal stay in rowid order. *)
Fixpoint insert_sorted {A : Type} (ltb : A -> A -> bool) (a : A) (l : list A)
    : list A :=
  match l with
  | [] => [a]
  | x :: l' => if ltb a x then a :: x :: l' else x :: insert_sorted ltb a l'
  end.

Definition order_with {A : Type} (ltb : A -> A -> bool) (l : list A) : list A :=
  fold_right (insert_sorted ltb) [] (rev l).

(** [ORDER BY] an integer or timestamp column. *)
Definition order_by {A : Type} (key : A -> Z) (l : list A) : list A :=
  order_with (fun a b => key a <? key b) l.

(** [column BETWEEN ? AND ?] for a stored timestamp and the two
    parameter texts. *)
Definition text_between (start_str end_str : string) (t : Z) : bool :=
  String.leb start_str (stored_text t) && String.leb (stored_text t) end_str.

(** [get_hourly_stats], lines 395-423; [start_] and [end_] are datetimes
    with their microseconds. *)
Definition get_hourly_stats (db : Database) (start_ end_ : Z) : list HourlyStats.t :=
  let start_str := strftime start_ in
  let end_str := strftime end_ in
  order_by HourlyStats.hour_start
    (filter (fun r => text_between start_str end_str (HourlyStats.hour_start r))
       (rows (hourly_stats db))).

(** [get_hourly_stats_last_days], lines 425-429; [now] is
    [datetime.now()]. *)
Definition get_hourly_stats_last_days (db : Database) (now days : Z)
    : option (list HourlyStats.t) :=
  let end_ := now in
  start_ <- datetime_sub end_ (timedelta_days days) ;;
  Some (get_hourly_stats db start_ end_).

(** [get_minute_stats], lines 454-481. *)
Definition get_minute_stats (db : Database) (start_ end_ interval_minutes : Z)
    : list MinuteStats.t :=
  let start_str := strftime start_ in
  let end_str := strftime end_ in
  order_by MinuteStats.interval_start
    (filter (fun r => text_between start_str end_str (MinuteStats.interval_start r)
                      && (MinuteStats.interval_minutes r =? interval_minutes))
       (rows (minute_stats db))).

(** [get_minute_stats_last_hours], lines 483-488. *)
Definition get_minute_stats_last_hours (db : Database) (now hours interval_minutes : Z)
    : option (list MinuteStats.t) :=
  let end_ := now in
  start_ <- datetime_sub end_ (timedelta_hours hours) ;;
  Some (get_minute_stats db start_ end_ interval_minutes).

(** The day [d] as ['<year>-MM-DD']: the text of a stored [date], and
    [d.strftime('%Y-%m-%d')]. *)
Definition date_text (year : Z -> string -> string) (d : Z) : string :=
  let '(y, m, dd) := civil_from_days d in
  year y (String "-"%char (pad2 m (String "-"%char (pad2 dd EmptyString)))).

Definition stored_date_text (d : Z) : string := date_text pad4 d.

Definition date_strftime (d : Z) : string := date_text year_text d.

(** [date.min] and [date.max], 0001-01-01 and 9999-12-31, and
    [d - timedelta(days=days)] on dates. *)
Definition DATE_MIN : Z := -719162.
Definition DATE_MAX : Z := 2932896.

Definition date_sub (d days : Z) : option Z :=
  let r := d - days in
  if (DATE_MIN <=? r) && (r <=? DATE_MAX) then Some r else None.

(** [get_daily_stats], lines 506-533. *)
Definition get_daily_stats (db : Database) (start_date end_date : Z)
    : list DailyStats.t :=
  let start_str := date_strftime start_date in
  let end_str := date_strftime end_date in
  order_by DailyStats.date
    (filter (fun r => String.leb start_str (stored_date_text (DailyStats.date r))
                      && String.leb (stored_date_text (DailyStats.date r)) end_str)
       (rows (daily_stats db))).

(** [get_daily_stats_last_days], lines 535-539; [today] is
    [date.today()]. *)
Definition get_daily_stats_last_days (db : Database) (today days : Z)
    : option (list DailyStats.t) :=
  let end_ := today in
  start_ <- date_sub end_ days ;;
  Some (get_daily_stats db start_ end_).

(** ** Pattern averages ([CO2Database], database.py) *)

Definition with_pattern_averages (db : Database) (tbl : Table PatternAverage.t) :=
  {| measurements := measurements db;
     minute_stats := minute_stats db;
     hourly_stats := hourly_stats db;
     daily_stats := daily_stats db;
     pattern_averages := tbl |}.

(** One dict of the list that [get_pattern_averages] returns. *)
Module PatternEntry.
Record t : Type := mk {
  pattern_key : string;
  co2_avg : option Q;
  temp_avg : option Q;
  sample_count : Z
}.
End PatternEntry.

(** [get_pattern_averages], lines 561-573. *)
Definition get_pattern_averages (db : Database) (pattern_type : string)
    : list PatternEntry.t :=
  map (fun r =>
         PatternEntry.mk (PatternAverage.pattern_key r) (PatternAverage.co2_avg r)
           (PatternAverage.temp_avg r) (PatternAverage.sample_count r))
    (order_with (fun a b => String.ltb (PatternAverage.pattern_key a)
                                       (PatternAverage.pattern_key b))
       (filter (fun r => String.eqb (PatternAverage.pattern_type r) pattern_type)
          (rows (pattern_averages db)))).

(** [update_pattern_average], lines 575-585; [now] is [datetime.now()]. *)
Definition update_pattern_average (db : Database) (pattern_type pattern_key : string)
    (co2_avg temp_avg : Q) (sample_count now : Z) : Database :=
  with_pattern_averages db
    (insert_or_replace
       (fun r => String.eqb (PatternAverage.pattern_type r) pattern_type
                 && String.eqb (PatternAverage.pattern_key r) pattern_key)
       (fun rowid =>
          PatternAverage.mk rowid pattern_type pattern_key (Some co2_avg)
            (Some temp_avg) sample_count now)
       (pattern_averages db)).

(** ** Analytics queries ([CO2Database], database.py) *)

(** The values of a [GROUP BY] column, each once, in ascending order. *)
Fixpoint insert_distinct (k : Z) (l : list Z) : list Z :=
  match l with
  | [] => [k]
  | x :: l' =>
      if k <? x then k :: x :: l'
      else if k =? x then x :: l'
      else x :: insert_distinct k l'
  end.

Definition distinct_sorted (l : list Z) : list Z :=
  fold_right insert_distinct [] l.

(** [AVG] over a nullable [REAL] column and [SUM] over [co2_count]. *)
Definition avg_column {R : Type} (column : R -> option Q) (rs : list R) : option Q :=
  avg_Q (non_null (map column rs)).

Definition sum_column {R : Type} (column : R -> Z) (rs : list R) : option Z :=
  match rs with
  | [] => None
  | _ => Some (sum_Z (map column rs))
  end.

(** [v or 0]. *)
Definition or_zero (v : option Z) : Z :=
  match v with
  | Some n => n
  | None => 0
  end.

Module HourlyPattern.
Record t : Type := mk {
  hour : Z;
  co2_avg : option Q;
  temp_avg : option Q;
  sample_count : option Z
}.
End HourlyPattern.

(** [get_hourly_pattern], lines 589-611. *)
Definition get_hourly_pattern (db : Database) : list HourlyPattern.t :=
  let rs := rows (hourly_stats db) in
  map (fun k =>
         let group := filter (fun r => HourlyStats.hour_of_day r =? k) rs in
         HourlyPattern.mk k
           (round1_if_truthy (avg_column HourlyStats.co2_avg group))
           (round1_if_truthy (avg_column HourlyStats.temp_avg group))
           (sum_column HourlyStats.co2_count group))
    (distinct_sorted (map HourlyStats.hour_of_day rs)).

(** [seq[i]] on a Python list: negative indices count from the end, an
    index out of range is an [IndexError]. *)
Definition getitem {A : Type} (l : list A) (i : Z) : option A :=
  let n := Z.of_nat (List.length l) in
  if (0 <=? i) && (i <? n) then nth_error l (Z.to_nat i)
  else if (- n <=? i) && (i <? 0) then nth_error l (Z.to_nat (n + i))
  else None.

Definition day_names : list string :=
  ["Mon"; "Tue"; "Wed"; "Thu"; "Fri"; "Sat"; "Sun"]%string.

Module WeeklyPattern.
Record t : Type := mk {
  day : string;
  day_num : Z;
  co2_avg : option Q;
  temp_avg : option Q;
  sample_count : option Z
}.
End WeeklyPattern.

(** The list comprehension of [get_weekly_pattern] over the fetched
    group rows: the first [IndexError] ends it. *)
Fixpoint weekly_entries (rs : list HourlyStats.t) (keys : list Z)
    : option (list WeeklyPattern.t) :=
  match keys with
  | [] => Some []
  | k :: keys' =>
      let group := filter (fun r => HourlyStats.day_of_week r =? k) rs in
      name <- getitem day_names k ;;
      rest <- weekly_entries rs keys' ;;
      Some (WeeklyPattern.mk name k
              (round1_if_truthy (avg_column HourlyStats.co2_avg group))
              (round1_if_truthy (avg_column HourlyStats.temp_avg group))
              (sum_column HourlyStats.co2_count group)
            :: rest)
  end.

(** [get_weekly_pattern], lines 613-637. *)
Definition get_weekly_pattern (db : Database) : option (list WeeklyPattern.t) :=
  let rs := rows (hourly_stats db) in
  weekly_entries rs (distinct_sorted (map HourlyStats.day_of_week rs)).

(** [f"{n:02d}"] for a number from 0 to 99. *)
Definition format_02d (n : Z) : string :=
  String (Ascii.ascii_of_nat (48 + Z.to_nat (n / 10)))
    (String (Ascii.ascii_of_nat (48 + Z.to_nat (n mod 10))) EmptyString).

Module Comparison.
Record t : Type := mk {
  co2_avg : option Q;
  temp_avg : option Q;
  sample_count : Z;
  text : string
}.
End Comparison.

(** One [SELECT AVG(co2_avg), AVG(temp_avg), SUM(co2_count) FROM
    hourly_stats WHERE ...] of the two comparisons, made into its dict;
    [text] is the entry ['hours'] or ['description']. *)
Definition comparison_of (db : Database) (where_ : HourlyStats.t -> bool)
    (text : string) : Comparison.t :=
  let group := filter where_ (rows (hourly_stats db)) in
  Comparison.mk
    (round1_if_truthy (avg_column HourlyStats.co2_avg group))
    (round1_if_truthy (avg_column HourlyStats.temp_avg group))
    (or_zero (sum_column HourlyStats.co2_count group))
    text.

(** [get_day_night_comparison], lines 639-675: the pair of the entries
    ['day'] and ['night']. *)
Definition get_day_night_comparison (db : Database) : Comparison.t * Comparison.t :=
  (comparison_of db (fun r => HourlyStats.is_daytime r)
     (format_02d DAYTIME_START ++ ":00 - " ++ format_02d DAYTIME_END ++ ":00")%string,
   comparison_of db (fun r => negb (HourlyStats.is_daytime r))
     (format_02d DAYTIME_END ++ ":00 - " ++ format_02d DAYTIME_START ++ ":00")%string).

(** [get_workday_weekend_comparison], lines 677-713: the pair of the
    entries ['workday'] and ['weekend']. *)
Definition get_workday_weekend_comparison (db : Database)
    : Comparison.t * Comparison.t :=
  (comparison_of db (fun r => HourlyStats.is_workday r)
     ("Mon-Fri " ++ format_02d WORKDAY_START ++ ":00-"
      ++ format_02d WORKDAY_END ++ ":00")%string,
   comparison_of db (fun r => 5 <=? HourlyStats.day_of_week r)
     "Sat-Sun all day"%string).

Module RangeStats.
Record t : Type := mk {
  period : Z * Z;
  count : Z;
  co2 : Summary.t Z;
  co2_day_avg : option Q;
  co2_night_avg : option Q;
  temperature : Summary.t Q
}.
End RangeStats.




(** ** The aggregation engine, continued ([Aggregator], aggregator.py) *)

(** The [for] loop of [run_incremental], lines 259-269. *)
Fixpoint incremental_intervals (intervals : list Z) (db : Database) (now : Z)
    : option Database :=
  match intervals with
  | [] => Some db
  | interval :: intervals' =>
      let current_interval :=
        replace_minute now (minute now / interval * interval) in
      r1 <- aggregate_minute_interval db current_interval interval ;;
      let prev_interval := current_interval - timedelta_minutes interval in
      r2 <- aggregate_minute_interval (snd r1) prev_interval interval ;;
      incremental_intervals intervals' (snd r2) now
  end.

(** [run_incremental], lines 251-284; [now] is [datetime.now()]. *)
Definition run_incremental (db : Database) (now : Z) : option Database :=
  db1 <- incremental_intervals MINUTE_INTERVALS db now ;;
  let current_hour := replace_minute now 0 in
  r2 <- aggregate_hour db1 current_hour ;;
  let previous_hour := current_hour - timedelta_hours 1 in
  r3 <- aggregate_hour (snd r2) previous_hour ;;
  r4 <- aggregate_day (snd r3) (date_of now) ;;
  let yesterday := date_of now - 1 in
  r5 <- aggregate_day (snd r4) yesterday ;;
  Some (snd r5).

(** [cleanup_old_raw_data], lines 286-296. *)
Definition cleanup_old_raw_data (db : Database) (w : World)
    (days_to_keep : Z) (max_size_gb : Q) : option (Outcome Z) :=
  cleanup_if_size_exceeded db w max_size_gb days_to_keep.

(** ** The history endpoint ([get_history], api_server.py lines 182-292) *)

(** The values that the pattern of the [resolution] parameter admits:
    raw, 5min, 10min, 15min, hourly, daily, auto. *)
Inductive Resolution : Type :=
  | Raw
  | Min5
  | Min10
  | Min15
  | Hourly
  | Daily
  | Auto.

(** The [start] and [end] parameters: absent or empty (both falsy), a
    string that [datetime.fromisoformat] rejects, or one that it reads as
    the datetime [t] (with its microseconds). *)
Inductive IsoParam : Type :=
  | Missing
  | Malformed
  | Iso (t : Z).

Definition given (p : IsoParam) : bool :=
  match p with
  | Missing => false
  | _ => true
  end.

Definition fromisoformat (p : IsoParam) : option Z :=
  match p with
  | Iso t => Some t
  | _ => None
  end.

(** The value of an [Optional[int]] that passes [if v:]. *)
Definition nonzero (v : option Z) : option Z :=
  match v with
  | Some n => if n =? 0 then None else Some n
  | None => None
  end.

(** Lines 198-211: the time range [(start_dt, end_dt)]; [now] is
    [datetime.now()].  [None] is the [ValueError] of [fromisoformat] or
    the [OverflowError] of the subtraction. *)
Definition time_range (now : Z) (hours days : option Z) (start_ end_ : IsoParam)
    : option (Z * Z) :=
  if given start_ && given end_ then
    start_dt <- fromisoformat start_ ;;
    end_dt <- fromisoformat end_ ;;
    Some (start_dt, end_dt)
  else
    match nonzero days with
    | Some d =>
        let end_dt := now in
        start_dt <- datetime_sub end_dt (timedelta_days d) ;;
        Some (start_dt, end_dt)
    | None =>
        match nonzero hours with
        | Some h =>
            let end_dt := now in
            start_dt <- datetime_sub end_dt (timedelta_hours h) ;;
            Some (start_dt, end_dt)
        | None =>
            let end_dt := now in
            start_dt <- datetime_sub end_dt (timedelta_hours 24) ;;
            Some (start_dt, end_dt)
        end
    end.

(** Lines 214-225; [total_seconds() / 3600] of a difference of whole
    microseconds compares with 6, 24, 48 and 168 as the exact
    quotient does. *)
Definition auto_resolution (start_dt end_dt : Z) : Resolution :=
  let range_hours :=
    (inject_Z (end_dt - start_dt) / inject_Z (at_second 3600))%Q in
  if Qle_bool range_hours (inject_Z 6) then Raw
  else if Qle_bool range_hours (inject_Z 24) then Min5
  else if Qle_bool range_hours (inject_Z 48) then Min15
  else if Qle_bool range_hours (inject_Z (24 * 7)) then Hourly
  else Daily.

(** The entries of the [data] list of the response. *)
Module RawPoint.
Record t : Type := mk {
  timestamp : Z;
  co2_ppm : Z;
  temperature_celsius : option Q
}.
End RawPoint.

Module BucketPoint.
Record t : Type := mk {
  timestamp : Z;
  co2_min : option Z;
  co2_max : option Z;
  co2_avg : option Q;
  temp_avg : option Q;
  count : Z
}.
End BucketPoint.

Module DayPoint.
Record t : Type := mk {
  date : Z;
  co2_min : option Z;
  co2_max : option Z;
  co2_avg : option Q;
  co2_day_avg : option Q;
  co2_night_avg : option Q;
  temp_avg : option Q;
  count : Z;
  is_weekend : bool
}.
End DayPoint.

Inductive HistoryData : Type :=
  | RawData (points : list RawPoint.t)
  | BucketData (points : list BucketPoint.t)
  | DayData (points : list DayPoint.t).

Module History.
Record t : Type := mk {
  resolution : Resolution;
  data : HistoryData
}.
End History.

Definition raw_point (m : Measurement.t) : RawPoint.t :=
  RawPoint.mk (Measurement.timestamp m) (Measurement.co2_ppm m)
    (Measurement.temperature_celsius m).

Definition minute_point (s : MinuteStats.t) : BucketPoint.t :=
  BucketPoint.mk (MinuteStats.interval_start s) (MinuteStats.co2_min s)
    (MinuteStats.co2_max s) (MinuteStats.co2_avg s) (MinuteStats.temp_avg s)
    (MinuteStats.co2_count s).

Definition hour_point (s : HourlyStats.t) : BucketPoint.t :=
  BucketPoint.mk (HourlyStats.hour_start s) (HourlyStats.co2_min s)
    (HourlyStats.co2_max s) (HourlyStats.co2_avg s) (HourlyStats.temp_avg s)
    (HourlyStats.co2_count s).

Definition day_point (s : DailyStats.t) : DayPoint.t :=
  DayPoint.mk (DailyStats.date s) (DailyStats.co2_min s) (DailyStats.co2_max s)
    (DailyStats.co2_avg s) (DailyStats.co2_day_avg s) (DailyStats.co2_night_avg s)
    (DailyStats.temp_avg s) (DailyStats.measurement_count s) (DailyStats.is_weekend s).

(** [int(resolution.replace("min", ""))]; only the three minute
    resolutions reach the call. *)
Definition minutes_of (resolution : Resolution) : Z :=
  match resolution with
  | Min5 => 5
  | Min10 => 10
  | Min15 => 15
  | _ => 0
  end.

(** [get_history]; [None] is the exception of [time_range]. *)
Definition get_history (db : Database) (now : Z) (resolution : Resolution)
    (hours days : option Z) (start_ end_ : IsoParam) : option History.t :=
  range <- time_range now hours days start_ end_ ;;
  let start_dt := fst range in
  let end_dt := snd range in
  let resolution :=
    match resolution with
    | Auto => auto_resolution start_dt end_dt
    | _ => resolution
    end in
  match resolution with
  | Raw =>
      let measurements := get_range db start_dt end_dt in
      Some (History.mk Raw (RawData (map raw_point measurements)))
  | Min5 | Min10 | Min15 =>
      let interval := minutes_of resolution in
      let stats := get_minute_stats db start_dt end_dt interval in
      Some (History.mk resolution (BucketData (map minute_point stats)))
  | Hourly =>
      let stats := get_hourly_stats db start_dt end_dt in
      Some (History.mk Hourly (BucketData (map hour_point stats)))
  | _ =>
      let stats :=
        get_daily_stats db (date_of (second_of start_dt)) (date_of (second_of end_dt)) in
      Some (History.mk Daily (DayData (map day_point stats)))
  end.

(** ** The sensor protocol ([CO2Reader], co2_reader.py) *)

(** [KEY], line 24. *)
Definition KEY : list Z := [0xC4; 0xC6; 0xC0; 0x92; 0x40; 0x23; 0xDC; 0x96].

(** [[f(i) for i in range(8)]], where [f] may raise. *)
Fixpoint for_each {B : Type} (f : Z -> option B) (indices : list Z) : option (list B) :=
  match indices with
  | [] => Some []
  | i :: indices' =>
      b <- f i ;;
      bs <- for_each f indices' ;;
      Some (b :: bs)
  end.

Definition range8 : list Z := [0; 1; 2; 3; 4; 5; 6; 7].

(** [_decrypt], lines 78-94; bytes are integers from 0 to 255, [None] is
    the [IndexError] of a frame that is too short. *)
Definition _decrypt (data : list Z) : option (list Z) :=
  let shuffle := [2; 4; 0; 7; 1; 6; 5; 3] in
  phase1 <- for_each (fun i => j <- getitem shuffle i ;; getitem data j) range8 ;;
  phase2 <- for_each (fun i => a <- getitem phase1 i ;;
                               k <- getitem KEY i ;;
                               Some (Z.lxor a k)) range8 ;;
  for_each (fun i => a <- getitem phase2 i ;;
                     b <- getitem phase2 ((i - 1) mod 8) ;;
                     Some (Z.land (Z.lor (Z.shiftr a 3) (Z.shiftl b 5)) 0xFF)) range8.

(** * Vocabulary of the properties *)

(** ** Windows, keys and buckets *)

(** The rows that the statistics query of a step ranges over, and
    their number. *)
Definition select_window (db : Database) (start_ end_ : Z) : list Measurement.t :=
  filter (in_window start_ end_) (measurements db).

Definition window_count (db : Database) (start_ end_ : Z) : Z :=
  count (select_window db start_ end_).

(** After the statement the table holds exactly one row under the key,
    and the rows under every other key are the ones it held before. *)
Definition upserted {R : Type} (clashes : R -> bool) (old new : Table R) : Prop :=
  (exists row, filter clashes (rows new) = [row]) /\
  filter (fun r => negb (clashes r)) (rows new) =
  filter (fun r => negb (clashes r)) (rows old).

(** The key predicates of the three aggregate stores. *)
Definition minute_key (interval_start interval_minutes : Z) (r : MinuteStats.t) : bool :=
  (MinuteStats.interval_start r =? interval_start)
  && (MinuteStats.interval_minutes r =? interval_minutes).

Definition hour_key (hour_start : Z) (r : HourlyStats.t) : bool :=
  HourlyStats.hour_start r =? hour_start.

Definition day_key (stat_date : Z) (r : DailyStats.t) : bool :=
  DailyStats.date r =? stat_date.

(** The rows that [aggregate_hour], [aggregate_minute_interval] and
    [aggregate_day] hand to [INSERT OR REPLACE], as functions of the
    rowid; [aggregate_hour_eq] and its two siblings prove that these
    are the rows the steps write. *)
Definition hour_row (db : Database) (hour_start rowid : Z) : HourlyStats.t :=
  let row := select_stats db hour_start (hour_start + timedelta_hours 1) in
  let hour_of_day := hour hour_start in
  let day_of_week := weekday (date_of hour_start) in
  HourlyStats.mk rowid hour_start (row0 row) (row1 row)
    (option_map round1 (row2 row)) (row3 row) (row4 row) (row5 row)
    (round1_if_truthy (row6 row))
    ((day_of_week <? 5) && ((WORKDAY_START <=? hour_of_day) && (hour_of_day <? WORKDAY_END)))
    ((DAYTIME_START <=? hour_of_day) && (hour_of_day <? DAYTIME_END))
    hour_of_day day_of_week.

Definition minute_row (db : Database) (interval_start interval_minutes rowid : Z)
    : MinuteStats.t :=
  let row := select_stats db interval_start
               (interval_start + timedelta_minutes interval_minutes) in
  MinuteStats.mk rowid interval_start interval_minutes (row0 row) (row1 row)
    (option_map round1 (row2 row)) (row3 row) (row4 row) (row5 row)
    (round1_if_truthy (row6 row)).

Definition day_row (db : Database) (stat_date rowid : Z) : DailyStats.t :=
  let day_start := combine_midnight stat_date in
  let day_end := day_start + timedelta_days 1 in
  let row := select_stats db day_start day_end in
  DailyStats.mk rowid stat_date (row0 row) (row1 row)
    (option_map round1 (row2 row))
    (round1_if_truthy (avg_Z (co2_values (select_day_rows db day_start day_end))))
    (round1_if_truthy (avg_Z (co2_values (select_night_rows db day_start day_end))))
    (row4 row) (row5 row) (round1_if_truthy (row6 row)) (row3 row)
    (5 <=? weekday stat_date).

(** The stores that a step on one resolution has no business with. *)
Definition minute_step_frame (db db' : Database) : Prop :=
  measurements db' = measurements db /\ hourly_stats db' = hourly_stats db /\
  daily_stats db' = daily_stats db /\ pattern_averages db' = pattern_averages db.

Definition hour_step_frame (db db' : Database) : Prop :=
  measurements db' = measurements db /\ minute_stats db' = minute_stats db /\
  daily_stats db' = daily_stats db /\ pattern_averages db' = pattern_averages db.

Definition day_step_frame (db db' : Database) : Prop :=
  measurements db' = measurements db /\ minute_stats db' = minute_stats db /\
  hourly_stats db' = hourly_stats db /\ pattern_averages db' = pattern_averages db.

(** Two states of an aggregate store hold the same buckets: under the
    key, rows that agree on every column but the rowid; under all other
    keys, the very same rows. *)
Definition same_buckets {R C : Type} (contents : R -> C) (key : R -> bool)
    (tbl tbl' : Table R) : Prop :=
  map contents (filter key (rows tbl')) = map contents (filter key (rows tbl)) /\
  filter (fun r => negb (key r)) (rows tbl') = filter (fun r => negb (key r)) (rows tbl).

(** The values that the reference example expects in the stored row. *)
Definition reference_bucket (row : HourlyStats.t) : Prop :=
  HourlyStats.co2_min row = Some 500 /\
  HourlyStats.co2_max row = Some 600 /\
  (exists q, HourlyStats.co2_avg row = Some q /\ (q == 550)%Q) /\
  HourlyStats.co2_count row = 3.

(** The readings of a window as (timestamp, ppm) pairs, in rowid order. *)
Definition window_readings (db : Database) (start_ end_ : Z) : list (Z * Z) :=
  map (fun m => (Measurement.timestamp m, Measurement.co2_ppm m))
    (select_window db start_ end_).

(** The start of the one window of width [width] that holds timestamp [t]. *)
Definition window_start (width t : Z) : Z := t - t mod width.

(** The order of [ORDER BY timestamp]. *)
Definition by_timestamp (a b : Measurement.t) : Prop :=
  Measurement.timestamp a <= Measurement.timestamp b.

(** ** Retention *)

(** From [db] to [db'] rows were deleted from the raw store, none
    added, changed or moved, and the four aggregate stores are the
    same. *)
Definition only_raw_rows_deleted (db db' : Database) : Prop :=
  (exists keep, measurements db' = filter keep (measurements db)) /\
  minute_stats db' = minute_stats db /\
  hourly_stats db' = hourly_stats db /\
  daily_stats db' = daily_stats db /\
  pattern_averages db' = pattern_averages db.

(** A reading is recent with respect to a floor of [floor_days] days
    when no reading of the clock during the call puts it further back. *)
Definition recent (w : World) (floor_days : Z) (m : Measurement.t) : Prop :=
  forall k,
    clock w k - at_second (timedelta_days floor_days)
    <= at_second (Measurement.timestamp m).

(** A run of calls of [cleanup_if_size_exceeded], each with its own
    view of the world, size bound and retention period; a call that
    raises leaves its database to the next one. *)
Fixpoint cleanup_repeatedly (calls : list (World * Q * Z)) (db : Database)
    : option Database :=
  match calls with
  | [] => Some db
  | (w, max_size_gb, days_to_keep) :: calls' =>
      r <- cleanup_if_size_exceeded db w max_size_gb days_to_keep ;;
      cleanup_repeatedly calls' (database_after r)
  end.

(** ** Texts and years *)

(** Comparison by a first key, then by a second. *)
Definition lex (c c' : comparison) : comparison :=
  match c with
  | Eq => c'
  | _ => c
  end.

(** Months of all years in one count, and days of all months. *)
Definition calendar_key (z : Z) : Z :=
  let z := z + 719468 in
  let era := z / 146097 in
  let doe := z mod 146097 in
  let yoe := (doe - doe / 1460 + doe / 36524 - doe / 146096) / 365 in
  let y := yoe + era * 400 in
  let doy := doe - (365 * yoe + yoe / 4 - yoe / 100) in
  let mp := (5 * doy + 2) / 153 in
  let d := doy - (153 * mp + 2) / 5 + 1 in
  (12 * y + mp + 3) * 32 + d.

(** 1000-01-01 00:00:00 and 10000-01-01 00:00:00; the second [t] lies in
    a year of four digits. *)
Definition YEAR_1000 : Z := -30610224000.
Definition YEAR_10000 : Z := 253402300800.

Definition four_digit_year (t : Z) : Prop := YEAR_1000 <= t < YEAR_10000.

(** Every stored reading is stamped in a year of four digits. *)
Definition stamped_in_four_digit_years (db : Database) : Prop :=
  Forall (fun m => four_digit_year (Measurement.timestamp m)) (measurements db).

(** Every reading of the clock, and the cutoff [days] days before it,
    lies in a year of four digits. *)
Definition in_four_digit_years (w : World) (days : Z) : Prop :=
  forall k,
    at_second YEAR_1000 <= clock w k - at_second (timedelta_days days) /\
    clock w k < at_second YEAR_10000.

(** [WHERE timestamp BETWEEN ? AND ?] as a condition on instants. *)
Definition within (start_ end_ : Z) (m : Measurement.t) : bool :=
  (second_of start_ <=? Measurement.timestamp m)
  && (Measurement.timestamp m <=? second_of end_).

(** ** Rounding *)

(** [q] is [x] rounded to one decimal place: a whole number of tenths
    at most half a tenth away from [x]. *)
Definition rounded_to_one_decimal (x q : Q) : Prop :=
  (exists tenths : Z, q = tenths # 10) /\ (Qabs (q - x) <= 1 # 20)%Q.

(** ** Loops *)

(** The shape shared by the three loops of [backfill_all]:
    [while current <= end: body(current); current += stride]. *)
Fixpoint while_le (body : Database -> Z -> option (bool * Database))
    (stride : Z) (fuel : nat) (db : Database) (current end_ : Z)
    : option Database :=
  if current <=? end_ then
    match fuel with
    | O => None
    | S fuel' =>
        r <- body db current ;;
        while_le body stride fuel' (snd r) (current + stride) end_
    end
  else Some db.

(** The store holds exactly one row for the hour [H], and the row
    counts the readings that [db0] has in that hour. *)
Definition hour_complete (db0 db : Database) (H : Z) : Prop :=
  exists row,
    filter (hour_key H) (rows (hourly_stats db)) = [row] /\
    HourlyStats.co2_count row = window_count db0 H (H + timedelta_hours 1).

(** The hour [H] is one that the hour loop started at [start0] visits. *)
Definition hour_from (start0 H : Z) : Prop :=
  exists k, 0 <= k /\ H = start0 + k * timedelta_hours 1.

(** The invariant of the hour loop when its variable has reached [c]:
    nothing but [hourly_stats] has changed, and every visited hour that
    holds a reading is complete. *)
Definition hours_done (db0 : Database) (start0 c : Z) (db : Database) : Prop :=
  hour_from start0 c /\
  hour_step_frame db0 db /\
  forall H, hour_from start0 H -> H < c ->
            0 < window_count db0 H (H + timedelta_hours 1) ->
            hour_complete db0 db H.

(** * Vocabulary of the further properties *)

(** ** Sample data, continued *)

(** [example_db] with the counter that three inserts leave behind. *)
Definition example_store : Store := mkStore example_db 3.

(** 15:30:00 and 15:10:00 of the sample day. *)
Definition t_15_30 : Z := t_14_00 + timedelta_minutes 90.
Definition t_15_10 : Z := t_14_00 + timedelta_minutes 70.

(** [afternoon_db] after a full backfill. *)
Definition afternoon_aggregated : Database :=
  Eval vm_compute in
    match backfill_all afternoon_db with
    | Some db => db
    | None => afternoon_db
    end.

(** ** Stores *)

(** The four aggregate stores are the same in both databases. *)
Definition same_aggregates (db db' : Database) : Prop :=
  minute_stats db' = minute_stats db /\
  hourly_stats db' = hourly_stats db /\
  daily_stats db' = daily_stats db /\
  pattern_averages db' = pattern_averages db.

(** No two stored readings share a rowid. *)
Definition distinct_ids (db : Database) : Prop :=
  NoDup (map Measurement.id (measurements db)).

(** ** Queries *)

(** [x BETWEEN lo AND hi] on numbers. *)
Definition between_Z (lo hi x : Z) : bool := (lo <=? x) && (x <=? hi).

(** Every key of the three aggregate stores lies in a year of four
    digits. *)
Definition keyed_in_four_digit_years (db : Database) : Prop :=
  Forall (fun r => four_digit_year (MinuteStats.interval_start r))
    (rows (minute_stats db)) /\
  Forall (fun r => four_digit_year (HourlyStats.hour_start r))
    (rows (hourly_stats db)) /\
  Forall (fun r => four_digit_year (combine_midnight (DailyStats.date r)))
    (rows (daily_stats db)).

(** The order of [ORDER BY] on an integer or timestamp column. *)
Definition ascending {A : Type} (key : A -> Z) (a b : A) : Prop := key a <= key b.

(** ** Invariants of the aggregate stores *)

(** The four calendar columns of an hourly row are the ones that its
    [hour_start] gives. *)
Definition calendar_ok (r : HourlyStats.t) : Prop :=
  HourlyStats.hour_of_day r = hour (HourlyStats.hour_start r) /\
  HourlyStats.day_of_week r = weekday (date_of (HourlyStats.hour_start r)) /\
  0 <= HourlyStats.hour_of_day r < 24 /\
  0 <= HourlyStats.day_of_week r < 7 /\
  (HourlyStats.is_daytime r = true <->
   DAYTIME_START <= HourlyStats.hour_of_day r < DAYTIME_END) /\
  (HourlyStats.is_workday r = true <->
   HourlyStats.day_of_week r < 5 /\
   WORKDAY_START <= HourlyStats.hour_of_day r < WORKDAY_END).

Definition calendar_tagged (db : Database) : Prop :=
  Forall calendar_ok (rows (hourly_stats db)).

(** No two rows of an aggregate store share the key of the store. *)
Definition unique_buckets (db : Database) : Prop :=
  NoDup (map (fun r => (MinuteStats.interval_start r, MinuteStats.interval_minutes r))
           (rows (minute_stats db))) /\
  NoDup (map HourlyStats.hour_start (rows (hourly_stats db))) /\
  NoDup (map DailyStats.date (rows (daily_stats db))).

(** Every row of an aggregate store counts at least one reading, and
    as many as the raw store holds in the window of the row. *)
Definition buckets_match_raw (db : Database) : Prop :=
  Forall (fun r =>
            0 < MinuteStats.co2_count r /\
            MinuteStats.co2_count r =
            window_count db (MinuteStats.interval_start r)
              (MinuteStats.interval_start r
               + timedelta_minutes (MinuteStats.interval_minutes r)))
    (rows (minute_stats db)) /\
  Forall (fun r =>
            0 < HourlyStats.co2_count r /\
            HourlyStats.co2_count r =
            window_count db (HourlyStats.hour_start r)
              (HourlyStats.hour_start r + timedelta_hours 1))
    (rows (hourly_stats db)) /\
  Forall (fun r =>
            0 < DailyStats.measurement_count r /\
            DailyStats.measurement_count r =
            window_count db (combine_midnight (DailyStats.date r))
              (combine_midnight (DailyStats.date r) + timedelta_days 1))
    (rows (daily_stats db)).

(** ** Retention, continued *)

(** The readings that are not older than the second of the datetime
    [days] days before [now]. *)
Definition not_older_than (now days : Z) (ms : list Measurement.t)
    : list Measurement.t :=
  filter (fun m => second_of (now - at_second (timedelta_days days))
                   <=? Measurement.timestamp m) ms.

(** The cutoff [days] days before the datetime [now] lies in a year of
    four digits. *)
Definition cutoff_in_four_digit_years (now days : Z) : Prop :=
  at_second YEAR_1000 <= now - at_second (timedelta_days days) < at_second YEAR_10000.

(** The file is over the bound at every look. *)
Definition always_over (w : World) (max_size_gb : Q) : Prop :=
  forall k, ~ (file_size_mb w k <= max_size_gb * 1024)%Q.

(** The clock shows [now] at every look. *)
Definition clock_stands_at (w : World) (now : Z) : Prop :=
  forall k, clock w k = now.

(** 16:00:00.250000 three days after the sample day, with a file of
    6000 MB. *)
Definition three_days_later : World :=
  steady_world (at_second (t_14_00 + timedelta_days 3 + timedelta_hours 2) + 250000) 6000.

(** ** Complete buckets *)

(** The store holds exactly one row for the window of width
    [interval_minutes] that starts at [interval_start], and the row
    counts the readings that [db0] has in that window. *)
Definition minute_complete (db0 db : Database) (interval_start interval_minutes : Z)
    : Prop :=
  exists row,
    filter (minute_key interval_start interval_minutes) (rows (minute_stats db)) = [row] /\
    MinuteStats.co2_count row =
    window_count db0 interval_start
      (interval_start + timedelta_minutes interval_minutes).

(** The same for the day [stat_date]. *)
Definition day_complete (db0 db : Database) (stat_date : Z) : Prop :=
  exists row,
    filter (day_key stat_date) (rows (daily_stats db)) = [row] /\
    DailyStats.measurement_count row =
    window_count db0 (combine_midnight stat_date)
      (combine_midnight stat_date + timedelta_days 1).

(** The windows that [run_incremental] aggregates at time [now]. *)
Definition current_interval (now interval : Z) : Z :=
  replace_minute now (minute now / interval * interval).

Definition incremental_minute (now interval_start interval_minutes : Z) : Prop :=
  In interval_minutes MINUTE_INTERVALS /\
  (interval_start = current_interval now interval_minutes \/
   interval_start = current_interval now interval_minutes
                    - timedelta_minutes interval_minutes).

Definition incremental_hour (now H : Z) : Prop :=
  H = replace_minute now 0 \/ H = replace_minute now 0 - timedelta_hours 1.

Definition incremental_day (now d : Z) : Prop :=
  d = date_of now \/ d = date_of now - 1.

(** The window start is one that a loop started at [start0] with step
    [stride] reaches. *)
Definition reached_from (start0 stride s : Z) : Prop :=
  exists k, 0 <= k /\ s = start0 + k * stride.

(** ** The history endpoint *)

(** The resolution that [auto] stands for when the range is the last
    [d] days. *)
Definition resolution_for_days (d : Z) : Resolution :=
  if d <? 0 then Raw
  else if d =? 1 then Min5
  else if d =? 2 then Min15
  else if d <=? 7 then Hourly
  else Daily.

(** The points of a response that are stamped [t]. *)
Definition points_at (t : Z) (points : list BucketPoint.t) : list BucketPoint.t :=
  filter (fun p => BucketPoint.timestamp p =? t) points.

(** ** The sensor protocol *)

(** A frame of the device: eight bytes. *)
Definition is_byte (b : Z) : Prop := 0 <= b < 256.

Definition is_frame (data : list Z) : Prop :=
  List.length data = 8%nat /\ Forall is_byte data.

(** The final transformation of [_decrypt] on one byte and the byte
    before it. *)
Definition rotate (a b : Z) : Z :=
  Z.land (Z.lor (Z.shiftr a 3) (Z.shiftl b 5)) 0xFF.

(** The numbers from 0 up to, but not including, [n]. *)
Definition below (n : nat) : list Z := map Z.of_nat (List.seq 0 n).

(** A frame of eight bytes. *)
Definition sample_frame : list Z := [0x50; 0x02; 0x30; 0x82; 0x0D; 0x00; 0x00; 0x00].

(** * Properties *)

(** ** Texts and instants *)

Lemma lex_assoc (a b c : comparison) : lex a (lex b c) = lex (lex a b) c.
Proof. now destruct a. Qed.

Lemma lex_Eq_r (c : comparison) : lex c Eq = c.
Proof. now destruct c. Qed.

Lemma lex_compare_pair (a b a' b' lo hi : Z) :
  lo <= b < hi -> lo <= b' < hi ->
  lex (a ?= a') (b ?= b') = (a * (hi - lo) + b ?= a' * (hi - lo) + b').
Proof.
  intros Hb Hb'.
  destruct (Z.compare_spec a a') as [E|E|E];
    destruct (Z.compare_spec b b') as [E'|E'|E'];
    destruct (Z.compare_spec (a * (hi - lo) + b) (a' * (hi - lo) + b')) as [E''|E''|E''];
    cbn [lex]; try reflexivity; exfalso; nia.
Qed.

(** Digits are ordered as their characters. *)
Lemma digit_compare (a b : Z) :
  (digit a ?= digit b)%char = (a mod 10 ?= b mod 10).
Proof.
  unfold digit, Ascii.compare.
  pose proof (Z.mod_pos_bound a 10 ltac:(lia)).
  pose proof (Z.mod_pos_bound b 10 ltac:(lia)).
  rewrite (N_ascii_embedding (Z.to_N (48 + a mod 10))) by lia.
  rewrite (N_ascii_embedding (Z.to_N (48 + b mod 10))) by lia.
  rewrite Z2N.inj_compare by lia.
  apply Z.add_compare_mono_l.
Qed.

Lemma compare_same (c : ascii) (s s' : string) :
  (String c s ?= String c s')%string = (s ?= s')%string.
Proof.
  cbn [String.compare]. unfold Ascii.compare. now rewrite N.compare_refl.
Qed.

Lemma pad2_compare (a b : Z) (s s' : string) :
  0 <= a < 100 -> 0 <= b < 100 ->
  (pad2 a s ?= pad2 b s')%string = lex (a ?= b) (s ?= s')%string.
Proof.
  intros Ha Hb. unfold pad2. cbn [String.compare]. rewrite !digit_compare.
  rewrite (Z.mod_small (a / 10)), (Z.mod_small (b / 10))
    by (Z.div_mod_to_equations; lia).
  destruct (Z.compare_spec (a / 10) (b / 10)) as [E|E|E];
    destruct (Z.compare_spec (a mod 10) (b mod 10)) as [E'|E'|E'];
    destruct (Z.compare_spec a b) as [E''|E''|E'']; cbn [lex];
    try reflexivity; exfalso; Z.div_mod_to_equations; lia.
Qed.

Lemma pad4_compare (a b : Z) (s s' : string) :
  0 <= a < 10000 -> 0 <= b < 10000 ->
  (pad4 a s ?= pad4 b s')%string = lex (a ?= b) (s ?= s')%string.
Proof.
  intros Ha Hb. unfold pad4.
  assert (Hlow : forall n r, pad2 n r = pad2 (n mod 100) r).
  { intros n r. unfold pad2, digit.
    replace ((n mod 100 / 10) mod 10) with ((n / 10) mod 10)
      by (Z.div_mod_to_equations; lia).
    replace ((n mod 100) mod 10) with (n mod 10) by (Z.div_mod_to_equations; lia).
    reflexivity. }
  rewrite (Hlow a), (Hlow b).
  rewrite pad2_compare by (Z.div_mod_to_equations; lia).
  rewrite pad2_compare by (Z.div_mod_to_equations; lia).
  destruct (Z.compare_spec (a / 100) (b / 100)) as [E|E|E];
    destruct (Z.compare_spec (a mod 100) (b mod 100)) as [E'|E'|E'];
    destruct (Z.compare_spec a b) as [E''|E''|E'']; cbn [lex];
    try reflexivity; exfalso; Z.div_mod_to_equations; lia.
Qed.

(** The month is one of twelve, the day one of at most 31, and the
    date determines the [calendar_key] of the day. *)
Lemma civil_from_days_key (z : Z) :
  let '(y, m, d) := civil_from_days z in
  1 <= m <= 12 /\ 1 <= d <= 31 /\ (12 * y + m) * 32 + d = calendar_key z.
Proof.
  unfold civil_from_days, calendar_key. cbv zeta.
  set (doe := (z + 719468) mod 146097).
  assert (Hdoe : 0 <= doe < 146097) by (apply Z.mod_pos_bound; lia).
  set (yoe := (doe - doe / 1460 + doe / 36524 - doe / 146096) / 365).
  set (doy := doe - (365 * yoe + yoe / 4 - yoe / 100)).
  assert (Hdoy : 0 <= doy <= 365).
  { subst doy yoe. Z.div_mod_to_equations. lia. }
  set (mp := (5 * doy + 2) / 153).
  assert (Hmp : 0 <= mp <= 11) by (subst mp; Z.div_mod_to_equations; lia).
  set (d := doy - (153 * mp + 2) / 5 + 1).
  assert (Hd : 1 <= d <= 31) by (subst d mp; Z.div_mod_to_equations; lia).
  destruct (Z.ltb_spec mp 10);
    [destruct (Z.leb_spec (mp + 3) 2)|destruct (Z.leb_spec (mp - 9) 2)];
    repeat split; lia.
Qed.

(** A later day has a later date. *)
Lemma calendar_key_mono (a b : Z) : a < b -> calendar_key a < calendar_key b.
Proof.
  intro Hab. unfold calendar_key. cbv zeta.
  set (ea := (a + 719468) / 146097). set (eb := (b + 719468) / 146097).
  set (da := (a + 719468) mod 146097). set (db := (b + 719468) mod 146097).
  assert (Hda : 0 <= da < 146097) by (apply Z.mod_pos_bound; lia).
  assert (Hdb : 0 <= db < 146097) by (apply Z.mod_pos_bound; lia).
  assert (Ha : a + 719468 = 146097 * ea + da) by (apply Z.div_mod; lia).
  assert (Hb : b + 719468 = 146097 * eb + db) by (apply Z.div_mod; lia).
  set (ya := (da - da / 1460 + da / 36524 - da / 146096) / 365).
  set (yb := (db - db / 1460 + db / 36524 - db / 146096) / 365).
  assert (Hya : 0 <= ya <= 399) by (subst ya; Z.div_mod_to_equations; lia).
  assert (Hyb : 0 <= yb <= 399) by (subst yb; Z.div_mod_to_equations; lia).
  set (oa := da - (365 * ya + ya / 4 - ya / 100)).
  set (ob := db - (365 * yb + yb / 4 - yb / 100)).
  assert (Hoa : 0 <= oa <= 365) by (subst oa ya; Z.div_mod_to_equations; lia).
  assert (Hob : 0 <= ob <= 365) by (subst ob yb; Z.div_mod_to_equations; lia).
  set (ma := (5 * oa + 2) / 153). set (mb := (5 * ob + 2) / 153).
  assert (Hma : 0 <= ma <= 11) by (subst ma; Z.div_mod_to_equations; lia).
  assert (Hmb : 0 <= mb <= 11) by (subst mb; Z.div_mod_to_equations; lia).
  set (xa := oa - (153 * ma + 2) / 5 + 1). set (xb := ob - (153 * mb + 2) / 5 + 1).
  assert (Hxa : 1 <= xa <= 31) by (subst xa ma; Z.div_mod_to_equations; lia).
  assert (Hxb : 1 <= xb <= 31) by (subst xb mb; Z.div_mod_to_equations; lia).
  assert (He : ea <= eb) by nia.
  destruct (Z.eq_dec ea eb) as [Ee|Ne]; [|nia].
  assert (Hd : da < db) by nia.
  assert (Hy : ya <= yb) by (subst ya yb; Z.div_mod_to_equations; lia).
  destruct (Z.eq_dec ya yb) as [Ey|Ny]; [|nia].
  assert (Ho : oa < ob) by (subst oa ob; rewrite Ey; lia).
  assert (Hm : ma <= mb) by (subst ma mb; Z.div_mod_to_equations; lia).
  destruct (Z.eq_dec ma mb) as [Em|Nm]; [|nia].
  assert (Hx : xa < xb) by (subst xa xb; rewrite Em; lia).
  rewrite Ee, Ey, Em. lia.
Qed.

Lemma calendar_key_compare (a b : Z) : (calendar_key a ?= calendar_key b) = (a ?= b).
Proof.
  destruct (Z.compare_spec a b) as [->|H|H].
  - apply Z.compare_refl.
  - apply Z.compare_lt_iff. now apply calendar_key_mono.
  - apply Z.compare_gt_iff. now apply calendar_key_mono.
Qed.

Lemma civil_year_range (t : Z) :
  four_digit_year t ->
  let '(y, m, d) := civil_from_days (t / SECONDS_PER_DAY) in 1000 <= y <= 9999.
Proof.
  unfold four_digit_year, YEAR_1000, YEAR_10000, SECONDS_PER_DAY. intro Ht.
  assert (Hd : -354285 <= t / 86400 <= 2932896) by (Z.div_mod_to_equations; lia).
  pose proof (civil_from_days_key (t / 86400)) as Hk.
  destruct (civil_from_days (t / 86400)) as [[y m] d].
  destruct Hk as (Hm & Hdd & Hk).
  assert (Hlo : calendar_key (-354285) <= calendar_key (t / 86400)).
  { destruct (Z.eq_dec (-354285) (t / 86400)) as [<-|Hne]; [lia|].
    apply Z.lt_le_incl, calendar_key_mono. lia. }
  assert (Hhi : calendar_key (t / 86400) <= calendar_key 2932896).
  { destruct (Z.eq_dec (t / 86400) 2932896) as [->|Hne]; [lia|].
    apply Z.lt_le_incl, calendar_key_mono. lia. }
  change (calendar_key (-354285)) with ((12 * 1000 + 1) * 32 + 1) in Hlo.
  change (calendar_key 2932896) with ((12 * 9999 + 12) * 32 + 31) in Hhi.
  lia.
Qed.

Lemma clock_compare (r1 r2 : Z) :
  lex (r1 / 3600 ?= r2 / 3600)
    (lex (r1 mod 3600 / 60 ?= r2 mod 3600 / 60) (r1 mod 60 ?= r2 mod 60))
  = (r1 ?= r2).
Proof.
  destruct (Z.compare_spec (r1 / 3600) (r2 / 3600));
    destruct (Z.compare_spec (r1 mod 3600 / 60) (r2 mod 3600 / 60));
    destruct (Z.compare_spec (r1 mod 60) (r2 mod 60));
    destruct (Z.compare_spec r1 r2); cbn [lex]; try reflexivity; exfalso;
    Z.div_mod_to_equations; lia.
Qed.

Lemma date_compare (y1 m1 d1 y2 m2 d2 : Z) :
  1 <= m1 <= 12 -> 1 <= d1 <= 31 -> 1 <= m2 <= 12 -> 1 <= d2 <= 31 ->
  lex (y1 ?= y2) (lex (m1 ?= m2) (d1 ?= d2))
  = ((12 * y1 + m1) * 32 + d1 ?= (12 * y2 + m2) * 32 + d2).
Proof.
  intros.
  destruct (Z.compare_spec y1 y2); destruct (Z.compare_spec m1 m2);
    destruct (Z.compare_spec d1 d2);
    destruct (Z.compare_spec ((12 * y1 + m1) * 32 + d1) ((12 * y2 + m2) * 32 + d2));
    cbn [lex]; try reflexivity; exfalso; lia.
Qed.

(** In the years of four digits the texts of two timestamps are ordered
    as the timestamps. *)
Lemma stored_text_compare (t1 t2 : Z) :
  four_digit_year t1 -> four_digit_year t2 ->
  (stored_text t1 ?= stored_text t2)%string = (t1 ?= t2).
Proof.
  intros H1 H2. unfold stored_text, time_text.
  pose proof (civil_year_range t1 H1) as Y1.
  pose proof (civil_year_range t2 H2) as Y2.
  pose proof (civil_from_days_key (t1 / SECONDS_PER_DAY)) as K1.
  pose proof (civil_from_days_key (t2 / SECONDS_PER_DAY)) as K2.
  destruct (civil_from_days (t1 / SECONDS_PER_DAY)) as [[y1 m1] d1].
  destruct (civil_from_days (t2 / SECONDS_PER_DAY)) as [[y2 m2] d2].
  destruct K1 as (Hm1 & Hd1 & K1), K2 as (Hm2 & Hd2 & K2).
  unfold SECONDS_PER_DAY in *.
  set (r1 := t1 mod 86400). set (r2 := t2 mod 86400).
  assert (Hr1 : 0 <= r1 < 86400) by (apply Z.mod_pos_bound; lia).
  assert (Hr2 : 0 <= r2 < 86400) by (apply Z.mod_pos_bound; lia).
  rewrite pad4_compare, compare_same, pad2_compare, compare_same, pad2_compare,
    compare_same, pad2_compare, compare_same, pad2_compare, compare_same, pad2_compare
    by (try lia; Z.div_mod_to_equations; lia).
  cbn [String.compare]. rewrite lex_Eq_r.
  rewrite (lex_assoc (m1 ?= m2)), (lex_assoc (y1 ?= y2)).
  rewrite clock_compare, date_compare, K1, K2, calendar_key_compare by assumption.
  rewrite (lex_compare_pair (t1 / 86400) r1 (t2 / 86400) r2 0 86400) by assumption.
  subst r1 r2. f_equal; Z.div_mod_to_equations; lia.
Qed.

Lemma year_text_four_digit (y : Z) (rest : string) :
  1000 <= y -> year_text y rest = pad4 y rest.
Proof.
  intro Hy. unfold year_text.
  destruct (Z.ltb_spec y 10); [lia|]. destruct (Z.ltb_spec y 100); [lia|].
  destruct (Z.ltb_spec y 1000); [lia|reflexivity].
Qed.

(** In the years of four digits [strftime] writes the text that SQLite
    stores for the second of the datetime. *)
Lemma strftime_four_digit (dt : Z) :
  four_digit_year (second_of dt) -> strftime dt = stored_text (second_of dt).
Proof.
  intro Ht. unfold strftime, stored_text, time_text.
  pose proof (civil_year_range (second_of dt) Ht) as Hy.
  destruct (civil_from_days (second_of dt / SECONDS_PER_DAY)) as [[y m] d].
  apply year_text_four_digit. lia.
Qed.

Lemma stored_leb_strftime (t dt : Z) :
  four_digit_year t -> four_digit_year (second_of dt) ->
  String.leb (stored_text t) (strftime dt) = (t <=? second_of dt).
Proof.
  intros Ht Hdt. rewrite (strftime_four_digit dt Hdt).
  unfold String.leb, Z.leb. now rewrite stored_text_compare.
Qed.

Lemma strftime_leb_stored (dt t : Z) :
  four_digit_year (second_of dt) -> four_digit_year t ->
  String.leb (strftime dt) (stored_text t) = (second_of dt <=? t).
Proof.
  intros Hdt Ht. rewrite (strftime_four_digit dt Hdt).
  unfold String.leb, Z.leb. now rewrite stored_text_compare.
Qed.

Lemma stored_ltb_strftime (t dt : Z) :
  four_digit_year t -> four_digit_year (second_of dt) ->
  String.ltb (stored_text t) (strftime dt) = (t <? second_of dt).
Proof.
  intros Ht Hdt. rewrite (strftime_four_digit dt Hdt).
  unfold String.ltb, Z.ltb. now rewrite stored_text_compare.
Qed.

Lemma second_of_at_second (t : Z) : second_of (at_second t) = t.
Proof.
  unfold second_of, at_second, MICROSECONDS_PER_SECOND. apply Z.div_mul. lia.
Qed.

Lemma at_second_mono (a b : Z) : a <= b -> at_second a <= at_second b.
Proof. unfold at_second, MICROSECONDS_PER_SECOND. lia. Qed.

(** A whole second is not after a datetime exactly when it is not after
    the second of the datetime. *)
Lemma le_second_of (t dt : Z) : t <= second_of dt <-> at_second t <= dt.
Proof.
  unfold second_of, at_second, MICROSECONDS_PER_SECOND.
  split; intro H; Z.div_mod_to_equations; lia.
Qed.

Lemma second_of_le (dt t : Z) : dt <= at_second t -> second_of dt <= t.
Proof.
  unfold second_of, at_second, MICROSECONDS_PER_SECOND.
  intro H. Z.div_mod_to_equations. lia.
Qed.

(** The difference of a datetime and a [timedelta] that stays in the
    years of four digits is a datetime. *)
Lemma datetime_sub_four_digit (dt delta : Z) :
  at_second YEAR_1000 <= dt - at_second delta < at_second YEAR_10000 ->
  datetime_sub dt delta = Some (dt - at_second delta) /\
  four_digit_year (second_of (dt - at_second delta)).
Proof.
  intro H. unfold datetime_sub, four_digit_year, second_of. cbv zeta.
  unfold DATETIME_MIN, DATETIME_MAX, YEAR_1000, YEAR_10000, at_second,
    MICROSECONDS_PER_SECOND in *.
  destruct (Z.leb_spec (-62135596800 * 1000000) (dt - delta * 1000000)); [|lia].
  destruct (Z.leb_spec (dt - delta * 1000000) (253402300800 * 1000000 - 1)); [|lia].
  split; [reflexivity|]. Z.div_mod_to_equations. lia.
Qed.

(** ** Windows and SQL aggregates *)

Lemma in_window_spec (start_ end_ : Z) (m : Measurement.t) :
  in_window start_ end_ m = true <->
  start_ <= Measurement.timestamp m < end_.
Proof. unfold in_window. rewrite andb_true_iff, Z.leb_le, Z.ltb_lt. tauto. Qed.

Lemma within_spec (start_ end_ : Z) (m : Measurement.t) :
  within start_ end_ m = true <->
  second_of start_ <= Measurement.timestamp m <= second_of end_.
Proof. unfold within. rewrite andb_true_iff, !Z.leb_le. tauto. Qed.

(** Between two datetimes of four-digit years the comparison of texts
    selects the readings stamped from the second of the one to the
    second of the other. *)
Lemma between_spec (start_ end_ : Z) (m : Measurement.t) :
  four_digit_year (second_of start_) -> four_digit_year (second_of end_) ->
  four_digit_year (Measurement.timestamp m) ->
  between (strftime start_) (strftime end_) m = within start_ end_ m.
Proof.
  intros Hs He Hm. unfold between, within.
  now rewrite strftime_leb_stored, stored_leb_strftime.
Qed.

Lemma count_nonneg {A : Type} (l : list A) : 0 <= count l.
Proof. unfold count. lia. Qed.

Lemma count_zero {A : Type} (l : list A) : count l = 0 <-> l = [].
Proof.
  unfold count. destruct l as [|a l]; simpl; split; intro E; try easy; lia.
Qed.

Lemma row3_select_stats (db : Database) (start_ end_ : Z) :
  row3 (select_stats db start_ end_) = window_count db start_ end_.
Proof. reflexivity. Qed.

(** [co2_ppm] is [NOT NULL]: a window that holds a reading has a mean. *)
Lemma row2_select_stats (db : Database) (start_ end_ : Z) :
  window_count db start_ end_ <> 0 ->
  row2 (select_stats db start_ end_) =
  Some (inject_Z (sum_Z (co2_values (select_window db start_ end_)))
        / inject_Z (window_count db start_ end_))%Q.
Proof.
  unfold window_count, select_window, select_stats, co2_values, avg_Z; simpl.
  intro Hn. rewrite count_zero in Hn.
  destruct (filter _ _) as [|m ms] eqn:E; [contradiction|].
  unfold count. rewrite <- (length_map Measurement.co2_ppm (m :: ms)). reflexivity.
Qed.

(** ** [INSERT OR REPLACE] *)

Lemma filter_none {A : Type} (p : A -> bool) (l : list A) :
  (forall a, In a l -> p a = false) -> filter p l = [].
Proof.
  induction l as [|a l IH]; simpl; intro H; [reflexivity|].
  rewrite (H a (or_introl eq_refl)). apply IH. intros b Hb. apply H. now right.
Qed.

Lemma filter_all {A : Type} (p : A -> bool) (l : list A) :
  (forall a, In a l -> p a = true) -> filter p l = l.
Proof.
  induction l as [|a l IH]; simpl; intro H; [reflexivity|].
  rewrite (H a (or_introl eq_refl)). f_equal. apply IH. intros b Hb. apply H. now right.
Qed.

Lemma filter_filter {A : Type} (p q : A -> bool) (l : list A) :
  filter p (filter q l) = filter (fun a => q a && p a) l.
Proof.
  induction l as [|a l IH]; simpl; [reflexivity|].
  destruct (q a); simpl; [destruct (p a)|]; now rewrite IH.
Qed.

Lemma insert_or_replace_key {R : Type} (clashes : R -> bool) (new_row : Z -> R)
    (tbl : Table R) :
  clashes (new_row (seq tbl + 1)) = true ->
  filter clashes (rows (insert_or_replace clashes new_row tbl)) =
  [new_row (seq tbl + 1)].
Proof.
  intro Hc. unfold insert_or_replace; simpl. rewrite filter_app; simpl.
  rewrite Hc, filter_filter, filter_none; [reflexivity|].
  intros a _. now destruct (clashes a).
Qed.

Lemma insert_or_replace_others {R : Type} (clashes other : R -> bool)
    (new_row : Z -> R) (tbl : Table R) :
  other (new_row (seq tbl + 1)) = false ->
  (forall r, other r = true -> clashes r = false) ->
  filter other (rows (insert_or_replace clashes new_row tbl)) =
  filter other (rows tbl).
Proof.
  intros Hn Hd. unfold insert_or_replace; simpl. rewrite filter_app; simpl.
  rewrite Hn, app_nil_r, filter_filter. apply filter_ext.
  intro a. destruct (other a) eqn:E; [now rewrite (Hd a E)|apply andb_false_r].
Qed.

Lemma insert_or_replace_upserted {R : Type} (clashes : R -> bool)
    (new_row : Z -> R) (tbl : Table R) :
  clashes (new_row (seq tbl + 1)) = true ->
  upserted clashes tbl (insert_or_replace clashes new_row tbl).
Proof.
  intro Hc. split.
  - eexists. now apply insert_or_replace_key.
  - apply insert_or_replace_others.
    + now rewrite Hc.
    + intros r. now destruct (clashes r).
Qed.

(** ** One aggregation step *)

Lemma aggregate_hour_eq (db : Database) (hour_start : Z) :
  aggregate_hour db hour_start =
  if window_count db hour_start (hour_start + timedelta_hours 1) =? 0
  then Some (false, db)
  else Some (true,
             with_hourly_stats db
               (insert_or_replace (hour_key hour_start)
                  (hour_row db hour_start) (hourly_stats db))).
Proof.
  unfold aggregate_hour. cbv zeta. rewrite row3_select_stats.
  destruct (Z.eqb_spec (window_count db hour_start (hour_start + timedelta_hours 1)) 0)
    as [E|E]; [reflexivity|].
  unfold hour_row. rewrite (row2_select_stats _ _ _ E). reflexivity.
Qed.

Lemma aggregate_minute_interval_eq (db : Database) (interval_start interval_minutes : Z) :
  aggregate_minute_interval db interval_start interval_minutes =
  if window_count db interval_start
       (interval_start + timedelta_minutes interval_minutes) =? 0
  then Some (false, db)
  else Some (true,
             with_minute_stats db
               (insert_or_replace (minute_key interval_start interval_minutes)
                  (minute_row db interval_start interval_minutes)
                  (minute_stats db))).
Proof.
  unfold aggregate_minute_interval. cbv zeta. rewrite row3_select_stats.
  destruct (Z.eqb_spec (window_count db interval_start
                          (interval_start + timedelta_minutes interval_minutes)) 0)
    as [E|E]; [reflexivity|].
  unfold minute_row. rewrite (row2_select_stats _ _ _ E). reflexivity.
Qed.

Lemma aggregate_day_eq (db : Database) (stat_date : Z) :
  aggregate_day db stat_date =
  if window_count db (combine_midnight stat_date)
       (combine_midnight stat_date + timedelta_days 1) =? 0
  then Some (false, db)
  else Some (true,
             with_daily_stats db
               (insert_or_replace (day_key stat_date)
                  (day_row db stat_date) (daily_stats db))).
Proof.
  unfold aggregate_day. cbv zeta. rewrite row3_select_stats.
  destruct (Z.eqb_spec (window_count db (combine_midnight stat_date)
                          (combine_midnight stat_date + timedelta_days 1)) 0)
    as [E|E]; [reflexivity|].
  unfold day_row. rewrite (row2_select_stats _ _ _ E). reflexivity.
Qed.


Lemma window_count_ext (db db' : Database) (start_ end_ : Z) :
  measurements db' = measurements db ->
  window_count db' start_ end_ = window_count db start_ end_.
Proof. unfold window_count, select_window. now intros ->. Qed.




Lemma hour_key_hour_row (db : Database) (hour_start i : Z) :
  hour_key hour_start (hour_row db hour_start i) = true.
Proof. apply Z.eqb_refl. Qed.

Lemma minute_key_minute_row (db : Database) (interval_start interval_minutes i : Z) :
  minute_key interval_start interval_minutes
    (minute_row db interval_start interval_minutes i) = true.
Proof. unfold minute_key; simpl. now rewrite !Z.eqb_refl. Qed.

Lemma day_key_day_row (db : Database) (stat_date i : Z) :
  day_key stat_date (day_row db stat_date i) = true.
Proof. apply Z.eqb_refl. Qed.

Create HintDb agg.
#[local] Hint Resolve hour_key_hour_row minute_key_minute_row day_key_day_row : agg.
#[local] Hint Resolve insert_or_replace_upserted : agg.

(** ** No data in the window, or exactly one bucket row *)

Lemma minute_no_data (db : Database) (interval_start interval_minutes : Z) :
  window_count db interval_start
    (interval_start + timedelta_minutes interval_minutes) = 0 ->
  aggregate_minute_interval db interval_start interval_minutes = Some (false, db).
Proof. intro E. now rewrite aggregate_minute_interval_eq, E. Qed.

Lemma hour_no_data (db : Database) (hour_start : Z) :
  window_count db hour_start (hour_start + timedelta_hours 1) = 0 ->
  aggregate_hour db hour_start = Some (false, db).
Proof. intro E. now rewrite aggregate_hour_eq, E. Qed.

Lemma day_no_data (db : Database) (stat_date : Z) :
  window_count db (combine_midnight stat_date)
    (combine_midnight stat_date + timedelta_days 1) = 0 ->
  aggregate_day db stat_date = Some (false, db).
Proof. intro E. now rewrite aggregate_day_eq, E. Qed.

Lemma minute_data (db : Database) (interval_start interval_minutes : Z) :
  0 < window_count db interval_start
        (interval_start + timedelta_minutes interval_minutes) ->
  exists db',
    aggregate_minute_interval db interval_start interval_minutes = Some (true, db') /\
    upserted (minute_key interval_start interval_minutes)
      (minute_stats db) (minute_stats db') /\
    minute_step_frame db db'.
Proof.
  intro E. rewrite aggregate_minute_interval_eq.
  destruct (Z.eqb_spec (window_count db interval_start
                          (interval_start + timedelta_minutes interval_minutes)) 0);
    [lia|].
  eexists; split; [reflexivity|]. split; [|now repeat split].
  simpl. auto with agg.
Qed.

Lemma hour_data (db : Database) (hour_start : Z) :
  0 < window_count db hour_start (hour_start + timedelta_hours 1) ->
  exists db',
    aggregate_hour db hour_start = Some (true, db') /\
    upserted (hour_key hour_start) (hourly_stats db) (hourly_stats db') /\
    hour_step_frame db db'.
Proof.
  intro E. rewrite aggregate_hour_eq.
  destruct (Z.eqb_spec (window_count db hour_start (hour_start + timedelta_hours 1)) 0);
    [lia|].
  eexists; split; [reflexivity|]. split; [|now repeat split].
  simpl. auto with agg.
Qed.

Lemma day_data (db : Database) (stat_date : Z) :
  0 < window_count db (combine_midnight stat_date)
        (combine_midnight stat_date + timedelta_days 1) ->
  exists db',
    aggregate_day db stat_date = Some (true, db') /\
    upserted (day_key stat_date) (daily_stats db) (daily_stats db') /\
    day_step_frame db db'.
Proof.
  intro E. rewrite aggregate_day_eq.
  destruct (Z.eqb_spec (window_count db (combine_midnight stat_date)
                          (combine_midnight stat_date + timedelta_days 1)) 0);
    [lia|].
  eexists; split; [reflexivity|]. split; [|now repeat split].
  simpl. auto with agg.
Qed.

(** C4 (no-data behaviour).  At each of the three resolutions: when the
    window [start, start+width) holds no reading the step returns False
    and hands back the database as it was, no store changed; when the
    window holds a reading the step returns True, the aggregate store of
    its resolution then holds exactly one row under the key of the
    window, its rows under all other keys are as before, and the raw
    store and the other aggregate stores are unchanged. *)
Theorem no_data_or_one_bucket_row (db : Database)
    (interval_start interval_minutes hour_start stat_date : Z) :
  let minute_end := interval_start + timedelta_minutes interval_minutes in
  let hour_end := hour_start + timedelta_hours 1 in
  let day_start := combine_midnight stat_date in
  let day_end := day_start + timedelta_days 1 in
  (window_count db interval_start minute_end = 0 ->
   aggregate_minute_interval db interval_start interval_minutes = Some (false, db)) /\
  (0 < window_count db interval_start minute_end ->
   exists db',
     aggregate_minute_interval db interval_start interval_minutes = Some (true, db') /\
     upserted (minute_key interval_start interval_minutes)
       (minute_stats db) (minute_stats db') /\
     minute_step_frame db db') /\
  (window_count db hour_start hour_end = 0 ->
   aggregate_hour db hour_start = Some (false, db)) /\
  (0 < window_count db hour_start hour_end ->
   exists db',
     aggregate_hour db hour_start = Some (true, db') /\
     upserted (hour_key hour_start) (hourly_stats db) (hourly_stats db') /\
     hour_step_frame db db') /\
  (window_count db day_start day_end = 0 ->
   aggregate_day db stat_date = Some (false, db)) /\
  (0 < window_count db day_start day_end ->
   exists db',
     aggregate_day db stat_date = Some (true, db') /\
     upserted (day_key stat_date) (daily_stats db) (daily_stats db') /\
     day_step_frame db db').
Proof.
  cbv zeta. repeat split.
  - apply minute_no_data.
  - apply minute_data.
  - apply hour_no_data.
  - apply hour_data.
  - apply day_no_data.
  - apply day_data.
Qed.

Lemma no_data_or_one_bucket_row_witness :
  aggregate_hour example_db (t_14_00 + timedelta_hours 1)
    = Some (false, example_db) /\
  (exists db',
     aggregate_hour example_db t_14_00 = Some (true, db') /\
     upserted (hour_key t_14_00) (hourly_stats example_db) (hourly_stats db') /\
     hour_step_frame example_db db') /\
  (exists db',
     aggregate_minute_interval example_db t_14_00 5 = Some (true, db') /\
     upserted (minute_key t_14_00 5) (minute_stats example_db) (minute_stats db') /\
     minute_step_frame example_db db') /\
  aggregate_day example_db (day_20251228 + 1) = Some (false, example_db).
Proof.
  split; [|split; [|split]].
  - apply (no_data_or_one_bucket_row example_db 0 0 (t_14_00 + timedelta_hours 1) 0).
    reflexivity.
  - apply (no_data_or_one_bucket_row example_db 0 0 t_14_00 0). reflexivity.
  - apply (no_data_or_one_bucket_row example_db t_14_00 5 0 0). reflexivity.
  - apply (no_data_or_one_bucket_row example_db 0 0 0 (day_20251228 + 1)).
    reflexivity.
Defined.

(** ** Idempotence *)

Lemma same_buckets_refl {R C : Type} (contents : R -> C) (key : R -> bool)
    (tbl : Table R) :
  same_buckets contents key tbl tbl.
Proof. now split. Qed.






(** ** [MIN], [MAX], [SUM] *)

Lemma fold_left_min_spec (l : list Z) (x : Z) :
  In (fold_left Z.min l x) (x :: l) /\
  forall y, In y (x :: l) -> fold_left Z.min l x <= y.
Proof.
  revert x. induction l as [|a l IH]; intro x; simpl.
  - split; [now left|]. intros y [<-|[]]. lia.
  - destruct (IH (Z.min x a)) as [Hin Hle]. split.
    + destruct Hin as [E|Hin]; [|now right; right].
      rewrite <- E. destruct (Z.min_spec x a) as [[_ ->]|[_ ->]]; auto.
    + intros y Hy.
      assert (Hm : fold_left Z.min l (Z.min x a) <= Z.min x a)
        by (apply Hle; now left).
      destruct Hy as [<-|[<-|Hy]]; [lia|lia|]. apply Hle. now right.
Qed.

Lemma fold_left_max_spec (l : list Z) (x : Z) :
  In (fold_left Z.max l x) (x :: l) /\
  forall y, In y (x :: l) -> y <= fold_left Z.max l x.
Proof.
  revert x. induction l as [|a l IH]; intro x; simpl.
  - split; [now left|]. intros y [<-|[]]. lia.
  - destruct (IH (Z.max x a)) as [Hin Hle]. split.
    + destruct Hin as [E|Hin]; [|now right; right].
      rewrite <- E. destruct (Z.max_spec x a) as [[_ ->]|[_ ->]]; auto.
    + intros y Hy.
      assert (Hm : Z.max x a <= fold_left Z.max l (Z.max x a))
        by (apply Hle; now left).
      destruct Hy as [<-|[<-|Hy]]; [lia|lia|]. apply Hle. now right.
Qed.

(** [MIN] yields a value of the column that no value of it undercuts. *)
Lemma min_Z_spec (l : list Z) (m : Z) :
  min_Z l = Some m -> In m l /\ forall y, In y l -> m <= y.
Proof.
  destruct l as [|x l]; simpl; [discriminate|].
  intro E; injection E as <-. apply fold_left_min_spec.
Qed.

Lemma max_Z_spec (l : list Z) (m : Z) :
  max_Z l = Some m -> In m l /\ forall y, In y l -> y <= m.
Proof.
  destruct l as [|x l]; simpl; [discriminate|].
  intro E; injection E as <-. apply fold_left_max_spec.
Qed.

Lemma min_Z_some (l : list Z) : l <> [] -> exists m, min_Z l = Some m.
Proof. destruct l; [contradiction|]. simpl. eauto. Qed.

Lemma max_Z_some (l : list Z) : l <> [] -> exists m, max_Z l = Some m.
Proof. destruct l; [contradiction|]. simpl. eauto. Qed.

Lemma fold_left_add (l : list Z) (a : Z) :
  fold_left Z.add l a = a + fold_left Z.add l 0.
Proof.
  revert a. induction l as [|x l IH]; intro a; simpl; [lia|].
  rewrite (IH (a + x)), (IH x). lia.
Qed.

Lemma sum_Z_cons (x : Z) (l : list Z) : sum_Z (x :: l) = x + sum_Z l.
Proof. unfold sum_Z; simpl. apply fold_left_add. Qed.

Lemma sum_Z_Permutation (l l' : list Z) :
  Permutation l l' -> sum_Z l = sum_Z l'.
Proof.
  induction 1 as [|x l l' _ IH|x y l|l l' l'' _ IH1 _ IH2].
  - reflexivity.
  - rewrite !sum_Z_cons. lia.
  - rewrite !sum_Z_cons. lia.
  - congruence.
Qed.

(** ** The reference example *)

Lemma reference_step (db : Database) (H : Z) (stamps : list Z) :
  Permutation (window_readings db H (H + timedelta_hours 1))
    (combine stamps [500; 600; 550]) ->
  List.length stamps = 3%nat ->
  exists db1 row,
    aggregate_hour db H = Some (true, db1) /\
    measurements db1 = measurements db /\
    filter (hour_key H) (rows (hourly_stats db1)) = [row] /\
    reference_bucket row.
Proof.
  intros Hp Hlen.
  destruct stamps as [|t1 [|t2 [|t3 [|]]]]; try discriminate.
  rewrite aggregate_hour_eq. unfold hour_row, window_readings in *.
  remember (H + timedelta_hours 1) as E eqn:HE in *. clear HE Hlen.
  cbn [combine] in Hp.
  assert (Hv : Permutation (co2_values (select_window db H E)) [500; 600; 550]).
  { apply (Permutation_map snd) in Hp. rewrite map_map in Hp. exact Hp. }
  assert (Hc : window_count db H E = 3).
  { unfold window_count, count.
    rewrite <- (length_map Measurement.co2_ppm).
    fold (co2_values (select_window db H E)).
    now rewrite (Permutation_length Hv). }
  assert (Hne : co2_values (select_window db H E) <> []).
  { intro E0. rewrite E0 in Hv. now apply Permutation_nil in Hv. }
  rewrite Hc. change (3 =? 0) with false. cbv iota.
  do 2 eexists. split; [reflexivity|]. split; [reflexivity|].
  cbn [hourly_stats with_hourly_stats].
  split; [apply insert_or_replace_key, Z.eqb_refl|].
  unfold reference_bucket. simpl. fold (select_window db H E).
  repeat split.
  - destruct (min_Z_some _ Hne) as [m Em]. rewrite Em. f_equal.
    destruct (min_Z_spec _ _ Em) as [Hin Hle].
    apply (Permutation_in _ Hv) in Hin.
    assert (m <= 500) by (apply Hle, (Permutation_in _ (Permutation_sym Hv)); simpl; auto).
    simpl in Hin. lia.
  - destruct (max_Z_some _ Hne) as [m Em]. rewrite Em. f_equal.
    destruct (max_Z_spec _ _ Em) as [Hin Hle].
    apply (Permutation_in _ Hv) in Hin.
    assert (600 <= m) by (apply Hle, (Permutation_in _ (Permutation_sym Hv)); simpl; auto).
    simpl in Hin. lia.
  - unfold avg_Z. destruct (co2_values _) as [|v vs] eqn:Ev; [contradiction|].
    rewrite (sum_Z_Permutation _ _ Hv).
    unfold count. rewrite (Permutation_length Hv). simpl.
    eexists. split; reflexivity.
  - exact Hc.
Qed.

(** C3 (reference example).  When the window [14:00, 15:00) of some day
    holds exactly the three readings 500 ppm at 14:03, 600 ppm at 14:17
    and 550 ppm at 14:59, [aggregate_hour] at 14:00 returns True and the
    row stored under 14:00 has co2_min 500, co2_max 600, co2_avg 550.0
    and co2_count 3; a second call returns True and stores a row with
    the same four values. *)
Theorem reference_example (db : Database) (stat_date : Z) :
  let H := combine_midnight stat_date + timedelta_hours 14 in
  Permutation (window_readings db H (H + timedelta_hours 1))
    [(H + timedelta_minutes 3, 500);
     (H + timedelta_minutes 17, 600);
     (H + timedelta_minutes 59, 550)] ->
  exists db1 db2 row1 row2,
    aggregate_hour db H = Some (true, db1) /\
    filter (hour_key H) (rows (hourly_stats db1)) = [row1] /\
    reference_bucket row1 /\
    aggregate_hour db1 H = Some (true, db2) /\
    filter (hour_key H) (rows (hourly_stats db2)) = [row2] /\
    reference_bucket row2.
Proof.
  intros H Hp.
  destruct (reference_step db H
              [H + timedelta_minutes 3; H + timedelta_minutes 17; H + timedelta_minutes 59]
              Hp eq_refl)
    as (db1 & row1 & E1 & Hm & Hk1 & Hb1).
  assert (Hp1 : Permutation (window_readings db1 H (H + timedelta_hours 1))
                  (combine [H + timedelta_minutes 3; H + timedelta_minutes 17;
                            H + timedelta_minutes 59] [500; 600; 550])).
  { unfold window_readings, select_window. rewrite Hm. exact Hp. }
  destruct (reference_step db1 H _ Hp1 eq_refl) as (db2 & row2 & E2 & _ & Hk2 & Hb2).
  exists db1, db2, row1, row2. tauto.
Qed.

Lemma reference_example_witness :
  Permutation (window_readings example_db t_14_00 (t_14_00 + timedelta_hours 1))
    [(t_14_00 + timedelta_minutes 3, 500);
     (t_14_00 + timedelta_minutes 17, 600);
     (t_14_00 + timedelta_minutes 59, 550)] /\
  exists db1 db2 row1 row2,
    aggregate_hour example_db t_14_00 = Some (true, db1) /\
    filter (hour_key t_14_00) (rows (hourly_stats db1)) = [row1] /\
    reference_bucket row1 /\
    aggregate_hour db1 t_14_00 = Some (true, db2) /\
    filter (hour_key t_14_00) (rows (hourly_stats db2)) = [row2] /\
    reference_bucket row2.
Proof.
  split.
  - apply Permutation_refl.
  - apply (reference_example example_db day_20251228). apply Permutation_refl.
Defined.

(** ** Half-open windows *)

Lemma select_window_In (db : Database) (start_ end_ : Z) (m : Measurement.t) :
  In m (select_window db start_ end_) <->
  In m (measurements db) /\ start_ <= Measurement.timestamp m < end_.
Proof. unfold select_window. now rewrite filter_In, in_window_spec. Qed.

Lemma window_count_pos (db : Database) (start_ end_ : Z) (m : Measurement.t) :
  In m (select_window db start_ end_) -> 0 < window_count db start_ end_.
Proof.
  unfold window_count, count. destruct (select_window db start_ end_); simpl; [easy|lia].
Qed.

Lemma window_start_unique (width t s : Z) :
  0 < width ->
  (s mod width = 0 /\ s <= t < s + width) <-> s = window_start width t.
Proof.
  intro Hw. unfold window_start. split.
  - intros [Hs Ht].
    apply Z.mod_divide in Hs; [|lia]. destruct Hs as [q ->].
    assert (E : t mod width = t - q * width).
    { symmetry. apply (Z.mod_unique_pos t width q); lia. }
    lia.
  - intros ->. pose proof (Z.mod_pos_bound t width Hw) as Hb. split; [|lia].
    rewrite Zminus_mod, Z.mod_mod, Z.sub_diag by lia. now apply Z.mod_0_l; lia.
Qed.

Lemma select_stats_without (db : Database) (before after : list Measurement.t)
    (m : Measurement.t) (start_ end_ : Z) :
  measurements db = before ++ m :: after ->
  in_window start_ end_ m = false ->
  select_stats db start_ end_ =
  select_stats (with_measurements db (before ++ after)) start_ end_.
Proof.
  intros E Hout. unfold select_stats. cbn [measurements with_measurements].
  rewrite E, !filter_app. cbn [filter]. now rewrite Hout.
Qed.

Lemma window_count_without (db : Database) (before after : list Measurement.t)
    (m : Measurement.t) (start_ end_ : Z) :
  measurements db = before ++ m :: after ->
  window_count db start_ end_ =
  window_count (with_measurements db (before ++ after)) start_ end_
  + (if in_window start_ end_ m then 1 else 0).
Proof.
  intro E. unfold window_count, select_window, count.
  cbn [measurements with_measurements].
  rewrite E, !filter_app. cbn [filter].
  destruct (in_window start_ end_ m); rewrite !length_app; cbn [List.length]; lia.
Qed.

(** C9 (boundary exactness).  A reading stamped exactly [H] is counted
    in the bucket that [aggregate_hour H] stores and not in the bucket
    that [aggregate_hour (H - 1h)] stores: the row stored under [H]
    counts one reading more than the other readings of the store give,
    and what the call for the hour before answers and stores is what it
    answers and stores when the reading is taken out of the store.
    Windows are half-open: for every positive width each reading lies
    in the window of exactly one aligned start. *)
Theorem boundary_exactness (db : Database) (before after : list Measurement.t)
    (m : Measurement.t) (H : Z) :
  measurements db = before ++ m :: after ->
  Measurement.timestamp m = H ->
  let previous_hour := H - timedelta_hours 1 in
  let others := with_measurements db (before ++ after) in
  In m (select_window db H (H + timedelta_hours 1)) /\
  ~ In m (select_window db previous_hour (previous_hour + timedelta_hours 1)) /\
  (exists db' row,
     aggregate_hour db H = Some (true, db') /\
     filter (hour_key H) (rows (hourly_stats db')) = [row] /\
     HourlyStats.co2_count row = window_count others H (H + timedelta_hours 1) + 1) /\
  (exists b db1 db2,
     aggregate_hour db previous_hour = Some (b, db1) /\
     aggregate_hour others previous_hour = Some (b, db2) /\
     hourly_stats db1 = hourly_stats db2 /\
     (b = true <->
      0 < window_count others previous_hour (previous_hour + timedelta_hours 1)) /\
     (b = true ->
      exists row,
        filter (hour_key previous_hour) (rows (hourly_stats db1)) = [row] /\
        HourlyStats.co2_count row =
        window_count others previous_hour (previous_hour + timedelta_hours 1)) /\
     (b = false -> db1 = db)) /\
  (forall width r, 0 < width ->
     exists! s, s mod width = 0 /\ in_window s (s + width) r = true).
Proof.
  intros E Ht previous_hour others.
  assert (Hm : In m (measurements db)) by (rewrite E; apply in_elt).
  assert (Hin : in_window H (H + timedelta_hours 1) m = true).
  { apply in_window_spec. unfold timedelta_hours, SECONDS_PER_HOUR. lia. }
  assert (Hout : in_window previous_hour (previous_hour + timedelta_hours 1) m = false).
  { apply not_true_is_false. rewrite in_window_spec. subst previous_hour.
    unfold timedelta_hours, SECONDS_PER_HOUR. lia. }
  assert (Hi : In m (select_window db H (H + timedelta_hours 1))).
  { apply select_window_In. apply in_window_spec in Hin. now split. }
  split; [exact Hi|]. split; [|split; [|split]].
  - rewrite select_window_In, <- in_window_spec, Hout. intros [_ Hf]. discriminate.
  - pose proof (window_count_pos _ _ _ _ Hi) as Hpos.
    rewrite aggregate_hour_eq.
    destruct (Z.eqb_spec (window_count db H (H + timedelta_hours 1)) 0); [lia|].
    exists (with_hourly_stats db
              (insert_or_replace (hour_key H) (hour_row db H) (hourly_stats db))),
           (hour_row db H (seq (hourly_stats db) + 1)).
    split; [reflexivity|]. split.
    + cbn [hourly_stats with_hourly_stats].
      apply insert_or_replace_key, hour_key_hour_row.
    + change (HourlyStats.co2_count (hour_row db H (seq (hourly_stats db) + 1)))
        with (row3 (select_stats db H (H + timedelta_hours 1))).
      rewrite row3_select_stats.
      rewrite (window_count_without db before after m _ _ E), Hin. reflexivity.
  - assert (Hc : window_count db previous_hour (previous_hour + timedelta_hours 1) =
                 window_count others previous_hour (previous_hour + timedelta_hours 1)).
    { rewrite (window_count_without db before after m _ _ E), Hout. subst others. lia. }
    assert (Hr : hour_row db previous_hour = hour_row others previous_hour).
    { unfold hour_row. cbv zeta.
      now rewrite (select_stats_without db before after m _ _ E Hout). }
    rewrite !aggregate_hour_eq, Hc, Hr.
    pose proof (count_nonneg
                  (select_window others previous_hour
                     (previous_hour + timedelta_hours 1))) as Hnn.
    fold (window_count others previous_hour (previous_hour + timedelta_hours 1)) in Hnn.
    destruct (Z.eqb_spec
                (window_count others previous_hour (previous_hour + timedelta_hours 1)) 0)
      as [E0|E0].
    + exists false, db, others. split; [reflexivity|]. split; [reflexivity|].
      split; [reflexivity|]. split; [split; [discriminate|lia]|].
      split; [discriminate|reflexivity].
    + exists true,
        (with_hourly_stats db
           (insert_or_replace (hour_key previous_hour) (hour_row others previous_hour)
              (hourly_stats db))),
        (with_hourly_stats others
           (insert_or_replace (hour_key previous_hour) (hour_row others previous_hour)
              (hourly_stats others))).
      split; [reflexivity|]. split; [reflexivity|]. split; [reflexivity|].
      split; [split; [lia|reflexivity]|]. split; [|discriminate].
      intros _. exists (hour_row others previous_hour (seq (hourly_stats db) + 1)).
      split.
      * cbn [hourly_stats with_hourly_stats].
        apply insert_or_replace_key, hour_key_hour_row.
      * reflexivity.
  - intros width r Hw. exists (window_start width (Measurement.timestamp r)).
    split.
    + rewrite in_window_spec. now apply window_start_unique.
    + intros s Hs. rewrite in_window_spec in Hs. symmetry.
      now apply window_start_unique.
Qed.

Lemma boundary_exactness_witness :
  (exists db' row,
     aggregate_hour turn_of_hour_db t_14_00 = Some (true, db') /\
     filter (hour_key t_14_00) (rows (hourly_stats db')) = [row] /\
     HourlyStats.co2_count row = 1) /\
  (exists db1 row,
     aggregate_hour turn_of_hour_db (t_14_00 - timedelta_hours 1) = Some (true, db1) /\
     filter (hour_key (t_14_00 - timedelta_hours 1)) (rows (hourly_stats db1)) = [row] /\
     HourlyStats.co2_count row = 1).
Proof.
  destruct (boundary_exactness turn_of_hour_db [eve_reading] [] sharp_reading t_14_00
              eq_refl eq_refl)
    as (_ & _ & (db' & row & E & Hrow & Hc) & (b & db1 & db2 & E1 & _ & _ & Hb & Hr & _) & _).
  split.
  - exists db', row. split; [exact E|]. split; [exact Hrow|]. rewrite Hc. reflexivity.
  - assert (Hbt : b = true) by (apply Hb; reflexivity). subst b.
    destruct (Hr eq_refl) as (row1 & Hrow1 & Hc1).
    exists db1, row1. split; [exact E1|]. split; [exact Hrow1|]. rewrite Hc1. reflexivity.
Defined.

(** ** Day and night *)

Lemma night_is_not_day (m : Measurement.t) : night_hours m = negb (day_hours m).
Proof.
  unfold night_hours, day_hours. rewrite negb_andb, orb_comm.
  now rewrite <- Z.leb_antisym, <- Z.ltb_antisym.
Qed.

Lemma filter_split_length {A : Type} (w p : A -> bool) (l : list A) :
  (List.length (filter (fun a => w a && p a) l)
   + List.length (filter (fun a => w a && negb (p a)) l))%nat
  = List.length (filter w l).
Proof.
  induction l as [|a l IH]; simpl; [reflexivity|].
  destruct (w a), (p a); simpl; lia.
Qed.

Lemma day_night_count (db : Database) (start_ end_ : Z) :
  count (select_day_rows db start_ end_) + count (select_night_rows db start_ end_)
  = window_count db start_ end_.
Proof.
  unfold window_count, select_window, select_day_rows, select_night_rows, count.
  rewrite <- (filter_split_length (in_window start_ end_) day_hours).
  rewrite Nat2Z.inj_add. do 2 f_equal. f_equal.
  apply filter_ext. intro m. now rewrite night_is_not_day.
Qed.

(** C8 (day/night completeness).  For every date the readings of the
    day fall into the day sub-window or the night sub-window, never
    both, so the two sub-window counts add up to the count of the whole
    day, which is the [measurement_count] that [aggregate_day] stores. *)
Theorem day_night_completeness (db : Database) (stat_date : Z) :
  let day_start := combine_midnight stat_date in
  let day_end := day_start + timedelta_days 1 in
  let day_rows := select_day_rows db day_start day_end in
  let night_rows := select_night_rows db day_start day_end in
  (forall m, In m (select_window db day_start day_end) ->
     (In m day_rows /\ ~ In m night_rows) \/ (In m night_rows /\ ~ In m day_rows)) /\
  (forall m, In m day_rows \/ In m night_rows ->
     In m (select_window db day_start day_end)) /\
  count day_rows + count night_rows = window_count db day_start day_end /\
  (forall db', aggregate_day db stat_date = Some (true, db') ->
     exists row,
       filter (day_key stat_date) (rows (daily_stats db')) = [row] /\
       DailyStats.measurement_count row = count day_rows + count night_rows).
Proof.
  cbv zeta. set (s := combine_midnight stat_date). set (e := s + timedelta_days 1).
  split; [|split; [|split]].
  - intros m Hm. unfold select_window, select_day_rows, select_night_rows in *.
    rewrite !filter_In in *. rewrite night_is_not_day. destruct Hm as [Hm ->].
    destruct (day_hours m); simpl; [left|right]; intuition congruence.
  - intros m. unfold select_window, select_day_rows, select_night_rows.
    rewrite !filter_In, !andb_true_iff. tauto.
  - apply day_night_count.
  - intros db' E. rewrite aggregate_day_eq in E. fold s e in E.
    destruct (window_count db s e =? 0); [discriminate|].
    injection E as <-. eexists. split.
    + cbn [daily_stats with_daily_stats]. apply insert_or_replace_key, Z.eqb_refl.
    + rewrite day_night_count. reflexivity.
Qed.

Lemma day_night_completeness_witness :
  exists db' row,
    aggregate_day example_db day_20251228 = Some (true, db') /\
    filter (day_key day_20251228) (rows (daily_stats db')) = [row] /\
    DailyStats.measurement_count row = 3 + 0.
Proof.
  eexists. 
  assert (E : aggregate_day example_db day_20251228 =
              Some (true,
                    with_daily_stats example_db
                      (insert_or_replace (day_key day_20251228)
                         (day_row example_db day_20251228)
                         (daily_stats example_db)))) by reflexivity.
  destruct (day_night_completeness example_db day_20251228) as (_ & _ & _ & Hrow).
  destruct (Hrow _ E) as (row & Hk & Hc).
  exists row. split; [exact E|]. split; [exact Hk|exact Hc].
Defined.

(** ** Range queries *)

Lemma insert_by_timestamp_perm (m : Measurement.t) (l : list Measurement.t) :
  Permutation (insert_by_timestamp m l) (m :: l).
Proof.
  induction l as [|x l IH]; simpl; [reflexivity|].
  destruct (Measurement.timestamp m <? Measurement.timestamp x); [reflexivity|].
  rewrite IH. apply perm_swap.
Qed.

Lemma insert_by_timestamp_sorted (m : Measurement.t) (l : list Measurement.t) :
  Sorted by_timestamp l -> Sorted by_timestamp (insert_by_timestamp m l).
Proof.
  induction 1 as [|x l Hs IH Hd]; simpl; [repeat constructor|].
  destruct (Z.ltb_spec (Measurement.timestamp m) (Measurement.timestamp x)) as [Hlt|Hge].
  - constructor; [now constructor|]. constructor. unfold by_timestamp. lia.
  - constructor; [exact IH|].
    destruct Hd as [|y l Hxy]; simpl.
    + constructor. exact Hge.
    + destruct (Measurement.timestamp m <? Measurement.timestamp y);
        constructor; assumption.
Qed.

Lemma order_by_timestamp_perm (l : list Measurement.t) :
  Permutation (order_by_timestamp l) l.
Proof.
  unfold order_by_timestamp. rewrite (Permutation_rev l) at 2.
  induction (rev l) as [|x r IH]; simpl; [reflexivity|].
  rewrite insert_by_timestamp_perm. now constructor.
Qed.

Lemma order_by_timestamp_sorted (l : list Measurement.t) :
  Sorted by_timestamp (order_by_timestamp l).
Proof.
  unfold order_by_timestamp.
  induction (rev l) as [|x r IH]; simpl; [constructor|].
  now apply insert_by_timestamp_sorted.
Qed.

(** C10 (closed range), as the code has it.  For datetimes [start_]
    and [end_] of four-digit years and a store stamped in such years,
    [get_range] returns the readings stamped from the second of
    [start_] to the second of [end_], both included, each as often as
    the store holds it, in ascending order of timestamp.  No reading
    after [end_] is returned; when [start_] is a whole second these are
    exactly the readings with start <= timestamp <= end.  A reading
    stamped exactly at the second of [end_] is returned, while the
    aggregation window that ends there leaves it out. *)
Theorem get_range_closed (db : Database) (start_ end_ : Z) :
  four_digit_year (second_of start_) ->
  four_digit_year (second_of end_) ->
  stamped_in_four_digit_years db ->
  Permutation (get_range db start_ end_)
    (filter (within start_ end_) (measurements db)) /\
  Sorted by_timestamp (get_range db start_ end_) /\
  (forall m, In m (get_range db start_ end_) <->
     In m (measurements db) /\
     second_of start_ <= Measurement.timestamp m <= second_of end_) /\
  (forall m, In m (get_range db start_ end_) ->
     at_second (Measurement.timestamp m) <= end_) /\
  (start_ = at_second (second_of start_) ->
   forall m, In m (get_range db start_ end_) <->
     In m (measurements db) /\
     start_ <= at_second (Measurement.timestamp m) <= end_) /\
  (forall m, second_of start_ <= second_of end_ -> In m (measurements db) ->
     Measurement.timestamp m = second_of end_ ->
     In m (get_range db start_ end_) /\
     forall window_start, ~ In m (select_window db window_start (second_of end_))).
Proof.
  intros Hs He Hdb.
  assert (Hf : filter (between (strftime start_) (strftime end_)) (measurements db)
               = filter (within start_ end_) (measurements db)).
  { apply filter_ext_in. intros m Hm. apply between_spec; auto.
    unfold stamped_in_four_digit_years in Hdb. rewrite Forall_forall in Hdb. auto. }
  assert (Hp : Permutation (get_range db start_ end_)
                 (filter (within start_ end_) (measurements db))).
  { unfold get_range. cbv zeta. rewrite Hf. apply order_by_timestamp_perm. }
  assert (Hin : forall m, In m (get_range db start_ end_) <->
                  In m (measurements db) /\
                  second_of start_ <= Measurement.timestamp m <= second_of end_).
  { intro m. rewrite <- within_spec, <- filter_In.
    split; apply Permutation_in; [exact Hp|now apply Permutation_sym]. }
  split; [exact Hp|]. split; [apply order_by_timestamp_sorted|].
  split; [exact Hin|]. split; [|split].
  - intros m Hm. apply Hin in Hm. now apply le_second_of.
  - intros Hwhole m. rewrite Hin.
    split; intros [Hm [Ha Hb]]; (split; [exact Hm|split]).
    + rewrite Hwhole. now apply at_second_mono.
    + now apply le_second_of.
    + now apply second_of_le.
    + now apply le_second_of.
  - intros m Hse Hm Ht. split.
    + apply Hin. split; [exact Hm|lia].
    + intro window_start. rewrite select_window_In. lia.
Qed.

Lemma get_range_closed_witness :
  In last_reading
    (get_range example_db (at_second t_14_00)
       (at_second (t_14_00 + timedelta_minutes 59) + 999999)) /\
  forall window_start,
    ~ In last_reading
        (select_window example_db window_start (t_14_00 + timedelta_minutes 59)).
Proof.
  assert (Hs : four_digit_year (second_of (at_second t_14_00)))
    by (vm_compute; split; [discriminate|reflexivity]).
  assert (He : four_digit_year
                 (second_of (at_second (t_14_00 + timedelta_minutes 59) + 999999)))
    by (vm_compute; split; [discriminate|reflexivity]).
  assert (Hdb : stamped_in_four_digit_years example_db)
    by (repeat constructor; vm_compute; discriminate).
  destruct (get_range_closed example_db (at_second t_14_00)
              (at_second (t_14_00 + timedelta_minutes 59) + 999999) Hs He Hdb)
    as (_ & _ & _ & _ & _ & Hend).
  apply (Hend last_reading).
  - vm_compute. discriminate.
  - simpl. auto.
  - reflexivity.
Defined.

(** C10 as stated fails for a start between two seconds: asked for the
    readings from 14:03:00.5 on, [get_range] returns the reading stamped
    14:03:00, which is earlier than the start. *)
Lemma get_range_admits_reading_before_start :
  half_past_14_03_00 <= at_second (t_14_00 + timedelta_hours 1) /\
  In first_reading
    (get_range example_db half_past_14_03_00 (at_second (t_14_00 + timedelta_hours 1))) /\
  at_second (Measurement.timestamp first_reading) < half_past_14_03_00.
Proof.
  split; [vm_compute; discriminate|]. split; [|reflexivity].
  vm_compute. auto.
Qed.

(** ** Retention *)

Lemma only_raw_rows_deleted_refl (db : Database) : only_raw_rows_deleted db db.
Proof.
  split; [|now repeat split].
  exists (fun _ => true). symmetry. now apply filter_all.
Qed.

Lemma only_raw_rows_deleted_trans (db1 db2 db3 : Database) :
  only_raw_rows_deleted db1 db2 -> only_raw_rows_deleted db2 db3 ->
  only_raw_rows_deleted db1 db3.
Proof.
  intros ([k1 E1] & A1 & B1 & C1 & D1) ([k2 E2] & A2 & B2 & C2 & D2).
  split; [|repeat split; congruence].
  exists (fun m => k1 m && k2 m). now rewrite E2, E1, filter_filter.
Qed.

Lemma delete_older_than_frame (db : Database) (now days : Z) :
  only_raw_rows_deleted db (database_after (delete_older_than db now days)).
Proof.
  unfold delete_older_than.
  destruct (datetime_sub now (timedelta_days days)); cbn [database_after].
  - split; [|now repeat split]. eexists. reflexivity.
  - apply only_raw_rows_deleted_refl.
Qed.

(** When the cutoff is a datetime of a four-digit year,
    [delete_older_than] returns, and a reading stamped in such a year
    survives exactly when it is not older than the second of the
    cutoff. *)
Lemma delete_older_than_In (db : Database) (now days : Z) :
  at_second YEAR_1000 <= now - at_second (timedelta_days days) < at_second YEAR_10000 ->
  exists n db',
    delete_older_than db now days = Returned n db' /\
    forall m, four_digit_year (Measurement.timestamp m) ->
      (In m (measurements db') <->
       In m (measurements db) /\
       second_of (now - at_second (timedelta_days days)) <= Measurement.timestamp m).
Proof.
  intro Hc. destruct (datetime_sub_four_digit now (timedelta_days days) Hc) as [E Hy].
  unfold delete_older_than. rewrite E. do 2 eexists. split; [reflexivity|].
  intros m Hm. cbn [measurements with_measurements].
  rewrite filter_In, negb_true_iff, (stored_ltb_strftime _ _ Hm Hy), Z.ltb_ge.
  tauto.
Qed.

(** [rowcount] is the number of rows that went away. *)
Lemma delete_older_than_rowcount (db : Database) (now days n : Z) (db' : Database) :
  delete_older_than db now days = Returned n db' ->
  n = count (measurements db) - count (measurements db').
Proof.
  unfold delete_older_than.
  destruct (datetime_sub now (timedelta_days days)) as [cutoff|]; [|discriminate].
  intro E. injection E as <- <-. unfold count. cbn [measurements with_measurements].
  pose proof (filter_split_length (fun _ : Measurement.t => true)
                (fun m => String.ltb (stored_text (Measurement.timestamp m))
                            (strftime cutoff))
                (measurements db)) as E.
  simpl in E. rewrite (filter_all (fun _ => true)) in E by reflexivity. lia.
Qed.

Lemma timedelta_days_mono (a b : Z) : a <= b -> timedelta_days a <= timedelta_days b.
Proof. unfold timedelta_days, SECONDS_PER_DAY. lia. Qed.

(** The loop ends within [days_to_delete - 1] rounds, by returning or
    by raising; it only deletes raw rows, and when it returns it has
    added the number of rows it deleted to the running total. *)
Lemma cleanup_loop_ends (fuel : nat) (w : World) (max_size_mb : Q) :
  forall (k : nat) (current_size : Q) (days_to_delete total_deleted : Z)
         (db : Database),
  (Z.to_nat (days_to_delete - 1) <= fuel)%nat ->
  exists outcome,
    cleanup_loop fuel w k max_size_mb current_size days_to_delete total_deleted db
    = Some outcome /\
    only_raw_rows_deleted db (database_after outcome) /\
    forall n db', outcome = Returned n db' ->
      n = total_deleted + (count (measurements db) - count (measurements db')).
Proof.
  induction fuel as [|fuel IH]; intros k current_size days_to_delete total_deleted db Hf;
    cbn [cleanup_loop].
  - destruct (Z.ltb_spec 1 days_to_delete) as [Hd|Hd]; [lia|].
    rewrite andb_false_r. exists (Returned total_deleted db).
    split; [reflexivity|]. split; [apply only_raw_rows_deleted_refl|].
    intros n db' E. injection E as <- <-. lia.
  - destruct (negb (Qle_bool current_size max_size_mb) && (1 <? days_to_delete)) eqn:Ec.
    + apply andb_true_iff in Ec. destruct Ec as [_ Hd]. apply Z.ltb_lt in Hd.
      pose proof (delete_older_than_frame db (clock w k) days_to_delete) as Hfr.
      pose proof (delete_older_than_rowcount db (clock w k) days_to_delete) as Hrc.
      destruct (delete_older_than db (clock w k) days_to_delete) as [deleted db1|db1].
      * cbn [database_after] in Hfr. unfold vacuum.
        destruct (IH (S k) (file_size_mb w k) (days_to_delete - 1)
                    (total_deleted + deleted) db1) as (o & E & Hfr' & Hn); [lia|].
        exists o. split; [exact E|].
        split; [now apply (only_raw_rows_deleted_trans db db1 _)|].
        intros n db' Eo. rewrite (Hn n db' Eo), (Hrc deleted db1 eq_refl). lia.
      * exists (Raised db1). split; [reflexivity|]. split; [exact Hfr|].
        intros n db' E. discriminate.
    + exists (Returned total_deleted db).
      split; [reflexivity|]. split; [apply only_raw_rows_deleted_refl|].
      intros n db' E. injection E as <- <-. lia.
Qed.

(** While the cutoffs stay in the years of four digits the loop
    returns, and its thresholds are never below two days: a reading that
    is recent with respect to a floor of at most two days stays. *)
Lemma cleanup_loop_returns (fuel : nat) (w : World) (max_size_mb : Q) (days : Z) :
  in_four_digit_years w days ->
  forall (k : nat) (current_size : Q) (days_to_delete total_deleted : Z)
         (db : Database),
  (Z.to_nat (days_to_delete - 1) <= fuel)%nat ->
  days_to_delete <= days ->
  exists n db',
    cleanup_loop fuel w k max_size_mb current_size days_to_delete total_deleted db
    = Some (Returned n db') /\
    forall floor_days m, floor_days <= 2 -> recent w floor_days m ->
      four_digit_year (Measurement.timestamp m) ->
      In m (measurements db) -> In m (measurements db').
Proof.
  intro Hw.
  induction fuel as [|fuel IH];
    intros k current_size days_to_delete total_deleted db Hf Hle;
    cbn [cleanup_loop].
  - destruct (Z.ltb_spec 1 days_to_delete) as [Hd|Hd]; [lia|].
    rewrite andb_false_r. exists total_deleted, db. split; [reflexivity|]. auto.
  - destruct (negb (Qle_bool current_size max_size_mb) && (1 <? days_to_delete)) eqn:Ec.
    + apply andb_true_iff in Ec. destruct Ec as [_ Hd]. apply Z.ltb_lt in Hd.
      assert (Hc : at_second YEAR_1000
                   <= clock w k - at_second (timedelta_days days_to_delete)
                   < at_second YEAR_10000).
      { destruct (Hw k) as [Hlo Hhi].
        pose proof (at_second_mono _ _ (timedelta_days_mono days_to_delete days Hle)).
        pose proof (at_second_mono _ _ (timedelta_days_mono 0 days_to_delete ltac:(lia))).
        change (at_second (timedelta_days 0)) with 0 in *. lia. }
      destruct (delete_older_than_In db (clock w k) days_to_delete Hc)
        as (deleted & db1 & E & Hin).
      rewrite E. unfold vacuum.
      destruct (IH (S k) (file_size_mb w k) (days_to_delete - 1)
                  (total_deleted + deleted) db1) as (n & db' & E' & Hk); [lia|lia|].
      exists n, db'. split; [exact E'|].
      intros floor_days m Hfl Hr Hy Hm. apply (Hk floor_days m Hfl Hr Hy).
      apply (Hin m Hy). split; [exact Hm|].
      apply second_of_le. specialize (Hr k).
      pose proof (at_second_mono _ _
                    (timedelta_days_mono floor_days days_to_delete ltac:(lia))).
      lia.
    + exists total_deleted, db. split; [reflexivity|]. auto.
Qed.

(** [cleanup_if_size_exceeded] always ends, by returning or by raising;
    it only deletes raw rows, and the number it returns is the number of
    rows deleted. *)
Lemma cleanup_if_size_exceeded_ends (db : Database) (w : World)
    (max_size_gb : Q) (days_to_keep : Z) :
  exists outcome,
    cleanup_if_size_exceeded db w max_size_gb days_to_keep = Some outcome /\
    only_raw_rows_deleted db (database_after outcome) /\
    forall n db', outcome = Returned n db' ->
      n = count (measurements db) - count (measurements db').
Proof.
  unfold cleanup_if_size_exceeded.
  pose proof (delete_older_than_frame db (clock w 0%nat) days_to_keep) as Hfr.
  pose proof (delete_older_than_rowcount db (clock w 0%nat) days_to_keep) as Hrc.
  destruct (delete_older_than db (clock w 0%nat) days_to_keep) as [deleted db1|db1].
  - cbn [database_after] in Hfr. specialize (Hrc deleted db1 eq_refl).
    destruct (Qle_bool (file_size_mb w 0%nat) (max_size_gb * 1024)).
    + exists (Returned (0 + deleted) db1). split; [reflexivity|]. split; [exact Hfr|].
      intros n db' E. injection E as <- <-. lia.
    + destruct (cleanup_loop_ends (Z.to_nat days_to_keep) w (max_size_gb * 1024)%Q
                  1%nat (file_size_mb w 0%nat) (days_to_keep - 1) (0 + deleted) db1)
        as (o & E & Hfr' & Hn); [lia|].
      exists o. split; [exact E|].
      split; [now apply (only_raw_rows_deleted_trans db db1 _)|].
      intros n db' Eo. rewrite (Hn n db' Eo). lia.
  - exists (Raised db1). split; [reflexivity|]. split; [exact Hfr|].
    intros n db' E. discriminate.
Qed.

(** While the cutoffs stay in the years of four digits
    [cleanup_if_size_exceeded] returns, and a reading that is recent with
    respect to a floor of at most two days and at most [days_to_keep]
    days stays. *)
Lemma cleanup_if_size_exceeded_returns (db : Database) (w : World)
    (max_size_gb : Q) (days_to_keep : Z) :
  0 <= days_to_keep ->
  in_four_digit_years w days_to_keep ->
  exists n db',
    cleanup_if_size_exceeded db w max_size_gb days_to_keep = Some (Returned n db') /\
    forall floor_days m, floor_days <= 2 -> floor_days <= days_to_keep ->
      recent w floor_days m -> four_digit_year (Measurement.timestamp m) ->
      In m (measurements db) -> In m (measurements db').
Proof.
  intros Hd Hw. unfold cleanup_if_size_exceeded.
  assert (Hc : at_second YEAR_1000
               <= clock w 0%nat - at_second (timedelta_days days_to_keep)
               < at_second YEAR_10000).
  { destruct (Hw 0%nat) as [Hlo Hhi].
    pose proof (at_second_mono _ _ (timedelta_days_mono 0 days_to_keep Hd)).
    change (at_second (timedelta_days 0)) with 0 in *. lia. }
  destruct (delete_older_than_In db (clock w 0%nat) days_to_keep Hc)
    as (deleted & db1 & E & Hin).
  rewrite E.
  assert (Hfirst : forall floor_days m, floor_days <= days_to_keep ->
            recent w floor_days m -> four_digit_year (Measurement.timestamp m) ->
            In m (measurements db) -> In m (measurements db1)).
  { intros floor_days m Hfl Hr Hy Hm. apply (Hin m Hy). split; [exact Hm|].
    apply second_of_le. specialize (Hr 0%nat).
    pose proof (at_second_mono _ _ (timedelta_days_mono floor_days days_to_keep Hfl)).
    lia. }
  destruct (Qle_bool (file_size_mb w 0%nat) (max_size_gb * 1024)).
  - exists (0 + deleted), db1. split; [reflexivity|].
    intros floor_days m _. apply Hfirst.
  - destruct (cleanup_loop_returns (Z.to_nat days_to_keep) w (max_size_gb * 1024)%Q
                days_to_keep Hw 1%nat (file_size_mb w 0%nat) (days_to_keep - 1)
                (0 + deleted) db1) as (n & db' & E' & Hk); [lia|lia|].
    exists n, db'. split; [exact E'|].
    intros floor_days m Hfl Hfk Hr Hy Hm. apply (Hk floor_days m Hfl Hr Hy).
    now apply (Hfirst floor_days).
Qed.

(** C6 (retention touches only raw data).  For every input,
    [delete_older_than] and [cleanup_if_size_exceeded] end, by returning
    or by raising [OverflowError], and the database they leave differs
    from the one they found only in that rows of [measurements] are
    gone: [minute_stats], [hourly_stats], [daily_stats] and
    [pattern_averages] are unchanged. *)
Theorem retention_touches_only_raw (db : Database) (w : World)
    (max_size_gb : Q) (days_to_keep now days : Z) :
  only_raw_rows_deleted db (database_after (delete_older_than db now days)) /\
  exists outcome,
    cleanup_if_size_exceeded db w max_size_gb days_to_keep = Some outcome /\
    only_raw_rows_deleted db (database_after outcome).
Proof.
  split; [apply delete_older_than_frame|].
  destruct (cleanup_if_size_exceeded_ends db w max_size_gb days_to_keep)
    as (o & E & Hfr & _).
  now exists o.
Qed.

(** C5 (retention floor), as the code has it.  For every size bound,
    every store, and every retention period of at least one day that
    reaches back no further than the year 1000, a reading stamped within
    one day of every clock reading taken during the call is still stored
    when [cleanup_if_size_exceeded] returns, whatever sizes the file is
    found to have; the same holds across any run of such calls. *)
Theorem retention_floor (db : Database) (m : Measurement.t) :
  In m (measurements db) ->
  four_digit_year (Measurement.timestamp m) ->
  (forall w max_size_gb days_to_keep,
     1 <= days_to_keep -> in_four_digit_years w days_to_keep -> recent w 1 m ->
     exists n db',
       cleanup_if_size_exceeded db w max_size_gb days_to_keep
       = Some (Returned n db') /\
       In m (measurements db')) /\
  (forall calls,
     Forall (fun call =>
               1 <= snd call /\
               in_four_digit_years (fst (fst call)) (snd call) /\
               recent (fst (fst call)) 1 m) calls ->
     exists db', cleanup_repeatedly calls db = Some db' /\ In m (measurements db')).
Proof.
  intros Hm Hy. split.
  - intros w max_size_gb days_to_keep Hd Hw Hr.
    destruct (cleanup_if_size_exceeded_returns db w max_size_gb days_to_keep
                ltac:(lia) Hw) as (n & db' & E & Hk).
    exists n, db'. split; [exact E|]. apply (Hk 1 m); auto; lia.
  - intros calls Hc. revert db Hm.
    induction Hc as [|[[w max_size_gb] days_to_keep] calls (Hd & Hw & Hr) _ IH];
      intros db Hm; cbn [cleanup_repeatedly].
    + now exists db.
    + cbn [fst snd] in Hd, Hw, Hr.
      destruct (cleanup_if_size_exceeded_returns db w max_size_gb days_to_keep
                  ltac:(lia) Hw) as (n & db1 & E & Hk).
      rewrite E. cbn [bind database_after]. apply IH. apply (Hk 1 m); auto; lia.
Qed.

Lemma retention_floor_witness :
  (exists n db',
     cleanup_if_size_exceeded example_db two_hours_later 5 30
     = Some (Returned n db') /\
     In last_reading (measurements db')) /\
  (exists db',
     cleanup_repeatedly [(two_hours_later, 5%Q, 30); (two_hours_later, 5%Q, 1)]
       example_db = Some db' /\
     In last_reading (measurements db')).
Proof.
  assert (Hm : In last_reading (measurements example_db)) by (simpl; auto).
  assert (Hy : four_digit_year (Measurement.timestamp last_reading))
    by (vm_compute; split; [discriminate|reflexivity]).
  assert (Hr : recent two_hours_later 1 last_reading)
    by (intro k; vm_compute; discriminate).
  assert (Hw30 : in_four_digit_years two_hours_later 30)
    by (intro k; vm_compute; split; [discriminate|reflexivity]).
  assert (Hw1 : in_four_digit_years two_hours_later 1)
    by (intro k; vm_compute; split; [discriminate|reflexivity]).
  destruct (retention_floor example_db last_reading Hm Hy) as [Hone Hmany].
  split.
  - apply Hone; [lia|exact Hw30|exact Hr].
  - apply Hmany. repeat constructor; simpl; try lia; assumption.
Defined.

(** C5 as stated fails at both ends of the range of retention periods.
    With a period of zero days the first deletion of
    [cleanup_if_size_exceeded] removes a reading that is one minute old.
    With a period of 400000 days the cutoff falls in the year 930, which
    [strftime] writes with three digits, and the same reading, stamped
    2025, is older than that text and is removed as well. *)
Lemma retention_floor_fails :
  In boundary_reading (measurements boundary_db) /\
  recent one_minute_later 1 boundary_reading /\
  (exists db',
     cleanup_if_size_exceeded boundary_db one_minute_later 5 0
     = Some (Returned 1 db') /\
     ~ In boundary_reading (measurements db')) /\
  strftime (clock one_minute_later 0%nat - at_second (timedelta_days 400000))
  = "930-10-30 14:01:00"%string /\
  (exists db',
     cleanup_if_size_exceeded boundary_db one_minute_later 5 400000
     = Some (Returned 1 db') /\
     ~ In boundary_reading (measurements db')).
Proof.
  split; [simpl; auto|]. split; [intro k; vm_compute; discriminate|].
  split; [|split].
  - eexists. split; [vm_compute; reflexivity|]. simpl. tauto.
  - vm_compute. reflexivity.
  - eexists. split; [vm_compute; reflexivity|]. simpl. tauto.
Qed.

(** ** Rounding at write time *)

Lemma round1_rounds (x : Q) : rounded_to_one_decimal x (round1 x).
Proof.
  destruct x as [n d]. unfold rounded_to_one_decimal, round1. cbn [Qnum Qden].
  set (f := 10 * n / Zpos d). set (r := (10 * n) mod Zpos d).
  assert (Hdm : 10 * n = Zpos d * f + r) by (apply Z.div_mod; lia).
  assert (Hr : 0 <= r < Zpos d) by (apply Z.mod_pos_bound; lia).
  split; [eexists; reflexivity|].
  apply Qabs_Qle_condition.
  assert (Hcases : forall t, (t = f /\ 2 * r <= Zpos d) \/ (t = f + 1 /\ Zpos d <= 2 * r) ->
            (- (1 # 20) <= (t # 10) - (n # d) <= 1 # 20)%Q).
  { intros t Ht. unfold Qle, Qminus, Qplus, Qopp; cbn [Qnum Qden].
    rewrite !Pos2Z.inj_mul. split; destruct Ht as [[-> H]|[-> H]]; nia. }
  apply Hcases.
  destruct (Z.compare_spec (2 * r) (Zpos d)) as [E|E|E].
  - destruct (Z.even f); [left|right]; split; (reflexivity || lia).
  - left. split; [reflexivity|lia].
  - right. split; [reflexivity|lia].
Qed.

(** [round(v, 1) if v else None] rounds every value but zero. *)
Lemma round1_if_truthy_nonzero (x : Q) :
  ~ (x == 0)%Q -> round1_if_truthy (Some x) = Some (round1 x).
Proof.
  intro Hx. unfold round1_if_truthy, truthy.
  destruct (Qeq_bool x 0) eqn:E; [|reflexivity].
  apply Qeq_bool_eq in E. contradiction.
Qed.

Lemma round1_if_truthy_zero (x : Q) :
  (x == 0)%Q -> round1_if_truthy (Some x) = None.
Proof.
  intro Hx. unfold round1_if_truthy, truthy.
  now rewrite (Qeq_eq_bool _ _ Hx).
Qed.

(** What [aggregate_hour] stores for a window that holds a reading: the
    exact extrema of both columns, the rounded mean of [co2_ppm], and
    the rounded mean of [temperature_celsius] unless that mean is
    missing or zero. *)
Lemma hour_row_values (db : Database) (hour_start rowid : Z) :
  let ms := select_window db hour_start (hour_start + timedelta_hours 1) in
  let row := hour_row db hour_start rowid in
  ms <> [] ->
  (exists lo hi mean,
     HourlyStats.co2_min row = Some lo /\ In lo (co2_values ms) /\
     (forall v, In v (co2_values ms) -> lo <= v) /\
     HourlyStats.co2_max row = Some hi /\ In hi (co2_values ms) /\
     (forall v, In v (co2_values ms) -> v <= hi) /\
     avg_Z (co2_values ms) = Some mean /\
     HourlyStats.co2_avg row = Some (round1 mean) /\
     rounded_to_one_decimal mean (round1 mean)) /\
  HourlyStats.temp_min row = min_Q (temperature_values ms) /\
  HourlyStats.temp_max row = max_Q (temperature_values ms) /\
  (forall mean, avg_Q (temperature_values ms) = Some mean -> ~ (mean == 0)%Q ->
     HourlyStats.temp_avg row = Some (round1 mean)).
Proof.
  intros ms row Hne. subst row. unfold hour_row. cbn -[select_stats].
  unfold select_stats. cbn. fold (select_window db hour_start (hour_start + 3600)).
  change (hour_start + 3600) with (hour_start + timedelta_hours 1). fold ms.
  assert (Hv : co2_values ms <> []).
  { unfold co2_values. destruct ms; [contradiction|discriminate]. }
  split; [|split; [reflexivity|split; [reflexivity|]]].
  - destruct (min_Z_some _ Hv) as [lo Elo]. destruct (max_Z_some _ Hv) as [hi Ehi].
    destruct (min_Z_spec _ _ Elo) as [Hlo1 Hlo2].
    destruct (max_Z_spec _ _ Ehi) as [Hhi1 Hhi2].
    destruct (avg_Z (co2_values ms)) as [mean|] eqn:Ea.
    + exists lo, hi, mean. rewrite Elo, Ehi. repeat split; auto; apply round1_rounds.
    + unfold avg_Z in Ea. destruct (co2_values ms); [contradiction|discriminate].
  - intros mean -> Hz. now apply round1_if_truthy_nonzero.
Qed.

(** C7 (rounding at write time) fails on the code.  With one reading of
    0.0 degrees in the window the mean temperature exists and is zero,
    and [aggregate_hour] stores [temp_min] and [temp_max] 0.0 but no
    [temp_avg]: the guard [if row[6]] takes a zero mean for a missing
    one. *)
Theorem zero_mean_is_stored_as_null :
  let ms := select_window freezing_db t_14_00 (t_14_00 + timedelta_hours 1) in
  exists db' row mean,
    aggregate_hour freezing_db t_14_00 = Some (true, db') /\
    filter (hour_key t_14_00) (rows (hourly_stats db')) = [row] /\
    avg_Q (temperature_values ms) = Some mean /\ (mean == 0)%Q /\
    rounded_to_one_decimal mean (0 # 10) /\
    HourlyStats.temp_min row = Some 0%Q /\
    HourlyStats.temp_max row = Some 0%Q /\
    HourlyStats.temp_avg row = None.
Proof.
  intro ms. do 3 eexists.
  split; [vm_compute; reflexivity|].
  split; [vm_compute; reflexivity|].
  split; [vm_compute; reflexivity|].
  split; [reflexivity|].
  split; [|repeat split].
  split; [exists 0; reflexivity|]. vm_compute. discriminate.
Qed.

(** ** Backfill *)

Section While.

Variable body : Database -> Z -> option (bool * Database).
Variable stride : Z.
Hypothesis stride_pos : 0 < stride.

(** An invariant of the loop, indexed by the loop variable. *)
Variable Inv : Z -> Database -> Prop.
Hypothesis body_ok :
  forall db c, Inv c db ->
  exists b db', body db c = Some (b, db') /\ Inv (c + stride) db'.

Lemma rounds_suffice (current end_ : Z) :
  current <= end_ ->
  exists fuel', rounds current end_ stride = S fuel' /\
                (rounds (current + stride) end_ stride <= S fuel')%nat /\
                (current + stride <= end_ ->
                 (rounds (current + stride) end_ stride <= fuel')%nat).
Proof.
  intro Hle. unfold rounds. eexists. split; [reflexivity|].
  replace (end_ - (current + stride)) with (end_ - current + (-1) * stride) by lia.
  rewrite Z.div_add by lia.
  assert (0 <= (end_ - current) / stride) by (apply Z.div_pos; lia).
  split; [lia|]. intro Hs.
  assert (1 <= (end_ - current) / stride).
  { apply Z.div_le_lower_bound; lia. }
  lia.
Qed.

(** With enough fuel the loop ends, past [end_], and the invariant
    holds at the value the loop variable has reached. *)
Lemma while_le_inv (fuel : nat) :
  forall db current end_,
  Inv current db ->
  (current <= end_ -> (rounds current end_ stride <= fuel)%nat) ->
  exists db' c',
    while_le body stride fuel db current end_ = Some db' /\ Inv c' db' /\
    end_ < c' /\ current <= c'.
Proof.
  induction fuel as [|fuel IH]; intros db current end_ Hinv Hf; cbn [while_le];
    destruct (Z.leb_spec current end_) as [Hle|Hgt];
    try (exists db, current; repeat split; auto; lia).
  - specialize (Hf Hle). unfold rounds in Hf. lia.
  - destruct (body_ok db current Hinv) as (b & db1 & E & Hinv1).
    rewrite E. cbn [bind snd].
    destruct (IH db1 (current + stride) end_ Hinv1) as (db' & c' & E' & Hinv' & Hc & Hc').
    + intro Hs. destruct (rounds_suffice current end_ Hle) as (f & Ef & _ & Hf').
      specialize (Hf Hle). specialize (Hf' Hs). lia.
    + exists db', c'. repeat split; auto. lia.
Qed.

End While.

Lemma backfill_minutes_while (interval : Z) (fuel : nat) :
  forall db current end_,
  backfill_minutes fuel db current end_ interval =
  while_le (fun db c => aggregate_minute_interval db c interval)
    (timedelta_minutes interval) fuel db current end_.
Proof.
  induction fuel as [|fuel IH]; intros db current end_; simpl; [reflexivity|].
  destruct (current <=? end_); [|reflexivity].
  destruct (aggregate_minute_interval db current interval); simpl; [apply IH|reflexivity].
Qed.

Lemma backfill_hours_while (fuel : nat) :
  forall db current end_,
  backfill_hours fuel db current end_ =
  while_le aggregate_hour (timedelta_hours 1) fuel db current end_.
Proof.
  induction fuel as [|fuel IH]; intros db current end_; simpl; [reflexivity|].
  destruct (current <=? end_); [|reflexivity].
  destruct (aggregate_hour db current); simpl; [apply IH|reflexivity].
Qed.

Lemma backfill_days_while (fuel : nat) :
  forall db current end_,
  backfill_days fuel db current end_ =
  while_le aggregate_day 1 fuel db current end_.
Proof.
  induction fuel as [|fuel IH]; intros db current end_; simpl; [reflexivity|].
  destruct (current <=? end_); [|reflexivity].
  destruct (aggregate_day db current); simpl; [apply IH|reflexivity].
Qed.

(** Every step returns, and keeps to the store of its resolution. *)
Lemma minute_step (db : Database) (interval_start interval_minutes : Z) :
  exists b db',
    aggregate_minute_interval db interval_start interval_minutes = Some (b, db') /\
    minute_step_frame db db'.
Proof.
  rewrite aggregate_minute_interval_eq.
  destruct (_ =? 0); do 2 eexists; (split; [reflexivity|now repeat split]).
Qed.

Lemma day_step (db : Database) (stat_date : Z) :
  exists b db',
    aggregate_day db stat_date = Some (b, db') /\ day_step_frame db db'.
Proof.
  rewrite aggregate_day_eq.
  destruct (_ =? 0); do 2 eexists; (split; [reflexivity|now repeat split]).
Qed.

Lemma hour_step (db : Database) (H : Z) :
  exists b db',
    aggregate_hour db H = Some (b, db') /\
    hour_step_frame db db' /\
    (forall K, K <> H ->
       filter (hour_key K) (rows (hourly_stats db')) =
       filter (hour_key K) (rows (hourly_stats db))) /\
    (0 < window_count db H (H + timedelta_hours 1) -> hour_complete db db' H).
Proof.
  rewrite aggregate_hour_eq.
  destruct (Z.eqb_spec (window_count db H (H + timedelta_hours 1)) 0) as [E|E];
    do 2 eexists; (split; [reflexivity|]); (split; [now repeat split|]).
  - split; [reflexivity|lia].
  - cbn [hourly_stats with_hourly_stats]. split.
    + intros K HK. apply insert_or_replace_others.
      * unfold hour_key, hour_row; simpl. now apply Z.eqb_neq.
      * intros r Hr. unfold hour_key in *. apply Z.eqb_eq in Hr. apply Z.eqb_neq. lia.
    + intros _. eexists. split.
      * apply insert_or_replace_key, hour_key_hour_row.
      * reflexivity.
Qed.

Lemma minute_step_frame_trans (db1 db2 db3 : Database) :
  minute_step_frame db1 db2 -> minute_step_frame db2 db3 -> minute_step_frame db1 db3.
Proof. unfold minute_step_frame. intuition congruence. Qed.

Lemma hour_step_frame_trans (db1 db2 db3 : Database) :
  hour_step_frame db1 db2 -> hour_step_frame db2 db3 -> hour_step_frame db1 db3.
Proof. unfold hour_step_frame. intuition congruence. Qed.

Lemma day_step_frame_trans (db1 db2 db3 : Database) :
  day_step_frame db1 db2 -> day_step_frame db2 db3 -> day_step_frame db1 db3.
Proof. unfold day_step_frame. intuition congruence. Qed.

Lemma backfill_minutes_frame (db : Database) (current end_ interval : Z) :
  0 < interval ->
  exists db',
    backfill_minutes (rounds current end_ (timedelta_minutes interval))
      db current end_ interval = Some db' /\
    minute_step_frame db db'.
Proof.
  intro Hi. rewrite backfill_minutes_while.
  destruct (while_le_inv (fun db c => aggregate_minute_interval db c interval)
              (timedelta_minutes interval)
              ltac:(unfold timedelta_minutes, SECONDS_PER_MINUTE; lia)
              (fun _ db' => minute_step_frame db db')
              ltac:(intros d c Hd;
                    destruct (minute_step d c interval) as (b & d' & E & Hfr);
                    exists b, d'; split; [exact E|];
                    now apply (minute_step_frame_trans db d d'))
              (rounds current end_ (timedelta_minutes interval)) db current end_)
    as (db' & _ & E & Hfr & _).
  - now repeat split.
  - auto.
  - now exists db'.
Qed.

Lemma backfill_intervals_frame (intervals : list Z) :
  Forall (fun interval => 0 < interval) intervals ->
  forall db start_ end_,
  exists db',
    backfill_intervals intervals db start_ end_ = Some db' /\
    minute_step_frame db db'.
Proof.
  induction 1 as [|interval intervals Hi _ IH]; intros db start_ end_;
    cbn [backfill_intervals].
  - exists db. split; [reflexivity|now repeat split].
  - destruct (backfill_minutes_frame db
                (replace_minute start_ (minute start_ / interval * interval))
                end_ interval Hi) as (db1 & E1 & Hfr1).
    rewrite E1. cbn [bind].
    destruct (IH db1 start_ end_) as (db' & E' & Hfr').
    exists db'. split; [exact E'|]. now apply (minute_step_frame_trans db db1 db').
Qed.

Lemma backfill_days_frame (db : Database) (current end_ : Z) :
  exists db',
    backfill_days (rounds current end_ 1) db current end_ = Some db' /\
    day_step_frame db db'.
Proof.
  rewrite backfill_days_while.
  destruct (while_le_inv aggregate_day 1 ltac:(lia)
              (fun _ db' => day_step_frame db db')
              ltac:(intros d c Hd;
                    destruct (day_step d c) as (b & d' & E & Hfr);
                    exists b, d'; split; [exact E|];
                    now apply (day_step_frame_trans db d d'))
              (rounds current end_ 1) db current end_)
    as (db' & _ & E & Hfr & _).
  - now repeat split.
  - auto.
  - now exists db'.
Qed.

Lemma hours_done_step (db0 : Database) (start0 : Z) (db : Database) (c : Z) :
  hours_done db0 start0 c db ->
  exists b db',
    aggregate_hour db c = Some (b, db') /\
    hours_done db0 start0 (c + timedelta_hours 1) db'.
Proof.
  intros ((j & Hj & Ec) & Hfr & Hdone).
  destruct (hour_step db c) as (b & db' & E & Hfr' & Hothers & Hkey).
  exists b, db'. split; [exact E|]. split; [|split].
  - exists (j + 1). split; [lia|]. rewrite Ec. lia.
  - now apply (hour_step_frame_trans db0 db db').
  - intros H (k & Hk & EH) Hlt Hpos.
    assert (Hm : measurements db = measurements db0) by apply Hfr.
    destruct (Z.eq_dec H c) as [->|Hne].
    + rewrite (window_count_ext db0 db) in Hkey by exact Hm.
      destruct (Hkey Hpos) as (row & Hrow & Hcount).
      exists row. split; [exact Hrow|].
      now rewrite <- (window_count_ext db0 db) by exact Hm.
    + assert (H < c).
      { unfold timedelta_hours, SECONDS_PER_HOUR in *. lia. }
      destruct (Hdone H) as (row & Hrow & Hcount); [now exists k|lia|exact Hpos|].
      exists row. split; [|exact Hcount]. now rewrite Hothers.
Qed.

Lemma backfill_hours_complete (db : Database) (start0 end_ : Z) :
  exists db',
    backfill_hours (rounds start0 end_ (timedelta_hours 1)) db start0 end_ = Some db' /\
    hour_step_frame db db' /\
    forall H, hour_from start0 H -> H <= end_ ->
              0 < window_count db H (H + timedelta_hours 1) ->
              hour_complete db db' H.
Proof.
  rewrite backfill_hours_while.
  destruct (while_le_inv aggregate_hour (timedelta_hours 1)
              ltac:(unfold timedelta_hours, SECONDS_PER_HOUR; lia)
              (hours_done db start0) (hours_done_step db start0)
              (rounds start0 end_ (timedelta_hours 1)) db start0 end_)
    as (db' & c' & E & (_ & Hfr & Hdone) & Hc & _).
  - split; [exists 0; split; [lia|ring]|]. split; [now repeat split|].
    intros H (k & Hk & ->) Hlt. unfold timedelta_hours, SECONDS_PER_HOUR in *. lia.
  - auto.
  - exists db'. split; [exact E|]. split; [exact Hfr|].
    intros H HH Hle. apply Hdone; [exact HH|lia].
Qed.

Lemma window_count_witness (db : Database) (start_ end_ : Z) :
  0 < window_count db start_ end_ ->
  exists m, In m (measurements db) /\ start_ <= Measurement.timestamp m < end_.
Proof.
  unfold window_count, count. intro Hpos.
  destruct (select_window db start_ end_) as [|m l] eqn:E; [simpl in Hpos; lia|].
  exists m. apply select_window_In. rewrite E. now left.
Qed.

Lemma min_Z_none (l : list Z) : min_Z l = None -> l = [].
Proof. destruct l; [reflexivity|discriminate]. Qed.

Lemma max_Z_none (l : list Z) : max_Z l = None -> l = [].
Proof. destruct l; [reflexivity|discriminate]. Qed.

Lemma no_timestamps (db : Database) (start_ end_ : Z) :
  timestamps db = [] -> window_count db start_ end_ = 0.
Proof.
  unfold timestamps, window_count, select_window. intro E.
  apply map_eq_nil in E. now rewrite E.
Qed.

(** An hour of the clock that holds a reading is visited by the hour
    loop, which starts at the hour of the earliest reading. *)
Lemma hour_with_reading_is_visited (db : Database) (start_ end_ H : Z) :
  min_Z (timestamps db) = Some start_ ->
  max_Z (timestamps db) = Some end_ ->
  H mod SECONDS_PER_HOUR = 0 ->
  0 < window_count db H (H + timedelta_hours 1) ->
  hour_from (replace_minute start_ 0) H /\ H <= end_.
Proof.
  intros Emin Emax Hal Hpos.
  destruct (window_count_witness _ _ _ Hpos) as (m & Hm & Ht).
  assert (Hts : In (Measurement.timestamp m) (timestamps db)) by now apply in_map.
  destruct (min_Z_spec _ _ Emin) as [_ Hlo]. destruct (max_Z_spec _ _ Emax) as [_ Hhi].
  specialize (Hlo _ Hts). specialize (Hhi _ Hts).
  unfold hour_from, replace_minute, timedelta_hours, SECONDS_PER_HOUR, SECONDS_PER_MINUTE in *.
  split; [|lia].
  pose proof (Z.div_mod start_ 3600 ltac:(lia)) as Hs.
  pose proof (Z.mod_pos_bound start_ 3600 ltac:(lia)) as Hsb.
  pose proof (Z.div_mod H 3600 ltac:(lia)) as HH.
  exists (H / 3600 - start_ / 3600). split; lia.
Qed.

(** C2 (backfill completeness).  [backfill_all] runs to completion and
    leaves the raw store as it was; afterwards, for every hour of the
    clock that holds at least one reading, [hourly_stats] has exactly
    one row with that [hour_start], and its [co2_count] is the number of
    readings stamped within the hour. *)
Theorem backfill_completeness (db : Database) :
  exists db',
    backfill_all db = Some db' /\
    measurements db' = measurements db /\
    forall H, H mod SECONDS_PER_HOUR = 0 ->
              0 < window_count db H (H + timedelta_hours 1) ->
              exists row,
                filter (hour_key H) (rows (hourly_stats db')) = [row] /\
                HourlyStats.co2_count row =
                window_count db H (H + timedelta_hours 1).
Proof.
  unfold backfill_all.
  destruct (min_Z (timestamps db)) as [start_|] eqn:Emin;
    [destruct (max_Z (timestamps db)) as [end_|] eqn:Emax|].
  - destruct (backfill_intervals_frame MINUTE_INTERVALS
                ltac:(repeat constructor) db start_ end_) as (db1 & E1 & Hm1 & _).
    rewrite E1. cbn [bind].
    destruct (backfill_hours_complete db1 (replace_minute start_ 0) end_)
      as (db2 & E2 & (Hm2 & _) & Hdone).
    rewrite E2. cbn [bind].
    destruct (backfill_days_frame db2 (date_of start_) (date_of end_))
      as (db3 & E3 & Hm3 & _ & Hh3 & _).
    exists db3. split; [exact E3|]. split; [congruence|].
    intros H Hal Hpos.
    destruct (hour_with_reading_is_visited db start_ end_ H Emin Emax Hal Hpos)
      as [Hfrom Hle].
    rewrite <- (window_count_ext db db1) in Hpos |- * by exact Hm1.
    destruct (Hdone H Hfrom Hle Hpos) as (row & Hrow & Hcount).
    exists row. now rewrite Hh3.
  - apply max_Z_none in Emax. rewrite Emax in Emin. discriminate.
  - exists db. split; [reflexivity|]. split; [reflexivity|].
    intros H _ Hpos. rewrite (no_timestamps db) in Hpos by now apply min_Z_none.
    lia.
Qed.

Lemma backfill_completeness_witness :
  exists db' row,
    backfill_all afternoon_db = Some db' /\
    filter (hour_key t_14_00) (rows (hourly_stats db')) = [row] /\
    HourlyStats.co2_count row = 2.
Proof.
  destruct (backfill_completeness afternoon_db) as (db' & E & _ & Hdone).
  destruct (Hdone t_14_00) as (row & Hrow & Hcount);
    [reflexivity|reflexivity|].
  exists db', row. split; [exact E|]. split; [exact Hrow|exact Hcount].
Defined.

(** * Further properties *)

(** ** Inserting and reading back *)

Lemma fold_left_max_ge (l : list Z) (a : Z) :
  a <= fold_left Z.max l a /\ Forall (fun x => x <= fold_left Z.max l a) l.
Proof.
  revert a. induction l as [|x l IH]; intro a; simpl; [split; [lia|constructor]|].
  destruct (IH (Z.max a x)) as [H1 H2]. split; [lia|].
  constructor; [lia|exact H2].
Qed.

Lemma max_rowid_ge (ms : list Measurement.t) (m : Measurement.t) :
  In m ms -> Measurement.id m <= max_rowid ms.
Proof.
  intro Hin. unfold max_rowid.
  destruct (fold_left_max_ge (map Measurement.id ms) 0) as [_ H].
  rewrite Forall_forall in H. apply H. now apply in_map.
Qed.

Lemma later_of_fold (l : list Measurement.t) (best : option Measurement.t) :
  match fold_left later_of l best with
  | None => best = None /\ l = []
  | Some m =>
      (best = Some m \/ In m l) /\
      Forall (fun x => Measurement.timestamp x <= Measurement.timestamp m) l /\
      (forall b, best = Some b -> Measurement.timestamp b <= Measurement.timestamp m)
  end.
Proof.
  revert best. induction l as [|x l IH]; intro best; simpl.
  - destruct best as [b|]; [|now split].
    split; [now left|]. split; [constructor|]. intros b' E; injection E as <-; lia.
  - specialize (IH (later_of best x)).
    destruct (fold_left later_of l (later_of best x)) as [m|].
    + destruct IH as (Hin & Hall & Hbest). split; [|split].
      * destruct Hin as [E|Hin]; [|now right; right].
        destruct best as [b|]; simpl in E.
        -- destruct (Measurement.timestamp b <=? Measurement.timestamp x);
             injection E as <-; auto.
        -- injection E as <-. auto.
      * constructor; [|exact Hall].
        destruct best as [b|]; simpl in Hbest.
        -- destruct (Z.leb_spec (Measurement.timestamp b) (Measurement.timestamp x));
             specialize (Hbest _ eq_refl); lia.
        -- now apply Hbest.
      * intros b ->. simpl in Hbest.
        destruct (Z.leb_spec (Measurement.timestamp b) (Measurement.timestamp x));
          specialize (Hbest _ eq_refl); lia.
    + destruct IH as [E _]. destruct best as [b|]; simpl in E; [|discriminate].
      destruct (Measurement.timestamp b <=? Measurement.timestamp x); discriminate.
Qed.

(** X1.  [get_latest] answers [None] exactly on an empty raw store;
    otherwise it answers a stored reading that no stored reading is
    later than. *)
Theorem get_latest_is_latest (db : Database) :
  match get_latest db with
  | None => measurements db = []
  | Some m =>
      In m (measurements db) /\
      Forall (fun x => Measurement.timestamp x <= Measurement.timestamp m)
        (measurements db)
  end.
Proof.
  unfold get_latest. pose proof (later_of_fold (measurements db) None) as H.
  destruct (fold_left later_of (measurements db) None) as [m|].
  - destruct H as ([E|Hin] & Hall & _); [discriminate|]. now split.
  - apply H.
Qed.

Lemma get_latest_app_later (ms : list Measurement.t) (m : Measurement.t)
    (best : option Measurement.t) :
  (forall b, fold_left later_of ms best = Some b ->
             Measurement.timestamp b <= Measurement.timestamp m) ->
  fold_left later_of (ms ++ [m]) best = Some m.
Proof.
  intro H. rewrite fold_left_app. simpl.
  destruct (fold_left later_of ms best) as [b|]; simpl; [|reflexivity].
  specialize (H b eq_refl).
  destruct (Z.leb_spec (Measurement.timestamp b) (Measurement.timestamp m));
    [reflexivity|lia].
Qed.

Lemma get_range_perm (db : Database) (start_ end_ : Z) :
  Permutation (get_range db start_ end_)
    (filter (between (strftime start_) (strftime end_)) (measurements db)).
Proof. apply order_by_timestamp_perm. Qed.

(** A reading of a four-digit year is returned by the ranges of such
    years that cover its second. *)
Lemma get_range_In (db : Database) (start_ end_ : Z) (m : Measurement.t) :
  four_digit_year (second_of start_) -> four_digit_year (second_of end_) ->
  four_digit_year (Measurement.timestamp m) ->
  (In m (get_range db start_ end_) <->
   In m (measurements db) /\
   second_of start_ <= Measurement.timestamp m <= second_of end_).
Proof.
  intros Hs He Hm.
  rewrite <- within_spec, <- (between_spec _ _ _ Hs He Hm), <- filter_In.
  split; apply Permutation_in; [|apply Permutation_sym]; apply get_range_perm.
Qed.

(** X2.  [insert] stores the reading under a rowid that is larger than
    every rowid in the table and than the sequence counter, so rowids
    stay distinct; the number of readings grows by one, the aggregate
    stores are untouched, [get_range] over the second of the insertion
    returns the reading, and when the clock has moved past every stored
    timestamp [get_latest] answers the reading just inserted. *)
Theorem insert_then_read_back (s : Store) (utc_now co2_ppm : Z)
    (temperature_celsius : option Q) :
  let rowid := fst (insert s utc_now co2_ppm temperature_celsius) in
  let s' := snd (insert s utc_now co2_ppm temperature_celsius) in
  let m := Measurement.mk rowid utc_now co2_ppm temperature_celsius in
  measurements_seq s < rowid /\
  Forall (fun x => Measurement.id x < rowid) (measurements (database s)) /\
  (distinct_ids (database s) -> distinct_ids (database s')) /\
  count_measurements (database s') = count_measurements (database s) + 1 /\
  same_aggregates (database s) (database s') /\
  (four_digit_year utc_now ->
   forall dt, second_of dt = utc_now -> In m (get_range (database s') dt dt)) /\
  (Forall (fun x => Measurement.timestamp x <= utc_now) (measurements (database s)) ->
   get_latest (database s') = Some m).
Proof.
  cbv zeta. unfold insert, with_measurements. cbn [fst snd database measurements].
  set (rowid := Z.max (measurements_seq s) (max_rowid (measurements (database s))) + 1).
  assert (Hfresh : Forall (fun x => Measurement.id x < rowid) (measurements (database s))).
  { apply Forall_forall. intros x Hx. pose proof (max_rowid_ge _ _ Hx). lia. }
  split; [lia|]. split; [exact Hfresh|]. split; [|split; [|split; [|split]]].
  - unfold distinct_ids. cbn [measurements]. intro Hd.
    rewrite map_app. simpl.
    apply (Permutation_NoDup (Permutation_cons_append _ _)).
    constructor; [|exact Hd].
    rewrite in_map_iff. intros (x & Ex & Hx).
    rewrite Forall_forall in Hfresh. specialize (Hfresh x Hx). lia.
  - unfold count_measurements, count. cbn [measurements].
    rewrite length_app. simpl. lia.
  - now repeat split.
  - intros Hy dt Hdt. apply get_range_In; rewrite ?Hdt; try exact Hy.
    cbn [measurements Measurement.timestamp]. split; [|lia].
    apply in_or_app. right. now left.
  - intro Hall. unfold get_latest. cbn [measurements].
    apply get_latest_app_later. intros b Eb.
    pose proof (later_of_fold (measurements (database s)) None) as H.
    rewrite Eb in H. destruct H as ([E|Hin] & _); [discriminate|].
    rewrite Forall_forall in Hall. simpl. now apply Hall.
Qed.

Lemma insert_then_read_back_witness :
  distinct_ids (database (snd (insert example_store t_15_30 480 None))) /\
  In (Measurement.mk 4 t_15_30 480 None)
    (get_range (database (snd (insert example_store t_15_30 480 None)))
       (at_second t_15_30 + 250000) (at_second t_15_30 + 250000)) /\
  get_latest (database (snd (insert example_store t_15_30 480 None))) =
  Some (Measurement.mk 4 t_15_30 480 None).
Proof.
  destruct (insert_then_read_back example_store t_15_30 480 None)
    as (_ & _ & Hd & _ & _ & Hr & Hl).
  split; [|split].
  - apply Hd. unfold distinct_ids. simpl.
    repeat constructor; simpl; intuition discriminate.
  - apply Hr; [vm_compute; split; [discriminate|reflexivity]|reflexivity].
  - apply Hl. repeat constructor; vm_compute; discriminate.
Defined.

(** ** Statistics of the raw store *)






(** X4.  [get_statistics] raises exactly when [get_last_hours] does.
    It has no upper bound on the timestamp: for a span of zero hours or
    more that stays in the years of four digits it counts the readings
    that [get_last_hours] returns and, besides, every reading stamped
    after the second of [now].  When it counts no reading, its six
    statistics are all [None]. *)
Theorem get_statistics_counts (db : Database) (now hours : Z) :
  (get_statistics db now hours = None <-> get_last_hours db now hours = None) /\
  (0 <= hours ->
   at_second YEAR_1000 <= now - at_second (timedelta_hours hours) ->
   now < at_second YEAR_10000 ->
   stamped_in_four_digit_years db ->
   exists stats ms,
     get_statistics db now hours = Some stats /\
     get_last_hours db now hours = Some ms /\
     Statistics.count stats =
     count ms
     + count (filter (fun m => second_of now <? Measurement.timestamp m)
                (measurements db))) /\
  (forall stats, get_statistics db now hours = Some stats ->
     Statistics.count stats = 0 ->
     Statistics.co2 stats = Summary.mk None None None /\
     Statistics.temperature stats = Summary.mk None None None).
Proof.
  unfold get_statistics, get_last_hours. cbv zeta. split; [|split].
  - destruct (datetime_sub now (timedelta_hours hours)); cbn [bind];
      split; (discriminate || reflexivity).
  - intros Hh Hlo Hhi Hdb.
    assert (Hpos : 0 <= at_second (timedelta_hours hours))
      by (unfold at_second, MICROSECONDS_PER_SECOND, timedelta_hours, SECONDS_PER_HOUR;
          lia).
    destruct (datetime_sub_four_digit now (timedelta_hours hours) ltac:(lia))
      as [E Hys].
    assert (Hyn : four_digit_year (second_of now)).
    { unfold four_digit_year, second_of, at_second, MICROSECONDS_PER_SECOND in *.
      Z.div_mod_to_equations. lia. }
    rewrite E. cbn [bind]. do 2 eexists. split; [reflexivity|].
    split; [reflexivity|]. cbn [Statistics.count].
    set (start_ := now - at_second (timedelta_hours hours)) in *.
    unfold count at 1 2 3.
    rewrite (Permutation_length (get_range_perm db start_ now)).
    assert (Hle : second_of start_ <= second_of now).
    { unfold second_of, MICROSECONDS_PER_SECOND. apply Z.div_le_mono; lia. }
    rewrite (filter_ext_in _ (fun m => second_of start_ <=? Measurement.timestamp m)),
            (filter_ext_in (between _ _) (within start_ now)).
    + pose proof (filter_split_length
                    (fun m => second_of start_ <=? Measurement.timestamp m)
                    (fun m => Measurement.timestamp m <=? second_of now)
                    (measurements db)) as El.
      rewrite <- El, Nat2Z.inj_add. f_equal.
      f_equal. f_equal. apply filter_ext. intro m.
      destruct (Z.leb_spec (second_of start_) (Measurement.timestamp m)),
               (Z.leb_spec (Measurement.timestamp m) (second_of now)),
               (Z.ltb_spec (second_of now) (Measurement.timestamp m)); simpl;
        (reflexivity || lia).
    + intros m Hm. apply between_spec; auto.
      unfold stamped_in_four_digit_years in Hdb. rewrite Forall_forall in Hdb. auto.
    + intros m Hm. apply strftime_leb_stored; auto.
      unfold stamped_in_four_digit_years in Hdb. rewrite Forall_forall in Hdb. auto.
  - intros stats Es Ec.
    destruct (datetime_sub now (timedelta_hours hours)); cbn [bind] in Es;
      [|discriminate].
    injection Es as <-. cbn [Statistics.count Statistics.co2 Statistics.temperature] in *.
    apply count_zero in Ec. rewrite Ec. split; reflexivity.
Qed.

Lemma get_statistics_counts_witness :
  exists stats,
    get_statistics example_db (at_second t_14_00 + 250000) 1 = Some stats /\
    Statistics.count stats = 0 + 3.
Proof.
  destruct (get_statistics_counts example_db (at_second t_14_00 + 250000) 1)
    as (_ & Hcount & _).
  destruct Hcount as (stats & ms & Es & Em & Hc).
  - lia.
  - vm_compute. discriminate.
  - vm_compute. reflexivity.
  - repeat constructor; vm_compute; discriminate.
  - exists stats. split; [exact Es|]. rewrite Hc.
    vm_compute in Em. injection Em as <-. reflexivity.
Defined.

(** ** [ORDER BY] *)

Lemma insert_sorted_perm {A : Type} (ltb : A -> A -> bool) (a : A) (l : list A) :
  Permutation (insert_sorted ltb a l) (a :: l).
Proof.
  induction l as [|x l IH]; simpl; [reflexivity|].
  destruct (ltb a x); [reflexivity|]. rewrite IH. apply perm_swap.
Qed.

Lemma order_with_perm {A : Type} (ltb : A -> A -> bool) (l : list A) :
  Permutation (order_with ltb l) l.
Proof.
  unfold order_with. rewrite (Permutation_rev l) at 2.
  induction (rev l) as [|x r IH]; simpl; [reflexivity|].
  rewrite insert_sorted_perm. now constructor.
Qed.

Lemma insert_sorted_ascending {A : Type} (key : A -> Z) (a : A) (l : list A) :
  Sorted (ascending key) l ->
  Sorted (ascending key) (insert_sorted (fun x y => key x <? key y) a l).
Proof.
  induction 1 as [|x l Hs IH Hd]; simpl; [repeat constructor|].
  destruct (Z.ltb_spec (key a) (key x)) as [Hlt|Hge].
  - constructor; [now constructor|]. constructor. unfold ascending. lia.
  - constructor; [exact IH|].
    destruct Hd as [|y l Hxy]; simpl.
    + constructor. exact Hge.
    + destruct (key a <? key y); constructor; assumption.
Qed.

Lemma order_by_sorted {A : Type} (key : A -> Z) (l : list A) :
  Sorted (ascending key) (order_by key l).
Proof.
  unfold order_by, order_with.
  induction (rev l) as [|x r IH]; simpl; [constructor|].
  now apply insert_sorted_ascending.
Qed.

Lemma order_by_In {A : Type} (key : A -> Z) (l : list A) (a : A) :
  In a (order_by key l) <-> In a l.
Proof.
  split; apply Permutation_in; [|apply Permutation_sym]; apply order_with_perm.
Qed.

Lemma between_Z_spec (lo hi x : Z) : between_Z lo hi x = true <-> lo <= x <= hi.
Proof. unfold between_Z. rewrite andb_true_iff, !Z.leb_le. tauto. Qed.

Lemma between_Z_point (k x : Z) : between_Z k k x = (x =? k).
Proof.
  unfold between_Z.
  destruct (Z.leb_spec k x), (Z.leb_spec x k), (Z.eqb_spec x k); simpl;
    (reflexivity || lia).
Qed.

Lemma Forall_filter {A : Type} (P : A -> Prop) (p : A -> bool) (l : list A) :
  Forall P l -> Forall P (filter p l).
Proof.
  rewrite !Forall_forall. intros H a Ha. apply filter_In in Ha. now apply H.
Qed.

Lemma Forall_insert_or_replace {R : Type} (P : R -> Prop) (clashes : R -> bool)
    (new_row : Z -> R) (tbl : Table R) :
  Forall P (rows tbl) -> P (new_row (seq tbl + 1)) ->
  Forall P (rows (insert_or_replace clashes new_row tbl)).
Proof.
  intros Hall Hnew. unfold insert_or_replace; simpl.
  apply Forall_app. split; [now apply Forall_filter|now constructor].
Qed.

(** *** Texts of keys and of dates *)

Lemma text_between_spec (start_ end_ t : Z) :
  four_digit_year (second_of start_) -> four_digit_year (second_of end_) ->
  four_digit_year t ->
  text_between (strftime start_) (strftime end_) t
  = between_Z (second_of start_) (second_of end_) t.
Proof.
  intros Hs He Ht. unfold text_between, between_Z.
  now rewrite strftime_leb_stored, stored_leb_strftime.
Qed.

Lemma civil_year_range_day (d : Z) :
  four_digit_year (combine_midnight d) ->
  let '(y, m, dd) := civil_from_days d in 1000 <= y <= 9999.
Proof.
  intro Hd. pose proof (civil_year_range (combine_midnight d) Hd) as H.
  unfold combine_midnight in H. rewrite Z.div_mul in H by (unfold SECONDS_PER_DAY; lia).
  exact H.
Qed.

(** In the years of four digits the texts of two dates are ordered as
    the dates. *)
Lemma stored_date_text_compare (d1 d2 : Z) :
  four_digit_year (combine_midnight d1) -> four_digit_year (combine_midnight d2) ->
  (stored_date_text d1 ?= stored_date_text d2)%string = (d1 ?= d2).
Proof.
  intros H1 H2. unfold stored_date_text, date_text.
  pose proof (civil_year_range_day d1 H1) as Y1.
  pose proof (civil_year_range_day d2 H2) as Y2.
  pose proof (civil_from_days_key d1) as K1.
  pose proof (civil_from_days_key d2) as K2.
  destruct (civil_from_days d1) as [[y1 m1] dd1].
  destruct (civil_from_days d2) as [[y2 m2] dd2].
  destruct K1 as (Hm1 & Hd1 & K1), K2 as (Hm2 & Hd2 & K2).
  rewrite pad4_compare, compare_same, pad2_compare, compare_same, pad2_compare by lia.
  cbn [String.compare]. rewrite lex_Eq_r.
  now rewrite date_compare, K1, K2, calendar_key_compare.
Qed.

Lemma date_strftime_four_digit (d : Z) :
  four_digit_year (combine_midnight d) -> date_strftime d = stored_date_text d.
Proof.
  intro Hd. unfold date_strftime, stored_date_text, date_text.
  pose proof (civil_year_range_day d Hd) as Hy.
  destruct (civil_from_days d) as [[y m] dd].
  apply year_text_four_digit. lia.
Qed.

Lemma date_between_spec (start_date end_date d : Z) :
  four_digit_year (combine_midnight start_date) ->
  four_digit_year (combine_midnight end_date) ->
  four_digit_year (combine_midnight d) ->
  String.leb (date_strftime start_date) (stored_date_text d)
  && String.leb (stored_date_text d) (date_strftime end_date)
  = between_Z start_date end_date d.
Proof.
  intros Hs He Hd. rewrite !date_strftime_four_digit by assumption.
  unfold String.leb, between_Z, Z.leb.
  now rewrite !stored_date_text_compare.
Qed.

(** On stores keyed in four-digit years, and for bounds of such years,
    the range queries select by the seconds, or days, of their
    bounds. *)
Lemma get_hourly_stats_eq (db : Database) (start_ end_ : Z) :
  four_digit_year (second_of start_) -> four_digit_year (second_of end_) ->
  keyed_in_four_digit_years db ->
  get_hourly_stats db start_ end_ =
  order_by HourlyStats.hour_start
    (filter (fun r => between_Z (second_of start_) (second_of end_)
                        (HourlyStats.hour_start r))
       (rows (hourly_stats db))).
Proof.
  intros Hs He (_ & Hk & _). unfold get_hourly_stats. cbv zeta. f_equal.
  apply filter_ext_in. intros r Hr. apply text_between_spec; auto.
  rewrite Forall_forall in Hk. auto.
Qed.

Lemma get_minute_stats_eq (db : Database) (start_ end_ interval_minutes : Z) :
  four_digit_year (second_of start_) -> four_digit_year (second_of end_) ->
  keyed_in_four_digit_years db ->
  get_minute_stats db start_ end_ interval_minutes =
  order_by MinuteStats.interval_start
    (filter (fun r => between_Z (second_of start_) (second_of end_)
                        (MinuteStats.interval_start r)
                      && (MinuteStats.interval_minutes r =? interval_minutes))
       (rows (minute_stats db))).
Proof.
  intros Hs He (Hk & _). unfold get_minute_stats. cbv zeta. f_equal.
  apply filter_ext_in. intros r Hr. f_equal. apply text_between_spec; auto.
  rewrite Forall_forall in Hk. auto.
Qed.

Lemma get_daily_stats_eq (db : Database) (start_date end_date : Z) :
  four_digit_year (combine_midnight start_date) ->
  four_digit_year (combine_midnight end_date) ->
  keyed_in_four_digit_years db ->
  get_daily_stats db start_date end_date =
  order_by DailyStats.date
    (filter (fun r => between_Z start_date end_date (DailyStats.date r))
       (rows (daily_stats db))).
Proof.
  intros Hs He (_ & _ & Hk). unfold get_daily_stats. cbv zeta. f_equal.
  apply filter_ext_in. intros r Hr. apply date_between_spec; auto.
  rewrite Forall_forall in Hk. auto.
Qed.

(** X5.  On stores keyed in four-digit years each range query returns,
    in ascending order of its key column, exactly the stored rows whose
    key lies in the closed range from the second of [start] to the
    second of [end] (for [get_daily_stats], from the one date to the
    other); [get_minute_stats] returns only rows of the requested
    width. *)
Theorem aggregate_range_queries (db : Database)
    (start_ end_ interval_minutes start_date end_date : Z) :
  four_digit_year (second_of start_) -> four_digit_year (second_of end_) ->
  four_digit_year (combine_midnight start_date) ->
  four_digit_year (combine_midnight end_date) ->
  keyed_in_four_digit_years db ->
  (Permutation (get_minute_stats db start_ end_ interval_minutes)
     (filter (fun r => between_Z (second_of start_) (second_of end_)
                         (MinuteStats.interval_start r)
                       && (MinuteStats.interval_minutes r =? interval_minutes))
        (rows (minute_stats db))) /\
   Sorted (ascending MinuteStats.interval_start)
     (get_minute_stats db start_ end_ interval_minutes) /\
   Forall (fun r => MinuteStats.interval_minutes r = interval_minutes /\
                    second_of start_ <= MinuteStats.interval_start r <= second_of end_)
     (get_minute_stats db start_ end_ interval_minutes)) /\
  (Permutation (get_hourly_stats db start_ end_)
     (filter (fun r => between_Z (second_of start_) (second_of end_)
                         (HourlyStats.hour_start r))
        (rows (hourly_stats db))) /\
   Sorted (ascending HourlyStats.hour_start) (get_hourly_stats db start_ end_) /\
   Forall (fun r => second_of start_ <= HourlyStats.hour_start r <= second_of end_)
     (get_hourly_stats db start_ end_)) /\
  (Permutation (get_daily_stats db start_date end_date)
     (filter (fun r => between_Z start_date end_date (DailyStats.date r))
        (rows (daily_stats db))) /\
   Sorted (ascending DailyStats.date) (get_daily_stats db start_date end_date) /\
   Forall (fun r => start_date <= DailyStats.date r <= end_date)
     (get_daily_stats db start_date end_date)).
Proof.
  intros Hs He Hsd Hed Hk.
  rewrite (get_minute_stats_eq db start_ end_ interval_minutes Hs He Hk),
          (get_hourly_stats_eq db start_ end_ Hs He Hk),
          (get_daily_stats_eq db start_date end_date Hsd Hed Hk).
  repeat split; try apply order_with_perm; try apply order_by_sorted;
    apply Forall_forall; intros r Hr; apply order_by_In, filter_In in Hr;
    destruct Hr as [_ Hr].
  - apply andb_true_iff in Hr. destruct Hr as [Hb Hi].
    apply between_Z_spec in Hb. apply Z.eqb_eq in Hi. now split.
  - now apply between_Z_spec.
  - now apply between_Z_spec.
Qed.

Lemma aggregate_range_queries_witness :
  Forall (fun r => t_14_00 <= HourlyStats.hour_start r <= t_15_30)
    (get_hourly_stats afternoon_aggregated (at_second t_14_00) (at_second t_15_30 + 250000)).
Proof.
  assert (Hs : four_digit_year (second_of (at_second t_14_00)))
    by (vm_compute; split; [discriminate|reflexivity]).
  assert (He : four_digit_year (second_of (at_second t_15_30 + 250000)))
    by (vm_compute; split; [discriminate|reflexivity]).
  assert (Hd : four_digit_year (combine_midnight day_20251228))
    by (vm_compute; split; [discriminate|reflexivity]).
  assert (Hk : keyed_in_four_digit_years afternoon_aggregated).
  { repeat split; repeat constructor; vm_compute; discriminate. }
  exact (proj2 (proj2 (proj1 (proj2
           (aggregate_range_queries afternoon_aggregated (at_second t_14_00)
              (at_second t_15_30 + 250000) 5 day_20251228 day_20251228
              Hs He Hd Hd Hk))))).
Defined.

(** ** Writing a bucket and reading it back *)

(** X6.  After [aggregate_hour] has produced data for an hour [H] of a
    four-digit year, [get_hourly_stats] from [H] to [H] returns exactly
    one row, the bucket of [H]: its count is the number of readings of
    the hour and its extrema are theirs; every range that covers [H]
    returns the row. *)
Theorem aggregate_hour_then_get_hourly_stats (db : Database) (H : Z) :
  0 < window_count db H (H + timedelta_hours 1) ->
  four_digit_year H ->
  keyed_in_four_digit_years db ->
  exists db' row,
    aggregate_hour db H = Some (true, db') /\
    (forall dt, second_of dt = H -> get_hourly_stats db' dt dt = [row]) /\
    HourlyStats.hour_start row = H /\
    HourlyStats.co2_count row = window_count db H (H + timedelta_hours 1) /\
    HourlyStats.co2_min row =
      min_Z (co2_values (select_window db H (H + timedelta_hours 1))) /\
    HourlyStats.co2_max row =
      max_Z (co2_values (select_window db H (H + timedelta_hours 1))) /\
    forall a b,
      four_digit_year (second_of a) -> four_digit_year (second_of b) ->
      second_of a <= H <= second_of b -> In row (get_hourly_stats db' a b).
Proof.
  intros Hpos Hy Hk. rewrite aggregate_hour_eq.
  destruct (Z.eqb_spec (window_count db H (H + timedelta_hours 1)) 0); [lia|].
  set (db' := with_hourly_stats db
                (insert_or_replace (hour_key H) (hour_row db H) (hourly_stats db))).
  exists db', (hour_row db H (seq (hourly_stats db) + 1)).
  split; [reflexivity|].
  assert (Hkey : filter (hour_key H) (rows (hourly_stats db'))
                 = [hour_row db H (seq (hourly_stats db) + 1)])
    by apply insert_or_replace_key, hour_key_hour_row.
  assert (Hk' : keyed_in_four_digit_years db').
  { destruct Hk as (Hk1 & Hk2 & Hk3). split; [exact Hk1|]. split; [|exact Hk3].
    now apply Forall_insert_or_replace. }
  split; [|split; [reflexivity|split; [reflexivity|split; [reflexivity|split;
    [reflexivity|]]]]].
  - intros dt Hdt. rewrite get_hourly_stats_eq by (rewrite ?Hdt; assumption).
    rewrite Hdt, (filter_ext _ (hour_key H)), Hkey; [reflexivity|].
    intro r. apply between_Z_point.
  - intros a b Ha Hb Hab. rewrite get_hourly_stats_eq by assumption.
    apply order_by_In, filter_In. split.
    + assert (Hin : In (hour_row db H (seq (hourly_stats db) + 1))
                      (filter (hour_key H) (rows (hourly_stats db'))))
        by (rewrite Hkey; now left).
      now apply filter_In in Hin.
    + now apply between_Z_spec.
Qed.

Lemma aggregate_hour_then_get_hourly_stats_witness :
  exists db' row,
    aggregate_hour example_db t_14_00 = Some (true, db') /\
    get_hourly_stats db' (at_second t_14_00 + 250000) (at_second t_14_00 + 250000)
    = [row] /\
    HourlyStats.co2_count row = 3.
Proof.
  destruct (aggregate_hour_then_get_hourly_stats example_db t_14_00)
    as (db' & row & E & Hq & _ & Hc & _).
  - reflexivity.
  - vm_compute. split; [discriminate|reflexivity].
  - repeat split; constructor.
  - exists db', row. split; [exact E|]. split; [now apply Hq|exact Hc].
Defined.

(** X7.  After [aggregate_minute_interval] has produced data for a
    window that starts in a four-digit year, [get_minute_stats] at the
    start of the window and the same width returns exactly one row,
    whose count is the number of readings of the window; a query for
    another width does not return the row. *)
Theorem aggregate_minute_then_get_minute_stats (db : Database)
    (interval_start interval_minutes : Z) :
  let interval_end := interval_start + timedelta_minutes interval_minutes in
  0 < window_count db interval_start interval_end ->
  four_digit_year interval_start ->
  keyed_in_four_digit_years db ->
  exists db' row,
    aggregate_minute_interval db interval_start interval_minutes = Some (true, db') /\
    (forall dt, second_of dt = interval_start ->
       get_minute_stats db' dt dt interval_minutes = [row]) /\
    MinuteStats.interval_start row = interval_start /\
    MinuteStats.interval_minutes row = interval_minutes /\
    MinuteStats.co2_count row = window_count db interval_start interval_end /\
    forall a b other, other <> interval_minutes ->
                      ~ In row (get_minute_stats db' a b other).
Proof.
  intros interval_end Hpos Hy Hk. subst interval_end.
  rewrite aggregate_minute_interval_eq.
  destruct (Z.eqb_spec (window_count db interval_start
                          (interval_start + timedelta_minutes interval_minutes)) 0);
    [lia|].
  set (db' := with_minute_stats db
                (insert_or_replace (minute_key interval_start interval_minutes)
                   (minute_row db interval_start interval_minutes) (minute_stats db))).
  exists db', (minute_row db interval_start interval_minutes (seq (minute_stats db) + 1)).
  split; [reflexivity|].
  assert (Hk' : keyed_in_four_digit_years db').
  { destruct Hk as (Hk1 & Hk2 & Hk3). split; [|split; [exact Hk2|exact Hk3]].
    now apply Forall_insert_or_replace. }
  split; [|split; [reflexivity|split; [reflexivity|split; [reflexivity|]]]].
  - intros dt Hdt. rewrite get_minute_stats_eq by (rewrite ?Hdt; assumption).
    rewrite Hdt. cbn [minute_stats with_minute_stats db'].
    rewrite (filter_ext _ (minute_key interval_start interval_minutes)).
    + unfold db'. cbn [minute_stats with_minute_stats].
      rewrite insert_or_replace_key by apply minute_key_minute_row. reflexivity.
    + intro r. unfold minute_key. now rewrite between_Z_point.
  - intros a b other Hne Hin. unfold get_minute_stats in Hin.
    apply order_by_In, filter_In in Hin. destruct Hin as [_ Hin].
    apply andb_true_iff in Hin. destruct Hin as [_ Hin].
    apply Z.eqb_eq in Hin. simpl in Hin. congruence.
Qed.

Lemma aggregate_minute_then_get_minute_stats_witness :
  exists db' row,
    aggregate_minute_interval example_db t_14_00 5 = Some (true, db') /\
    get_minute_stats db' (at_second t_14_00) (at_second t_14_00) 5 = [row] /\
    MinuteStats.co2_count row = 1 /\
    ~ In row (get_minute_stats db' (at_second t_14_00) (at_second t_14_00) 15).
Proof.
  destruct (aggregate_minute_then_get_minute_stats example_db t_14_00 5)
    as (db' & row & E & Hq & _ & _ & Hc & Hother).
  - reflexivity.
  - vm_compute. split; [discriminate|reflexivity].
  - repeat split; constructor.
  - exists db', row. split; [exact E|]. split; [now apply Hq|]. split; [exact Hc|].
    apply Hother. discriminate.
Defined.

(** X8.  After [aggregate_day] has produced data for a date of a
    four-digit year, [get_daily_stats] from that date to that date
    returns exactly one row, whose [measurement_count] is the number of
    readings of the day and whose [is_weekend] tells whether the date
    is a Saturday or a Sunday. *)
Theorem aggregate_day_then_get_daily_stats (db : Database) (stat_date : Z) :
  let day_start := combine_midnight stat_date in
  let day_end := day_start + timedelta_days 1 in
  0 < window_count db day_start day_end ->
  four_digit_year day_start ->
  keyed_in_four_digit_years db ->
  exists db' row,
    aggregate_day db stat_date = Some (true, db') /\
    get_daily_stats db' stat_date stat_date = [row] /\
    DailyStats.date row = stat_date /\
    DailyStats.measurement_count row = window_count db day_start day_end /\
    (DailyStats.is_weekend row = true <->
     weekday stat_date = 5 \/ weekday stat_date = 6).
Proof.
  intros day_start day_end Hpos Hy Hk. subst day_start day_end.
  rewrite aggregate_day_eq.
  destruct (Z.eqb_spec (window_count db (combine_midnight stat_date)
                          (combine_midnight stat_date + timedelta_days 1)) 0);
    [lia|].
  set (db' := with_daily_stats db
                (insert_or_replace (day_key stat_date) (day_row db stat_date)
                   (daily_stats db))).
  exists db', (day_row db stat_date (seq (daily_stats db) + 1)).
  split; [reflexivity|].
  assert (Hk' : keyed_in_four_digit_years db').
  { destruct Hk as (Hk1 & Hk2 & Hk3). split; [exact Hk1|]. split; [exact Hk2|].
    now apply Forall_insert_or_replace. }
  split; [|split; [reflexivity|split; [reflexivity|]]].
  - rewrite get_daily_stats_eq by assumption.
    unfold db'. cbn [daily_stats with_daily_stats].
    rewrite (filter_ext _ (day_key stat_date)).
    + rewrite insert_or_replace_key by apply day_key_day_row. reflexivity.
    + intro r. apply between_Z_point.
  - unfold day_row. cbn [DailyStats.is_weekend]. rewrite Z.leb_le.
    unfold weekday. pose proof (Z.mod_pos_bound (stat_date + 3) 7 ltac:(lia)). lia.
Qed.

Lemma aggregate_day_then_get_daily_stats_witness :
  exists db' row,
    aggregate_day example_db day_20251228 = Some (true, db') /\
    get_daily_stats db' day_20251228 day_20251228 = [row] /\
    DailyStats.measurement_count row = 3 /\
    DailyStats.is_weekend row = true.
Proof.
  destruct (aggregate_day_then_get_daily_stats example_db day_20251228)
    as (db' & row & E & Hq & _ & Hc & Hw).
  - reflexivity.
  - vm_compute. split; [discriminate|reflexivity].
  - repeat split; constructor.
  - exists db', row. split; [exact E|]. split; [exact Hq|]. split; [exact Hc|].
    apply Hw. right. reflexivity.
Defined.

(** ** Invariants kept by the aggregation engine *)

(** A property of the database that each of the three steps keeps is
    kept by the loops built from them. *)
Section Preservation.

Variable I : Database -> Prop.
Hypothesis minute_keeps : forall db s w b db',
  I db -> aggregate_minute_interval db s w = Some (b, db') -> I db'.
Hypothesis hour_keeps : forall db H b db',
  I db -> aggregate_hour db H = Some (b, db') -> I db'.
Hypothesis day_keeps : forall db d b db',
  I db -> aggregate_day db d = Some (b, db') -> I db'.

Lemma minute_step_keeps (db : Database) (s w : Z) :
  I db -> exists b db', aggregate_minute_interval db s w = Some (b, db') /\ I db'.
Proof.
  intro Hi. destruct (minute_step db s w) as (b & db' & E & _).
  exists b, db'. split; [exact E|]. now apply (minute_keeps db s w b).
Qed.

Lemma hour_step_keeps (db : Database) (H : Z) :
  I db -> exists b db', aggregate_hour db H = Some (b, db') /\ I db'.
Proof.
  intro Hi. destruct (hour_step db H) as (b & db' & E & _).
  exists b, db'. split; [exact E|]. now apply (hour_keeps db H b).
Qed.

Lemma day_step_keeps (db : Database) (d : Z) :
  I db -> exists b db', aggregate_day db d = Some (b, db') /\ I db'.
Proof.
  intro Hi. destruct (day_step db d) as (b & db' & E & _).
  exists b, db'. split; [exact E|]. now apply (day_keeps db d b).
Qed.

Lemma backfill_intervals_keeps (intervals : list Z) :
  Forall (fun interval => 0 < interval) intervals ->
  forall db start_ end_, I db ->
  exists db', backfill_intervals intervals db start_ end_ = Some db' /\ I db'.
Proof.
  induction 1 as [|interval intervals Hpos _ IH]; intros db start_ end_ Hi;
    cbn [backfill_intervals].
  - now exists db.
  - rewrite backfill_minutes_while.
    destruct (while_le_inv (fun db c => aggregate_minute_interval db c interval)
                (timedelta_minutes interval)
                ltac:(unfold timedelta_minutes, SECONDS_PER_MINUTE; lia)
                (fun _ db' => I db')
                (fun d c Hd => minute_step_keeps d c interval Hd)
                (rounds (replace_minute start_ (minute start_ / interval * interval))
                   end_ (timedelta_minutes interval))
                db (replace_minute start_ (minute start_ / interval * interval)) end_
                Hi ltac:(auto))
      as (db1 & _ & E & Hi1 & _).
    rewrite E. cbn [bind]. now apply IH.
Qed.

Lemma backfill_all_keeps (db : Database) :
  I db -> exists db', backfill_all db = Some db' /\ I db'.
Proof.
  intro Hi. unfold backfill_all.
  destruct (min_Z (timestamps db)) as [start_|]; [|now exists db].
  destruct (max_Z (timestamps db)) as [end_|]; [|now exists db].
  destruct (backfill_intervals_keeps MINUTE_INTERVALS ltac:(repeat constructor)
              db start_ end_ Hi) as (db1 & E1 & Hi1).
  rewrite E1. cbn [bind]. rewrite backfill_hours_while.
  destruct (while_le_inv aggregate_hour (timedelta_hours 1)
              ltac:(unfold timedelta_hours, SECONDS_PER_HOUR; lia)
              (fun _ db' => I db') (fun d c Hd => hour_step_keeps d c Hd)
              (rounds (replace_minute start_ 0) end_ (timedelta_hours 1))
              db1 (replace_minute start_ 0) end_ Hi1 ltac:(auto))
    as (db2 & _ & E2 & Hi2 & _).
  rewrite E2. cbn [bind]. rewrite backfill_days_while.
  destruct (while_le_inv aggregate_day 1 ltac:(lia)
              (fun _ db' => I db') (fun d c Hd => day_step_keeps d c Hd)
              (rounds (date_of start_) (date_of end_) 1)
              db2 (date_of start_) (date_of end_) Hi2 ltac:(auto))
    as (db3 & _ & E3 & Hi3 & _).
  now exists db3.
Qed.

Lemma incremental_intervals_keeps (intervals : list Z) :
  forall db now, I db ->
  exists db', incremental_intervals intervals db now = Some db' /\ I db'.
Proof.
  induction intervals as [|interval intervals IH]; intros db now Hi;
    cbn [incremental_intervals].
  - now exists db.
  - destruct (minute_step_keeps db
                (replace_minute now (minute now / interval * interval)) interval Hi)
      as (b1 & db1 & E1 & Hi1).
    rewrite E1. cbn [bind snd].
    destruct (minute_step_keeps db1
                (replace_minute now (minute now / interval * interval)
                 - timedelta_minutes interval) interval Hi1)
      as (b2 & db2 & E2 & Hi2).
    rewrite E2. cbn [bind snd]. now apply IH.
Qed.

Lemma run_incremental_keeps (db : Database) (now : Z) :
  I db -> exists db', run_incremental db now = Some db' /\ I db'.
Proof.
  intro Hi. unfold run_incremental.
  destruct (incremental_intervals_keeps MINUTE_INTERVALS db now Hi) as (db1 & E1 & Hi1).
  rewrite E1. cbn [bind].
  destruct (hour_step_keeps db1 (replace_minute now 0) Hi1) as (b2 & db2 & E2 & Hi2).
  rewrite E2. cbn [bind snd].
  destruct (hour_step_keeps db2 (replace_minute now 0 - timedelta_hours 1) Hi2)
    as (b3 & db3 & E3 & Hi3).
  rewrite E3. cbn [bind snd].
  destruct (day_step_keeps db3 (date_of now) Hi3) as (b4 & db4 & E4 & Hi4).
  rewrite E4. cbn [bind snd].
  destruct (day_step_keeps db4 (date_of now - 1) Hi4) as (b5 & db5 & E5 & Hi5).
  rewrite E5. cbn [bind snd]. now exists db5.
Qed.

End Preservation.

(** What a step returns: the database as it was, for an empty window,
    or the database with one [INSERT OR REPLACE] done. *)
Lemma minute_step_shape (db : Database) (s w : Z) (b : bool) (db' : Database) :
  aggregate_minute_interval db s w = Some (b, db') ->
  (db' = db /\ window_count db s (s + timedelta_minutes w) = 0) \/
  (db' = with_minute_stats db
           (insert_or_replace (minute_key s w) (minute_row db s w) (minute_stats db)) /\
   0 < window_count db s (s + timedelta_minutes w)).
Proof.
  rewrite aggregate_minute_interval_eq.
  destruct (Z.eqb_spec (window_count db s (s + timedelta_minutes w)) 0) as [E|E];
    intro Hr; injection Hr as _ <-; [left|right]; split; auto.
  pose proof (count_nonneg (select_window db s (s + timedelta_minutes w))).
  unfold window_count in *. lia.
Qed.

Lemma hour_step_shape (db : Database) (H : Z) (b : bool) (db' : Database) :
  aggregate_hour db H = Some (b, db') ->
  (db' = db /\ window_count db H (H + timedelta_hours 1) = 0) \/
  (db' = with_hourly_stats db
           (insert_or_replace (hour_key H) (hour_row db H) (hourly_stats db)) /\
   0 < window_count db H (H + timedelta_hours 1)).
Proof.
  rewrite aggregate_hour_eq.
  destruct (Z.eqb_spec (window_count db H (H + timedelta_hours 1)) 0) as [E|E];
    intro Hr; injection Hr as _ <-; [left|right]; split; auto.
  pose proof (count_nonneg (select_window db H (H + timedelta_hours 1))).
  unfold window_count in *. lia.
Qed.

Lemma day_step_shape (db : Database) (d : Z) (b : bool) (db' : Database) :
  aggregate_day db d = Some (b, db') ->
  (db' = db /\
   window_count db (combine_midnight d) (combine_midnight d + timedelta_days 1) = 0) \/
  (db' = with_daily_stats db
           (insert_or_replace (day_key d) (day_row db d) (daily_stats db)) /\
   0 < window_count db (combine_midnight d) (combine_midnight d + timedelta_days 1)).
Proof.
  rewrite aggregate_day_eq.
  destruct (Z.eqb_spec (window_count db (combine_midnight d)
                          (combine_midnight d + timedelta_days 1)) 0) as [E|E];
    intro Hr; injection Hr as _ <-; [left|right]; split; auto.
  pose proof (count_nonneg (select_window db (combine_midnight d)
                              (combine_midnight d + timedelta_days 1))).
  unfold window_count in *. lia.
Qed.

(** *** The calendar columns *)

Lemma hour_bounds (t : Z) : 0 <= hour t < 24.
Proof.
  unfold hour, SECONDS_PER_DAY, SECONDS_PER_HOUR.
  pose proof (Z.mod_pos_bound t 86400 ltac:(lia)).
  split; [apply Z.div_pos; lia|apply Z.div_lt_upper_bound; lia].
Qed.

Lemma weekday_bounds (d : Z) : 0 <= weekday d < 7.
Proof. unfold weekday. apply Z.mod_pos_bound. lia. Qed.

Lemma hour_row_calendar_ok (db : Database) (H rowid : Z) :
  calendar_ok (hour_row db H rowid).
Proof.
  unfold calendar_ok, hour_row. cbv zeta. cbn [HourlyStats.hour_of_day
    HourlyStats.day_of_week HourlyStats.hour_start HourlyStats.is_daytime
    HourlyStats.is_workday].
  pose proof (hour_bounds H). pose proof (weekday_bounds (date_of H)).
  repeat split; try lia;
    rewrite ?andb_true_iff, ?Z.leb_le, ?Z.ltb_lt in *; tauto.
Qed.

Lemma calendar_tagged_minute_keeps (db : Database) (s w : Z) (b : bool) (db' : Database) :
  calendar_tagged db -> aggregate_minute_interval db s w = Some (b, db') ->
  calendar_tagged db'.
Proof.
  intros Hi E. destruct (minute_step_shape _ _ _ _ _ E) as [[-> _]|[-> _]]; exact Hi.
Qed.

Lemma calendar_tagged_hour_keeps (db : Database) (H : Z) (b : bool) (db' : Database) :
  calendar_tagged db -> aggregate_hour db H = Some (b, db') -> calendar_tagged db'.
Proof.
  intros Hi E. destruct (hour_step_shape _ _ _ _ E) as [[-> _]|[-> _]]; [exact Hi|].
  unfold calendar_tagged. cbn [hourly_stats with_hourly_stats].
  apply Forall_insert_or_replace; [exact Hi|apply hour_row_calendar_ok].
Qed.

Lemma calendar_tagged_day_keeps (db : Database) (d : Z) (b : bool) (db' : Database) :
  calendar_tagged db -> aggregate_day db d = Some (b, db') -> calendar_tagged db'.
Proof.
  intros Hi E. destruct (day_step_shape _ _ _ _ E) as [[-> _]|[-> _]]; exact Hi.
Qed.

(** X9.  Every row that the engine writes to [hourly_stats] has its
    calendar columns derived from its [hour_start]: [hour_of_day] from
    0 to 23, [day_of_week] from 0 to 6, [is_daytime] exactly for the
    hours from 6 to 21, [is_workday] exactly for Monday to Friday from
    8 to 17.  A store whose hourly rows are all so tagged stays so
    under [aggregate_hour], [backfill_all] and [run_incremental]. *)
Theorem calendar_tags_are_kept (db : Database) (H now : Z) :
  calendar_tagged db ->
  (exists b db', aggregate_hour db H = Some (b, db') /\ calendar_tagged db') /\
  (exists db', backfill_all db = Some db' /\ calendar_tagged db') /\
  (exists db', run_incremental db now = Some db' /\ calendar_tagged db').
Proof.
  intro Hi. split; [|split].
  - now apply (hour_step_keeps calendar_tagged calendar_tagged_hour_keeps).
  - now apply (backfill_all_keeps calendar_tagged calendar_tagged_minute_keeps
                 calendar_tagged_hour_keeps calendar_tagged_day_keeps).
  - now apply (run_incremental_keeps calendar_tagged calendar_tagged_minute_keeps
                 calendar_tagged_hour_keeps calendar_tagged_day_keeps).
Qed.

Lemma calendar_tags_are_kept_witness :
  exists db', backfill_all example_db = Some db' /\ calendar_tagged db'.
Proof.
  apply (calendar_tags_are_kept example_db 0 0). constructor.
Defined.

(** *** Unique keys *)

Lemma NoDup_map_filter {A K : Type} (key : A -> K) (p : A -> bool) (l : list A) :
  NoDup (map key l) -> NoDup (map key (filter p l)).
Proof.
  induction l as [|a l IH]; simpl; intro Hd; [constructor|].
  inversion Hd as [|? ? Hn Hd']; subst.
  destruct (p a); simpl; [|now apply IH].
  constructor; [|now apply IH].
  intro Hin. apply Hn. apply in_map_iff in Hin. destruct Hin as (x & Ex & Hx).
  apply filter_In in Hx. apply in_map_iff. exists x. tauto.
Qed.

Lemma insert_or_replace_NoDup {R K : Type} (key : R -> K) (clashes : R -> bool)
    (new_row : Z -> R) (tbl : Table R) :
  (forall r, key r = key (new_row (seq tbl + 1)) -> clashes r = true) ->
  NoDup (map key (rows tbl)) ->
  NoDup (map key (rows (insert_or_replace clashes new_row tbl))).
Proof.
  intros Hc Hd. unfold insert_or_replace; simpl. rewrite map_app. simpl.
  apply (Permutation_NoDup (Permutation_cons_append _ _)).
  constructor; [|now apply NoDup_map_filter].
  intro Hin. apply in_map_iff in Hin. destruct Hin as (x & Ex & Hx).
  apply filter_In in Hx. destruct Hx as [_ Hx]. rewrite (Hc x Ex) in Hx. discriminate.
Qed.

Lemma unique_buckets_minute_keeps (db : Database) (s w : Z) (b : bool) (db' : Database) :
  unique_buckets db -> aggregate_minute_interval db s w = Some (b, db') ->
  unique_buckets db'.
Proof.
  intros Hi E. destruct (minute_step_shape _ _ _ _ _ E) as [[-> _]|[-> _]]; [exact Hi|].
  destruct Hi as (Hm & Hh & Hd). split; [|now split].
  cbn [minute_stats with_minute_stats]. apply insert_or_replace_NoDup; [|exact Hm].
  intros r Er. unfold minute_row in Er. cbv zeta in Er. simpl in Er.
  injection Er as E1 E2. unfold minute_key. now rewrite E1, E2, !Z.eqb_refl.
Qed.

Lemma unique_buckets_hour_keeps (db : Database) (H : Z) (b : bool) (db' : Database) :
  unique_buckets db -> aggregate_hour db H = Some (b, db') -> unique_buckets db'.
Proof.
  intros Hi E. destruct (hour_step_shape _ _ _ _ E) as [[-> _]|[-> _]]; [exact Hi|].
  destruct Hi as (Hm & Hh & Hd). split; [exact Hm|split; [|exact Hd]].
  cbn [hourly_stats with_hourly_stats]. apply insert_or_replace_NoDup; [|exact Hh].
  intros r Er. unfold hour_key. apply Z.eqb_eq. exact Er.
Qed.

Lemma unique_buckets_day_keeps (db : Database) (d : Z) (b : bool) (db' : Database) :
  unique_buckets db -> aggregate_day db d = Some (b, db') -> unique_buckets db'.
Proof.
  intros Hi E. destruct (day_step_shape _ _ _ _ E) as [[-> _]|[-> _]]; [exact Hi|].
  destruct Hi as (Hm & Hh & Hd). split; [exact Hm|split; [exact Hh|]].
  cbn [daily_stats with_daily_stats]. apply insert_or_replace_NoDup; [|exact Hd].
  intros r Er. unfold day_key. apply Z.eqb_eq. exact Er.
Qed.

(** X10.  The engine keeps the keys of the aggregate stores unique: if
    no two rows of [minute_stats] share (interval_start,
    interval_minutes), none of [hourly_stats] share [hour_start] and
    none of [daily_stats] share [date], the same holds after
    [backfill_all] and after [run_incremental]; [get_hourly_stats] then
    returns no two rows for one hour. *)
Theorem unique_keys_are_kept (db : Database) (now start_ end_ : Z) :
  unique_buckets db ->
  (exists db', backfill_all db = Some db' /\ unique_buckets db') /\
  (exists db', run_incremental db now = Some db' /\ unique_buckets db') /\
  NoDup (map HourlyStats.hour_start (get_hourly_stats db start_ end_)).
Proof.
  intro Hi. split; [|split].
  - now apply (backfill_all_keeps unique_buckets unique_buckets_minute_keeps
                 unique_buckets_hour_keeps unique_buckets_day_keeps).
  - now apply (run_incremental_keeps unique_buckets unique_buckets_minute_keeps
                 unique_buckets_hour_keeps unique_buckets_day_keeps).
  - unfold get_hourly_stats.
    eapply Permutation_NoDup.
    + apply Permutation_map, Permutation_sym, order_with_perm.
    + apply NoDup_map_filter, Hi.
Qed.

Lemma unique_keys_are_kept_witness :
  exists db', backfill_all afternoon_db = Some db' /\ unique_buckets db'.
Proof.
  apply (unique_keys_are_kept afternoon_db 0 0 0). repeat split; constructor.
Defined.

(** *** Buckets and the raw store *)

Lemma buckets_match_raw_minute_keeps (db : Database) (s w : Z) (b : bool)
    (db' : Database) :
  buckets_match_raw db -> aggregate_minute_interval db s w = Some (b, db') ->
  buckets_match_raw db'.
Proof.
  intros Hi E. destruct (minute_step_shape _ _ _ _ _ E) as [[-> _]|[-> Hpos]];
    [exact Hi|].
  destruct Hi as (Hm & Hh & Hd). split; [|split].
  - cbn [minute_stats with_minute_stats].
    apply Forall_insert_or_replace.
    + eapply Forall_impl; [|exact Hm]. intros r Hr. exact Hr.
    + unfold minute_row. cbv zeta.
      cbn [MinuteStats.co2_count MinuteStats.interval_start MinuteStats.interval_minutes].
      rewrite row3_select_stats. split; [exact Hpos|reflexivity].
  - exact Hh.
  - exact Hd.
Qed.

Lemma buckets_match_raw_hour_keeps (db : Database) (H : Z) (b : bool) (db' : Database) :
  buckets_match_raw db -> aggregate_hour db H = Some (b, db') ->
  buckets_match_raw db'.
Proof.
  intros Hi E. destruct (hour_step_shape _ _ _ _ E) as [[-> _]|[-> Hpos]]; [exact Hi|].
  destruct Hi as (Hm & Hh & Hd). split; [exact Hm|split; [|exact Hd]].
  cbn [hourly_stats with_hourly_stats].
  apply Forall_insert_or_replace; [exact Hh|].
  unfold hour_row. cbv zeta. cbn [HourlyStats.co2_count HourlyStats.hour_start].
  rewrite row3_select_stats. split; [exact Hpos|reflexivity].
Qed.

Lemma buckets_match_raw_day_keeps (db : Database) (d : Z) (b : bool) (db' : Database) :
  buckets_match_raw db -> aggregate_day db d = Some (b, db') ->
  buckets_match_raw db'.
Proof.
  intros Hi E. destruct (day_step_shape _ _ _ _ E) as [[-> _]|[-> Hpos]]; [exact Hi|].
  destruct Hi as (Hm & Hh & Hd). split; [exact Hm|split; [exact Hh|]].
  cbn [daily_stats with_daily_stats].
  apply Forall_insert_or_replace; [exact Hd|].
  unfold day_row. cbv zeta. cbn [DailyStats.measurement_count DailyStats.date].
  rewrite row3_select_stats. split; [exact Hpos|reflexivity].
Qed.

(** X11.  The engine never writes a bucket for an empty window, and
    what it writes counts the raw store: if every row of the three
    aggregate stores has a positive count equal to the number of
    readings that the raw store holds in the window of the row, the
    same holds after [backfill_all] and after [run_incremental].  In
    particular it holds after a backfill into empty aggregate
    stores. *)
Theorem buckets_match_raw_is_kept (db : Database) (now : Z) :
  buckets_match_raw db ->
  (exists db', backfill_all db = Some db' /\ buckets_match_raw db') /\
  (exists db', run_incremental db now = Some db' /\ buckets_match_raw db').
Proof.
  intro Hi. split.
  - now apply (backfill_all_keeps buckets_match_raw buckets_match_raw_minute_keeps
                 buckets_match_raw_hour_keeps buckets_match_raw_day_keeps).
  - now apply (run_incremental_keeps buckets_match_raw buckets_match_raw_minute_keeps
                 buckets_match_raw_hour_keeps buckets_match_raw_day_keeps).
Qed.

Lemma buckets_match_raw_is_kept_witness :
  exists db', backfill_all afternoon_db = Some db' /\ buckets_match_raw db'.
Proof.
  apply (buckets_match_raw_is_kept afternoon_db 0). repeat split; constructor.
Defined.

(** ** Analytics *)

Lemma insert_distinct_In (k x : Z) (l : list Z) :
  In x (insert_distinct k l) <-> x = k \/ In x l.
Proof.
  induction l as [|y l IH]; simpl; [intuition|].
  destruct (Z.ltb_spec k y); [simpl; intuition|].
  destruct (Z.eqb_spec k y); simpl; [subst; intuition|].
  rewrite IH. intuition.
Qed.

Lemma distinct_sorted_In (x : Z) (l : list Z) :
  In x (distinct_sorted l) <-> In x l.
Proof.
  induction l as [|y l IH]; simpl; [tauto|].
  rewrite insert_distinct_In, IH. intuition.
Qed.

Lemma insert_distinct_sorted (k : Z) (l : list Z) :
  StronglySorted Z.lt l -> StronglySorted Z.lt (insert_distinct k l).
Proof.
  induction 1 as [|y l Hs IH Hall]; simpl; [repeat constructor|].
  destruct (Z.ltb_spec k y) as [Hlt|Hge].
  - constructor; [now constructor|]. constructor; [exact Hlt|].
    eapply Forall_impl; [|exact Hall]. intros z Hz. cbv beta in *. lia.
  - destruct (Z.eqb_spec k y) as [E|Hne]; [now constructor|].
    constructor; [exact IH|].
    apply Forall_forall. intros z Hz. apply insert_distinct_In in Hz.
    rewrite Forall_forall in Hall. destruct Hz as [->|Hz]; [lia|now apply Hall].
Qed.

Lemma distinct_sorted_sorted (l : list Z) : StronglySorted Z.lt (distinct_sorted l).
Proof.
  induction l as [|y l IH]; simpl; [constructor|now apply insert_distinct_sorted].
Qed.

Lemma sorted_lt_NoDup (l : list Z) : StronglySorted Z.lt l -> NoDup l.
Proof.
  induction 1 as [|y l Hs IH Hall]; constructor; [|exact IH].
  intro Hin. rewrite Forall_forall in Hall. specialize (Hall y Hin). lia.
Qed.

Lemma sorted_lt_length (l : list Z) (lo hi : Z) :
  StronglySorted Z.lt l -> Forall (fun k => lo <= k < hi) l -> lo <= hi ->
  Z.of_nat (List.length l) <= hi - lo.
Proof.
  intros Hs. revert lo. induction Hs as [|y l Hs IH Hall]; intros lo Hb Hle; simpl;
    [lia|].
  inversion Hb as [|? ? Hy Hb']; subst.
  assert (Z.of_nat (List.length l) <= hi - (y + 1)).
  { apply IH; [|lia]. rewrite Forall_forall in *. intros z Hz.
    specialize (Hall z Hz). specialize (Hb' z Hz). lia. }
  lia.
Qed.

Lemma sum_Z_nil : sum_Z [] = 0.
Proof. reflexivity. Qed.

Lemma sum_Z_map_add {A : Type} (f g : A -> Z) (l : list A) :
  sum_Z (map (fun a => f a + g a) l) = sum_Z (map f l) + sum_Z (map g l).
Proof.
  induction l as [|a l IH]; simpl; [reflexivity|]. rewrite !sum_Z_cons, IH. lia.
Qed.

Lemma sum_Z_indicator (k v : Z) (ks : list Z) :
  NoDup ks -> In k ks ->
  sum_Z (map (fun x => if k =? x then v else 0) ks) = v.
Proof.
  induction 1 as [|y ks Hn Hd IH]; simpl; [contradiction|].
  rewrite sum_Z_cons. intros [->|Hin].
  - rewrite Z.eqb_refl.
    assert (E : sum_Z (map (fun x => if k =? x then v else 0) ks) = 0).
    { clear IH Hd. induction ks as [|z ks IH]; [reflexivity|]. simpl.
      rewrite sum_Z_cons. destruct (Z.eqb_spec k z) as [->|_].
      - exfalso. apply Hn. now left.
      - rewrite IH; [lia|]. intro Hk. apply Hn. now right. }
    lia.
  - destruct (Z.eqb_spec k y) as [->|_]; [contradiction|]. rewrite IH by exact Hin. lia.
Qed.

(** [GROUP BY] loses no row and counts none twice. *)
Lemma sum_Z_groups {R : Type} (key f : R -> Z) (rs : list R) (ks : list Z) :
  NoDup ks -> Forall (fun r => In (key r) ks) rs ->
  sum_Z (map (fun k => sum_Z (map f (filter (fun r => key r =? k) rs))) ks)
  = sum_Z (map f rs).
Proof.
  intros Hd. induction 1 as [|r rs Hr _ IH]; simpl.
  - induction ks as [|k ks IHk]; [reflexivity|]. simpl. rewrite sum_Z_cons.
    inversion Hd; subst. rewrite IHk by assumption. reflexivity.
  - rewrite sum_Z_cons, <- IH.
    rewrite <- (sum_Z_indicator (key r) (f r) ks Hd Hr), <- sum_Z_map_add.
    f_equal. apply map_ext. intro k.
    destruct (key r =? k); simpl; [now rewrite sum_Z_cons|lia].
Qed.

Lemma or_zero_sum_column {R : Type} (f : R -> Z) (rs : list R) :
  or_zero (sum_column f rs) = sum_Z (map f rs).
Proof. destruct rs; reflexivity. Qed.

Lemma sum_Z_filter_split {R : Type} (f : R -> Z) (p : R -> bool) (rs : list R) :
  sum_Z (map f (filter p rs)) + sum_Z (map f (filter (fun r => negb (p r)) rs))
  = sum_Z (map f rs).
Proof.
  induction rs as [|r rs IH]; simpl; [reflexivity|].
  destruct (p r); simpl; rewrite !sum_Z_cons; lia.
Qed.

(** X12.  [get_hourly_pattern] returns one entry for each hour of the
    day that occurs in [hourly_stats], in ascending order of the hour;
    every entry has a sample count, and the sample counts of all
    entries add up to the sum of [co2_count] over all hourly rows.  On
    a store with proper calendar columns there are at most 24
    entries. *)
Theorem hourly_pattern_groups (db : Database) :
  let pattern := get_hourly_pattern db in
  let rs := rows (hourly_stats db) in
  StronglySorted Z.lt (map HourlyPattern.hour pattern) /\
  (forall k, In k (map HourlyPattern.hour pattern) <->
             In k (map HourlyStats.hour_of_day rs)) /\
  Forall (fun e => HourlyPattern.sample_count e <> None) pattern /\
  sum_Z (map (fun e => or_zero (HourlyPattern.sample_count e)) pattern)
  = sum_Z (map HourlyStats.co2_count rs) /\
  (calendar_tagged db -> (List.length pattern <= 24)%nat).
Proof.
  cbv zeta. unfold get_hourly_pattern.
  set (rs := rows (hourly_stats db)).
  set (ks := distinct_sorted (map HourlyStats.hour_of_day rs)).
  assert (Ek : map HourlyPattern.hour
                 (map (fun k =>
                         HourlyPattern.mk k
                           (round1_if_truthy
                              (avg_column HourlyStats.co2_avg
                                 (filter (fun r => HourlyStats.hour_of_day r =? k) rs)))
                           (round1_if_truthy
                              (avg_column HourlyStats.temp_avg
                                 (filter (fun r => HourlyStats.hour_of_day r =? k) rs)))
                           (sum_column HourlyStats.co2_count
                              (filter (fun r => HourlyStats.hour_of_day r =? k) rs)))
                    ks) = ks).
  { rewrite map_map. simpl. apply map_id. }
  rewrite Ek. split; [apply distinct_sorted_sorted|].
  split; [intro k; apply distinct_sorted_In|]. split; [|split].
  - apply Forall_forall. intros e He. apply in_map_iff in He.
    destruct He as (k & <- & Hk). simpl.
    apply distinct_sorted_In, in_map_iff in Hk. destruct Hk as (r & Er & Hr).
    unfold sum_column.
    destruct (filter _ rs) as [|x l] eqn:Ef; [|discriminate].
    assert (Hin : In r (filter (fun r0 => HourlyStats.hour_of_day r0 =? k) rs))
      by (apply filter_In; split; [exact Hr|now apply Z.eqb_eq]).
    rewrite Ef in Hin. contradiction.
  - rewrite map_map. simpl.
    rewrite (map_ext _ (fun k => sum_Z (map HourlyStats.co2_count
                                          (filter (fun r => HourlyStats.hour_of_day r =? k) rs))))
      by (intro k; apply or_zero_sum_column).
    apply sum_Z_groups; [apply sorted_lt_NoDup, distinct_sorted_sorted|].
    apply Forall_forall. intros r Hr. apply distinct_sorted_In. now apply in_map.
  - intro Hc. rewrite length_map.
    assert (Z.of_nat (List.length ks) <= 24 - 0); [|lia].
    apply sorted_lt_length; [apply distinct_sorted_sorted| |lia].
    apply Forall_forall. intros k Hk. apply distinct_sorted_In, in_map_iff in Hk.
    destruct Hk as (r & <- & Hr). unfold calendar_tagged in Hc.
    rewrite Forall_forall in Hc. apply (Hc r Hr).
Qed.

Lemma afternoon_aggregated_eq : backfill_all afternoon_db = Some afternoon_aggregated.
Proof. vm_compute. reflexivity. Qed.

Lemma afternoon_aggregated_tagged : calendar_tagged afternoon_aggregated.
Proof.
  destruct (backfill_all_keeps calendar_tagged calendar_tagged_minute_keeps
              calendar_tagged_hour_keeps calendar_tagged_day_keeps afternoon_db)
    as (db' & E & H); [constructor|].
  rewrite afternoon_aggregated_eq in E. now injection E as <-.
Qed.

Lemma hourly_pattern_groups_witness :
  (List.length (get_hourly_pattern afternoon_aggregated) <= 24)%nat.
Proof.
  apply (hourly_pattern_groups afternoon_aggregated), afternoon_aggregated_tagged.
Defined.

Lemma getitem_day_names (k : Z) :
  0 <= k < 7 ->
  exists name, getitem day_names k = Some name /\
               nth_error day_names (Z.to_nat k) = Some name.
Proof.
  intro Hk. unfold getitem. cbn [List.length day_names].
  destruct (Z.leb_spec 0 k); [|lia]. destruct (Z.ltb_spec k (Z.of_nat 7)); [|lia].
  cbn [andb].
  destruct (nth_error day_names (Z.to_nat k)) as [name|] eqn:E; [now exists name|].
  apply nth_error_None in E. simpl in E. lia.
Qed.

Lemma getitem_out_of_range {A : Type} (l : list A) (k : Z) :
  k < - Z.of_nat (List.length l) \/ Z.of_nat (List.length l) <= k ->
  getitem l k = None.
Proof.
  intro Hk. unfold getitem.
  destruct (Z.leb_spec 0 k), (Z.ltb_spec k (Z.of_nat (List.length l))),
           (Z.leb_spec (- Z.of_nat (List.length l)) k), (Z.ltb_spec k 0);
    simpl; (reflexivity || lia).
Qed.

Lemma weekly_entries_some (rs : list HourlyStats.t) (keys : list Z) :
  Forall (fun k => 0 <= k < 7) keys ->
  exists entries,
    weekly_entries rs keys = Some entries /\
    map WeeklyPattern.day_num entries = keys /\
    Forall (fun e => nth_error day_names (Z.to_nat (WeeklyPattern.day_num e))
                     = Some (WeeklyPattern.day e)) entries.
Proof.
  induction 1 as [|k keys Hk _ IH]; cbn [weekly_entries].
  - exists []. repeat split; constructor.
  - destruct (getitem_day_names k Hk) as (name & E & En).
    destruct IH as (entries & Ee & Em & Hn).
    rewrite E, Ee. cbn [bind]. eexists. split; [reflexivity|].
    split; [simpl; now rewrite Em|]. constructor; [exact En|exact Hn].
Qed.

Lemma weekly_entries_none (rs : list HourlyStats.t) (keys : list Z) (k : Z) :
  In k keys -> getitem day_names k = None -> weekly_entries rs keys = None.
Proof.
  intros Hin Hk. induction keys as [|x keys IH]; [contradiction|].
  cbn [weekly_entries]. destruct Hin as [->|Hin].
  - now rewrite Hk.
  - rewrite (IH Hin). now destruct (getitem day_names x).
Qed.

(** X13.  On a store with proper calendar columns [get_weekly_pattern]
    raises no [IndexError]: it returns at most seven entries, in
    ascending order of [day_num], each named after its day number
    (Mon for 0 up to Sun for 6).  A row whose [day_of_week] is 7 or
    more, or less than -7, makes it raise. *)
Theorem weekly_pattern_names_days (db : Database) :
  (calendar_tagged db ->
   exists entries,
     get_weekly_pattern db = Some entries /\
     StronglySorted Z.lt (map WeeklyPattern.day_num entries) /\
     Forall (fun e => nth_error day_names (Z.to_nat (WeeklyPattern.day_num e))
                      = Some (WeeklyPattern.day e)) entries /\
     (List.length entries <= 7)%nat) /\
  (Exists (fun r => HourlyStats.day_of_week r < -7 \/ 7 <= HourlyStats.day_of_week r)
     (rows (hourly_stats db)) ->
   get_weekly_pattern db = None).
Proof.
  unfold get_weekly_pattern. set (rs := rows (hourly_stats db)).
  set (ks := distinct_sorted (map HourlyStats.day_of_week rs)). split.
  - intro Hc.
    assert (Hb : Forall (fun k => 0 <= k < 7) ks).
    { apply Forall_forall. intros k Hk. apply distinct_sorted_In, in_map_iff in Hk.
      destruct Hk as (r & <- & Hr). unfold calendar_tagged in Hc.
      rewrite Forall_forall in Hc. apply (Hc r Hr). }
    destruct (weekly_entries_some rs ks Hb) as (entries & E & Em & Hn).
    exists entries. split; [exact E|]. rewrite Em.
    split; [apply distinct_sorted_sorted|]. split; [exact Hn|].
    rewrite <- (length_map WeeklyPattern.day_num), Em.
    assert (Z.of_nat (List.length ks) <= 7 - 0); [|lia].
    apply sorted_lt_length; [apply distinct_sorted_sorted|exact Hb|lia].
  - intro Hex. apply Exists_exists in Hex. destruct Hex as (r & Hr & Hk).
    apply (weekly_entries_none rs ks (HourlyStats.day_of_week r)).
    + apply distinct_sorted_In. now apply in_map.
    + apply getitem_out_of_range. simpl. lia.
Qed.

Lemma weekly_pattern_names_days_witness :
  exists entries,
    get_weekly_pattern afternoon_aggregated = Some entries /\
    map WeeklyPattern.day entries = ["Sun"%string].
Proof.
  destruct (weekly_pattern_names_days afternoon_aggregated) as [Hsome _].
  destruct (Hsome afternoon_aggregated_tagged) as (entries & E & _).
  exists entries. split; [exact E|].
  vm_compute in E. injection E as <-. reflexivity.
Defined.

(** X14.  [get_day_night_comparison] puts every hourly row in exactly
    one of its two groups: the sample counts of ['day'] and ['night']
    add up to the sum of [co2_count] over all hourly rows (0 for an
    empty store).  The two ['hours'] texts are 06:00 - 22:00 and
    22:00 - 06:00. *)
Theorem day_night_comparison_counts (db : Database) :
  let day_ := fst (get_day_night_comparison db) in
  let night := snd (get_day_night_comparison db) in
  Comparison.sample_count day_ + Comparison.sample_count night
  = sum_Z (map HourlyStats.co2_count (rows (hourly_stats db))) /\
  Comparison.text day_ = "06:00 - 22:00"%string /\
  Comparison.text night = "22:00 - 06:00"%string.
Proof.
  cbv zeta. unfold get_day_night_comparison, comparison_of.
  cbn [fst snd Comparison.sample_count Comparison.text].
  rewrite !or_zero_sum_column. split; [|split; reflexivity].
  apply (sum_Z_filter_split HourlyStats.co2_count (fun r => HourlyStats.is_daytime r)).
Qed.

(** X15.  On a store with proper calendar columns no hourly row counts
    in both groups of [get_workday_weekend_comparison], and the rows of
    Monday to Friday outside the hours from 8 to 17 count in neither:
    the two sample counts and the counts of those rows add up to the
    sum of [co2_count] over all hourly rows. *)
Theorem workday_weekend_comparison_counts (db : Database) :
  calendar_tagged db ->
  let workday := fst (get_workday_weekend_comparison db) in
  let weekend := snd (get_workday_weekend_comparison db) in
  let rs := rows (hourly_stats db) in
  Forall (fun r => HourlyStats.is_workday r && (5 <=? HourlyStats.day_of_week r) = false)
    rs /\
  Comparison.sample_count workday + Comparison.sample_count weekend
  + sum_Z (map HourlyStats.co2_count
             (filter (fun r => negb (HourlyStats.is_workday r)
                               && (HourlyStats.day_of_week r <? 5)) rs))
  = sum_Z (map HourlyStats.co2_count rs).
Proof.
  intro Hc. cbv zeta. unfold get_workday_weekend_comparison, comparison_of.
  cbn [fst snd Comparison.sample_count]. rewrite !or_zero_sum_column.
  unfold calendar_tagged in Hc.
  assert (Hdis : Forall (fun r => HourlyStats.is_workday r
                                  && (5 <=? HourlyStats.day_of_week r) = false)
                   (rows (hourly_stats db))).
  { eapply Forall_impl; [|exact Hc]. intros r (_ & _ & _ & _ & _ & Hw). cbv beta.
    destruct (HourlyStats.is_workday r) eqn:Ew; [|reflexivity].
    destruct Hw as [Hw _]. specialize (Hw eq_refl). simpl. apply Z.leb_gt. lia. }
  split; [exact Hdis|].
  induction (rows (hourly_stats db)) as [|r rs IH]; [reflexivity|].
  inversion Hdis as [|? ? Hr Hdis']; subst. inversion Hc as [|? ? _ Hc']; subst.
  specialize (IH Hc' Hdis'). simpl.
  destruct (HourlyStats.is_workday r) eqn:Ew;
    destruct (Z.leb_spec 5 (HourlyStats.day_of_week r));
    destruct (Z.ltb_spec (HourlyStats.day_of_week r) 5);
    simpl in *; try discriminate; try lia; rewrite ?sum_Z_cons; lia.
Qed.

Lemma workday_weekend_comparison_counts_witness :
  Comparison.sample_count (fst (get_workday_weekend_comparison afternoon_aggregated))
  + Comparison.sample_count (snd (get_workday_weekend_comparison afternoon_aggregated))
  + 0 = 4.
Proof.
  apply (workday_weekend_comparison_counts afternoon_aggregated
           afternoon_aggregated_tagged).
Defined.

(** ** Pattern averages *)

Lemma filter_Permutation {A : Type} (p : A -> bool) (l l' : list A) :
  Permutation l l' -> Permutation (filter p l) (filter p l').
Proof.
  induction 1 as [|x l l' _ IH|x y l|l l' l'' _ IH1 _ IH2]; simpl.
  - constructor.
  - destruct (p x); [now constructor|exact IH].
  - destruct (p x), (p y); try reflexivity. apply perm_swap.
  - now transitivity (filter p l').
Qed.

(** X16.  After [update_pattern_average] for a pattern type and key,
    [get_pattern_averages] for that type holds exactly one entry under
    the key, with the values just given; its entries under other keys
    are the ones it had, the lists of all other pattern types are
    unchanged, and so are the raw store and the other aggregate
    stores. *)
Theorem update_then_get_pattern_averages (db : Database)
    (pattern_type pattern_key : string) (co2_avg temp_avg : Q)
    (sample_count now : Z) :
  let db' := update_pattern_average db pattern_type pattern_key co2_avg temp_avg
               sample_count now in
  let under_key := fun e => String.eqb (PatternEntry.pattern_key e) pattern_key in
  filter under_key (get_pattern_averages db' pattern_type)
  = [PatternEntry.mk pattern_key (Some co2_avg) (Some temp_avg) sample_count] /\
  Permutation
    (filter (fun e => negb (under_key e)) (get_pattern_averages db' pattern_type))
    (filter (fun e => negb (under_key e)) (get_pattern_averages db pattern_type)) /\
  (forall other, other <> pattern_type ->
     get_pattern_averages db' other = get_pattern_averages db other) /\
  measurements db' = measurements db /\
  minute_stats db' = minute_stats db /\
  hourly_stats db' = hourly_stats db /\
  daily_stats db' = daily_stats db.
Proof.
  cbv zeta. unfold update_pattern_average, get_pattern_averages.
  cbn [pattern_averages with_pattern_averages measurements minute_stats hourly_stats
       daily_stats].
  set (clashes := fun r => String.eqb (PatternAverage.pattern_type r) pattern_type
                           && String.eqb (PatternAverage.pattern_key r) pattern_key).
  set (new_row := fun rowid =>
                    PatternAverage.mk rowid pattern_type pattern_key (Some co2_avg)
                      (Some temp_avg) sample_count now).
  set (to_entry := fun r =>
                     PatternEntry.mk (PatternAverage.pattern_key r)
                       (PatternAverage.co2_avg r) (PatternAverage.temp_avg r)
                       (PatternAverage.sample_count r)).
  set (ltb := fun a b => String.ltb (PatternAverage.pattern_key a)
                                    (PatternAverage.pattern_key b)).
  set (tbl := pattern_averages db).
  assert (Hnew : clashes (new_row (seq tbl + 1)) = true)
    by (unfold clashes, new_row; simpl; now rewrite !String.eqb_refl).
  split; [|split; [|split; [|now repeat split]]].
  - apply Permutation_length_1_inv.
    rewrite filter_map_swap.
    change [PatternEntry.mk pattern_key (Some co2_avg) (Some temp_avg) sample_count]
      with (map to_entry [new_row (seq tbl + 1)]).
    apply Permutation_map.
    rewrite <- (insert_or_replace_key clashes new_row tbl Hnew).
    etransitivity; [|apply filter_Permutation, Permutation_sym, order_with_perm].
    rewrite filter_filter. apply Permutation_sym.
    erewrite filter_ext; [reflexivity|]. intro r. reflexivity.
  - rewrite !filter_map_swap. apply Permutation_map.
    etransitivity; [apply filter_Permutation, order_with_perm|].
    etransitivity; [|apply filter_Permutation, Permutation_sym, order_with_perm].
    rewrite !filter_filter.
    set (others := fun r => String.eqb (PatternAverage.pattern_type r) pattern_type
                            && negb (String.eqb (PatternAverage.pattern_key r)
                                       pattern_key)).
    change (Permutation (filter others (rows (insert_or_replace clashes new_row tbl)))
              (filter others (rows tbl))).
    rewrite (insert_or_replace_others clashes others new_row tbl).
    + reflexivity.
    + unfold others, new_row. simpl. now rewrite !String.eqb_refl.
    + intros r Hr. unfold clashes. apply andb_true_iff in Hr. destruct Hr as [-> Hr].
      apply negb_true_iff in Hr. now rewrite Hr.
  - intros other Ho. apply String.eqb_neq in Ho.
    rewrite (insert_or_replace_others clashes
               (fun r => String.eqb (PatternAverage.pattern_type r) other) new_row tbl).
    + reflexivity.
    + unfold new_row. simpl. now rewrite String.eqb_sym.
    + intros r Hr. unfold clashes. apply String.eqb_eq in Hr. rewrite Hr, Ho.
      reflexivity.
Qed.

Lemma update_then_get_pattern_averages_witness :
  get_pattern_averages
    (update_pattern_average example_db "hourly" "14" (550 # 1) (216 # 10) 3 t_15_30)
    "weekly"
  = get_pattern_averages example_db "weekly".
Proof.
  apply (update_then_get_pattern_averages example_db "hourly" "14" (550 # 1)
           (216 # 10) 3 t_15_30).
  discriminate.
Defined.

(** ** Retention, continued *)

Lemma stamped_filter (db : Database) (keep : Measurement.t -> bool) :
  stamped_in_four_digit_years db ->
  stamped_in_four_digit_years (with_measurements db (filter keep (measurements db))).
Proof. unfold stamped_in_four_digit_years. cbn [measurements with_measurements].
  apply Forall_filter. Qed.

Lemma cutoff_from_clock (w : World) (days d : Z) (k : nat) :
  in_four_digit_years w days -> 0 <= d <= days ->
  cutoff_in_four_digit_years (clock w k) d.
Proof.
  intros Hw Hd. destruct (Hw k) as [Hlo Hhi]. unfold cutoff_in_four_digit_years.
  pose proof (at_second_mono _ _ (timedelta_days_mono d days ltac:(lia))).
  pose proof (at_second_mono _ _ (timedelta_days_mono 0 d ltac:(lia))).
  change (at_second (timedelta_days 0)) with 0 in *. lia.
Qed.

(** With a cutoff in the years of four digits, on a store stamped in
    such years, [delete_older_than] leaves the readings that are not
    older than the second of the cutoff. *)
Lemma delete_older_than_kept (db : Database) (now days : Z) :
  cutoff_in_four_digit_years now days ->
  stamped_in_four_digit_years db ->
  exists n,
    delete_older_than db now days
    = Returned n (with_measurements db (not_older_than now days (measurements db))).
Proof.
  intros Hc Hdb.
  destruct (datetime_sub_four_digit now (timedelta_days days) Hc) as [E Hy].
  unfold delete_older_than. rewrite E. eexists. f_equal. f_equal.
  unfold not_older_than. apply filter_ext_in. intros m Hm.
  unfold stamped_in_four_digit_years in Hdb. rewrite Forall_forall in Hdb.
  rewrite (stored_ltb_strftime _ _ (Hdb m Hm) Hy). now rewrite Z.leb_antisym.
Qed.

Lemma filter_length_le_Z {A : Type} (p : A -> bool) (l : list A) :
  count (filter p l) <= count l.
Proof.
  unfold count. induction l as [|a l IH]; simpl; [lia|].
  destruct (p a); simpl; lia.
Qed.

Lemma not_older_than_twice (now days now' days' : Z) (ms : list Measurement.t) :
  second_of (now' - at_second (timedelta_days days'))
  <= second_of (now - at_second (timedelta_days days)) ->
  not_older_than now' days' (not_older_than now days ms) = not_older_than now days ms.
Proof.
  intro Hle. unfold not_older_than. apply filter_all.
  intros m Hm. apply filter_In in Hm. destruct Hm as [_ Hm].
  apply Z.leb_le in Hm. apply Z.leb_le. lia.
Qed.

Lemma not_older_than_then_newer (now days now' days' : Z) (ms : list Measurement.t) :
  second_of (now - at_second (timedelta_days days))
  <= second_of (now' - at_second (timedelta_days days')) ->
  not_older_than now' days' (not_older_than now days ms) = not_older_than now' days' ms.
Proof.
  intro Hle. unfold not_older_than. rewrite filter_filter. apply filter_ext.
  intro m.
  destruct (Z.leb_spec (second_of (now - at_second (timedelta_days days)))
              (Measurement.timestamp m)),
           (Z.leb_spec (second_of (now' - at_second (timedelta_days days')))
              (Measurement.timestamp m));
    simpl; (reflexivity || lia).
Qed.

Lemma with_measurements_same (db : Database) : with_measurements db (measurements db) = db.
Proof. now destruct db. Qed.

Lemma delete_nothing (db : Database) (now days : Z) :
  cutoff_in_four_digit_years now days ->
  stamped_in_four_digit_years db ->
  not_older_than now days (measurements db) = measurements db ->
  delete_older_than db now days = Returned 0 db.
Proof.
  intros Hc Hdb H. destruct (delete_older_than_kept db now days Hc Hdb) as [n E].
  pose proof (delete_older_than_rowcount db now days n _ E) as Hn.
  cbn [measurements with_measurements] in Hn.
  rewrite E, H, with_measurements_same. f_equal. rewrite Hn, H. lia.
Qed.

(** X17.  With a cutoff in the years of four digits, on a store stamped
    in such years, [delete_older_than] keeps exactly the readings that
    are not older than the second of the cutoff, in their order, and
    returns the number of readings it removed.  A further deletion with
    a cutoff that is not later removes nothing and returns 0. *)
Theorem delete_older_than_exact (db : Database) (now days : Z) :
  cutoff_in_four_digit_years now days ->
  stamped_in_four_digit_years db ->
  exists n db',
    delete_older_than db now days = Returned n db' /\
    measurements db' = not_older_than now days (measurements db) /\
    n = count_measurements db - count_measurements db' /\
    0 <= n /\
    (forall now' days',
       cutoff_in_four_digit_years now' days' ->
       second_of (now' - at_second (timedelta_days days'))
       <= second_of (now - at_second (timedelta_days days)) ->
       delete_older_than db' now' days' = Returned 0 db').
Proof.
  intros Hc Hdb. destruct (delete_older_than_kept db now days Hc Hdb) as [n E].
  pose proof (delete_older_than_rowcount db now days n _ E) as Hn.
  exists n, (with_measurements db (not_older_than now days (measurements db))).
  split; [exact E|]. split; [reflexivity|]. split; [exact Hn|]. split.
  - rewrite Hn. cbn [measurements with_measurements].
    pose proof (filter_length_le_Z
                  (fun m => second_of (now - at_second (timedelta_days days))
                            <=? Measurement.timestamp m) (measurements db)).
    unfold not_older_than. lia.
  - intros now' days' Hc' Hle. apply delete_nothing; [exact Hc'| |].
    + now apply stamped_filter.
    + cbn [measurements with_measurements]. now apply not_older_than_twice.
Qed.

Lemma delete_older_than_exact_witness :
  exists n db',
    delete_older_than example_db (at_second t_15_30 + 250000) 1 = Returned n db' /\
    measurements db' = measurements example_db /\
    delete_older_than db' (at_second t_15_30 + 250000) 2 = Returned 0 db'.
Proof.
  destruct (delete_older_than_exact example_db (at_second t_15_30 + 250000) 1)
    as (n & db' & E & Hm & _ & _ & Hagain).
  - vm_compute. split; [discriminate|reflexivity].
  - repeat constructor; vm_compute; discriminate.
  - exists n, db'. split; [exact E|]. split; [rewrite Hm; reflexivity|].
    apply Hagain.
    + vm_compute. split; [discriminate|reflexivity].
    + vm_compute. discriminate.
Defined.

(** X18.  [cleanup_if_size_exceeded] always ends, and when it returns,
    it returns the number of readings it removed from the raw store, a
    number that is not negative; [cleanup_old_raw_data] ends in the
    same way. *)
Theorem cleanup_returns_deleted_count (db : Database) (w : World)
    (max_size_gb : Q) (days_to_keep : Z) :
  exists outcome,
    cleanup_if_size_exceeded db w max_size_gb days_to_keep = Some outcome /\
    cleanup_old_raw_data db w days_to_keep max_size_gb = Some outcome /\
    forall n db', outcome = Returned n db' ->
      n = count_measurements db - count_measurements db' /\ 0 <= n.
Proof.
  destruct (cleanup_if_size_exceeded_ends db w max_size_gb days_to_keep)
    as (o & E & ([keep Hk] & _) & Hn).
  exists o. split; [exact E|]. split; [exact E|].
  intros n db' Eo. subst o. cbn [database_after] in Hk.
  specialize (Hn n db' eq_refl). split; [exact Hn|].
  rewrite Hn, Hk. pose proof (filter_length_le_Z keep (measurements db)). lia.
Qed.

(** X19.  When the file is within the size bound after the first
    deletion, [cleanup_if_size_exceeded] deletes nothing more: with a
    cutoff in the years of four digits the raw store then holds exactly
    the readings that are not older than [days_to_keep] days. *)
Theorem cleanup_within_bound (db : Database) (w : World)
    (max_size_gb : Q) (days_to_keep : Z) :
  (file_size_mb w 0%nat <= max_size_gb * 1024)%Q ->
  cutoff_in_four_digit_years (clock w 0%nat) days_to_keep ->
  stamped_in_four_digit_years db ->
  exists n db',
    cleanup_if_size_exceeded db w max_size_gb days_to_keep = Some (Returned n db') /\
    measurements db' = not_older_than (clock w 0%nat) days_to_keep (measurements db).
Proof.
  intros Hs Hc Hdb. unfold cleanup_if_size_exceeded.
  destruct (delete_older_than_kept db (clock w 0%nat) days_to_keep Hc Hdb) as [deleted E].
  rewrite E. apply Qle_bool_iff in Hs. rewrite Hs.
  do 2 eexists. split; reflexivity.
Qed.

Lemma cleanup_within_bound_witness :
  exists n db',
    cleanup_if_size_exceeded example_db one_minute_later 5 30 = Some (Returned n db') /\
    measurements db' = measurements example_db.
Proof.
  destruct (cleanup_within_bound example_db one_minute_later 5 30)
    as (n & db' & E & Hm).
  - vm_compute. discriminate.
  - vm_compute. split; [discriminate|reflexivity].
  - repeat constructor; vm_compute; discriminate.
  - exists n, db'. split; [exact E|]. rewrite Hm. reflexivity.
Defined.

Lemma cleanup_loop_under_pressure (fuel : nat) (w : World) (max_size_mb : Q)
    (now days : Z) :
  (forall k, Qle_bool (file_size_mb w k) max_size_mb = false) ->
  clock_stands_at w now ->
  in_four_digit_years w days ->
  forall (k : nat) (current_size : Q) (days_to_delete total_deleted : Z) (db : Database),
  Qle_bool current_size max_size_mb = false ->
  (Z.to_nat (days_to_delete - 1) <= fuel)%nat ->
  days_to_delete <= days ->
  stamped_in_four_digit_years db ->
  exists n db',
    cleanup_loop fuel w k max_size_mb current_size days_to_delete total_deleted db
    = Some (Returned n db') /\
    measurements db' =
    if 1 <? days_to_delete then not_older_than now 2 (measurements db)
    else measurements db.
Proof.
  intros Hover Hclock Hw.
  induction fuel as [|fuel IH];
    intros k current_size days_to_delete total_deleted db Hc Hf Hle Hdb;
    cbn [cleanup_loop]; rewrite Hc; cbn [negb andb].
  - destruct (Z.ltb_spec 1 days_to_delete); [lia|]. now exists total_deleted, db.
  - destruct (Z.ltb_spec 1 days_to_delete) as [Hd|Hd]; [|now exists total_deleted, db].
    destruct (delete_older_than_kept db (clock w k) days_to_delete
                (cutoff_from_clock w days days_to_delete k Hw ltac:(lia)) Hdb)
      as [deleted E].
    rewrite E. unfold vacuum. rewrite Hclock.
    destruct (IH (S k) (file_size_mb w k) (days_to_delete - 1)
                (total_deleted + deleted)
                (with_measurements db
                   (not_older_than now days_to_delete (measurements db)))
                (Hover k))
      as (n & db' & E' & Hm); [lia|lia|now apply stamped_filter|].
    exists n, db'. split; [exact E'|]. rewrite Hm.
    cbn [measurements with_measurements].
    destruct (Z.ltb_spec 1 (days_to_delete - 1)).
    + apply not_older_than_then_newer.
      unfold second_of, MICROSECONDS_PER_SECOND. apply Z.div_le_mono; [lia|].
      pose proof (at_second_mono _ _ (timedelta_days_mono 2 days_to_delete ltac:(lia))).
      lia.
    + replace days_to_delete with 2 by lia. reflexivity.
Qed.

(** X20.  The floor of the progressive deletion is two days.  While the
    cutoffs stay in the years of four digits, for a retention period of
    at least two days a reading stamped within two days of every clock
    reading is never deleted.  When the file stays over the bound
    whatever is deleted and the clock stands at [now], the raw store
    ends with exactly the readings that are not older than two days, or
    not older than [days_to_keep] days when that is less than two. *)
Theorem cleanup_floor_is_two_days (db : Database) (w : World)
    (max_size_gb : Q) (days_to_keep : Z) :
  0 <= days_to_keep ->
  in_four_digit_years w days_to_keep ->
  stamped_in_four_digit_years db ->
  exists n db',
    cleanup_if_size_exceeded db w max_size_gb days_to_keep = Some (Returned n db') /\
    (2 <= days_to_keep ->
     forall m, recent w 2 m -> In m (measurements db) -> In m (measurements db')) /\
    (forall now, always_over w max_size_gb -> clock_stands_at w now ->
       measurements db' =
       not_older_than now (Z.min days_to_keep 2) (measurements db)).
Proof.
  intros Hd0 Hw Hdb.
  destruct (cleanup_if_size_exceeded_returns db w max_size_gb days_to_keep Hd0 Hw)
    as (n & db' & E & Hfloor).
  exists n, db'. split; [exact E|]. split.
  - intros Hd m Hr Hm. apply (Hfloor 2 m); auto; try lia.
    unfold stamped_in_four_digit_years in Hdb. rewrite Forall_forall in Hdb. auto.
  - intros now Hover Hclock.
    assert (Hover' : forall k, Qle_bool (file_size_mb w k) (max_size_gb * 1024) = false).
    { intro k. destruct (Qle_bool _ _) eqn:Eb; [|reflexivity].
      apply Qle_bool_iff in Eb. now apply Hover in Eb. }
    unfold cleanup_if_size_exceeded in E.
    destruct (delete_older_than_kept db (clock w 0%nat) days_to_keep
                (cutoff_from_clock w days_to_keep days_to_keep 0%nat Hw ltac:(lia)) Hdb)
      as [deleted Ed].
    rewrite (Hclock 0%nat) in Ed. rewrite (Hclock 0%nat) in E.
    rewrite Ed, (Hover' 0%nat) in E.
    destruct (cleanup_loop_under_pressure (Z.to_nat days_to_keep) w
                (max_size_gb * 1024)%Q now days_to_keep Hover' Hclock Hw 1%nat
                (file_size_mb w 0%nat) (days_to_keep - 1) (0 + deleted)
                (with_measurements db
                   (not_older_than now days_to_keep (measurements db)))
                (Hover' 0%nat))
      as (n' & db'' & E' & Hm); [lia|lia|now apply stamped_filter|].
    rewrite E' in E. injection E as _ <-. rewrite Hm.
    cbn [measurements with_measurements].
    destruct (Z.ltb_spec 1 (days_to_keep - 1)).
    + rewrite Z.min_r by lia. apply not_older_than_then_newer.
      unfold second_of, MICROSECONDS_PER_SECOND. apply Z.div_le_mono; [lia|].
      pose proof (at_second_mono _ _ (timedelta_days_mono 2 days_to_keep ltac:(lia))).
      lia.
    + destruct (Z.min_spec days_to_keep 2) as [[Hlt ->]|[Hge ->]]; [reflexivity|].
      replace days_to_keep with 2 by lia. reflexivity.
Qed.

Lemma cleanup_floor_is_two_days_witness :
  (exists n db',
     cleanup_if_size_exceeded example_db two_hours_later 5 30 = Some (Returned n db') /\
     In last_reading (measurements db')) /\
  (exists n db',
     cleanup_if_size_exceeded afternoon_db three_days_later 5 30
     = Some (Returned n db') /\
     measurements db' = []).
Proof.
  split.
  - destruct (cleanup_floor_is_two_days example_db two_hours_later 5 30)
      as (n & db' & E & Hkeep & _).
    + lia.
    + intro k. vm_compute. split; [discriminate|reflexivity].
    + repeat constructor; vm_compute; discriminate.
    + exists n, db'. split; [exact E|]. apply Hkeep; [lia| |simpl; auto].
      intro k. vm_compute. discriminate.
  - destruct (cleanup_floor_is_two_days afternoon_db three_days_later 5 30)
      as (n & db' & E & _ & Hexact).
    + lia.
    + intro k. vm_compute. split; [discriminate|reflexivity].
    + repeat constructor; vm_compute; discriminate.
    + exists n, db'. split; [exact E|].
      rewrite (Hexact (at_second (t_14_00 + timedelta_days 3 + timedelta_hours 2)
                       + 250000)).
      * reflexivity.
      * intros k Hle. vm_compute in Hle. now apply Hle.
      * intro k. reflexivity.
Defined.

(** ** Complete buckets stay complete *)

(** As long as the raw store is the one of [db0], a bucket that is
    complete stays complete under every step at every resolution, and
    the step on the bucket itself makes it complete. *)
Lemma minute_complete_after_step (db0 db : Database) (s w : Z) (b : bool)
    (db' : Database) :
  measurements db = measurements db0 ->
  aggregate_minute_interval db s w = Some (b, db') ->
  0 < window_count db0 s (s + timedelta_minutes w) ->
  minute_complete db0 db' s w.
Proof.
  intros Em E Hpos. rewrite <- (window_count_ext db0 db) in Hpos by exact Em.
  destruct (minute_step_shape _ _ _ _ _ E) as [[_ Hz]|[-> _]]; [lia|].
  eexists. split.
  - cbn [minute_stats with_minute_stats].
    apply insert_or_replace_key, minute_key_minute_row.
  - unfold minute_row. cbv zeta. cbn [MinuteStats.co2_count].
    rewrite row3_select_stats. now apply window_count_ext.
Qed.

Lemma minute_key_other (s w s' w' : Z) (r : MinuteStats.t) :
  (s', w') <> (s, w) -> minute_key s' w' r = true -> minute_key s w r = false.
Proof.
  unfold minute_key. intros Hne Hr. apply andb_true_iff in Hr.
  destruct Hr as [H1 H2]. apply Z.eqb_eq in H1, H2.
  destruct (Z.eqb_spec (MinuteStats.interval_start r) s),
           (Z.eqb_spec (MinuteStats.interval_minutes r) w); simpl; try reflexivity.
  exfalso. apply Hne. congruence.
Qed.

Lemma minute_rows_kept_by_minute_step (db : Database) (s w s' w' : Z) (b : bool)
    (db' : Database) :
  (s', w') <> (s, w) ->
  aggregate_minute_interval db s w = Some (b, db') ->
  filter (minute_key s' w') (rows (minute_stats db'))
  = filter (minute_key s' w') (rows (minute_stats db)).
Proof.
  intros Hne E. destruct (minute_step_shape _ _ _ _ _ E) as [[-> _]|[-> _]];
    [reflexivity|].
  cbn [minute_stats with_minute_stats]. apply insert_or_replace_others.
  - unfold minute_key, minute_row. cbv zeta.
    cbn [MinuteStats.interval_start MinuteStats.interval_minutes].
    destruct (Z.eqb_spec s s'), (Z.eqb_spec w w'); simpl; try reflexivity.
    exfalso. apply Hne. congruence.
  - intros r. now apply minute_key_other.
Qed.

Lemma minute_complete_minute_keeps (db0 : Database) (s0 w0 : Z) (db : Database)
    (s w : Z) (b : bool) (db' : Database) :
  measurements db = measurements db0 /\ minute_complete db0 db s0 w0 ->
  aggregate_minute_interval db s w = Some (b, db') ->
  measurements db' = measurements db0 /\ minute_complete db0 db' s0 w0.
Proof.
  intros [Em Hc] E.
  destruct (minute_step_shape _ _ _ _ _ E) as [[-> _]|[Edb Hpos]]; [now split|].
  split; [now rewrite Edb|].
  destruct (Z.eq_dec s0 s) as [Es|Es]; [destruct (Z.eq_dec w0 w) as [Ew|Ew]|].
  - subst s0 w0. apply (minute_complete_after_step db0 db s w b db' Em E).
    now rewrite <- (window_count_ext db0 db) by exact Em.
  - destruct Hc as (row & Hrow & Hcount). exists row. split; [|exact Hcount].
    rewrite (minute_rows_kept_by_minute_step db s w s0 w0 b db'); [exact Hrow| |exact E].
    congruence.
  - destruct Hc as (row & Hrow & Hcount). exists row. split; [|exact Hcount].
    rewrite (minute_rows_kept_by_minute_step db s w s0 w0 b db'); [exact Hrow| |exact E].
    congruence.
Qed.

Lemma minute_complete_hour_keeps (db0 : Database) (s0 w0 : Z) (db : Database)
    (H : Z) (b : bool) (db' : Database) :
  measurements db = measurements db0 /\ minute_complete db0 db s0 w0 ->
  aggregate_hour db H = Some (b, db') ->
  measurements db' = measurements db0 /\ minute_complete db0 db' s0 w0.
Proof.
  intros Hi E. destruct (hour_step_shape _ _ _ _ E) as [[-> _]|[-> _]]; exact Hi.
Qed.

Lemma minute_complete_day_keeps (db0 : Database) (s0 w0 : Z) (db : Database)
    (d : Z) (b : bool) (db' : Database) :
  measurements db = measurements db0 /\ minute_complete db0 db s0 w0 ->
  aggregate_day db d = Some (b, db') ->
  measurements db' = measurements db0 /\ minute_complete db0 db' s0 w0.
Proof.
  intros Hi E. destruct (day_step_shape _ _ _ _ E) as [[-> _]|[-> _]]; exact Hi.
Qed.

Lemma hour_complete_after_step (db0 db : Database) (H : Z) (b : bool) (db' : Database) :
  measurements db = measurements db0 ->
  aggregate_hour db H = Some (b, db') ->
  0 < window_count db0 H (H + timedelta_hours 1) ->
  hour_complete db0 db' H.
Proof.
  intros Em E Hpos. rewrite <- (window_count_ext db0 db) in Hpos by exact Em.
  destruct (hour_step_shape _ _ _ _ E) as [[_ Hz]|[-> _]]; [lia|].
  eexists. split.
  - cbn [hourly_stats with_hourly_stats].
    apply insert_or_replace_key, hour_key_hour_row.
  - unfold hour_row. cbv zeta. cbn [HourlyStats.co2_count].
    rewrite row3_select_stats. now apply window_count_ext.
Qed.

Lemma hour_rows_kept_by_hour_step (db : Database) (H K : Z) (b : bool) (db' : Database) :
  K <> H ->
  aggregate_hour db H = Some (b, db') ->
  filter (hour_key K) (rows (hourly_stats db'))
  = filter (hour_key K) (rows (hourly_stats db)).
Proof.
  intros Hne E. destruct (hour_step_shape _ _ _ _ E) as [[-> _]|[-> _]]; [reflexivity|].
  cbn [hourly_stats with_hourly_stats]. apply insert_or_replace_others.
  - unfold hour_key, hour_row. cbv zeta. cbn [HourlyStats.hour_start].
    apply Z.eqb_neq. congruence.
  - intros r Hr. unfold hour_key in *. apply Z.eqb_eq in Hr. apply Z.eqb_neq. congruence.
Qed.

Lemma hour_complete_hour_keeps (db0 : Database) (K : Z) (db : Database)
    (H : Z) (b : bool) (db' : Database) :
  measurements db = measurements db0 /\ hour_complete db0 db K ->
  aggregate_hour db H = Some (b, db') ->
  measurements db' = measurements db0 /\ hour_complete db0 db' K.
Proof.
  intros [Em Hc] E.
  destruct (hour_step_shape _ _ _ _ E) as [[-> _]|[Edb Hpos]]; [now split|].
  split; [now rewrite Edb|].
  destruct (Z.eq_dec K H) as [->|Hne].
  - apply (hour_complete_after_step db0 db H b db' Em E).
    now rewrite <- (window_count_ext db0 db) by exact Em.
  - destruct Hc as (row & Hrow & Hcount). exists row. split; [|exact Hcount].
    now rewrite (hour_rows_kept_by_hour_step db H K b db').
Qed.

Lemma hour_complete_minute_keeps (db0 : Database) (K : Z) (db : Database)
    (s w : Z) (b : bool) (db' : Database) :
  measurements db = measurements db0 /\ hour_complete db0 db K ->
  aggregate_minute_interval db s w = Some (b, db') ->
  measurements db' = measurements db0 /\ hour_complete db0 db' K.
Proof.
  intros Hi E. destruct (minute_step_shape _ _ _ _ _ E) as [[-> _]|[-> _]]; exact Hi.
Qed.

Lemma hour_complete_day_keeps (db0 : Database) (K : Z) (db : Database)
    (d : Z) (b : bool) (db' : Database) :
  measurements db = measurements db0 /\ hour_complete db0 db K ->
  aggregate_day db d = Some (b, db') ->
  measurements db' = measurements db0 /\ hour_complete db0 db' K.
Proof.
  intros Hi E. destruct (day_step_shape _ _ _ _ E) as [[-> _]|[-> _]]; exact Hi.
Qed.

Lemma day_complete_after_step (db0 db : Database) (d : Z) (b : bool) (db' : Database) :
  measurements db = measurements db0 ->
  aggregate_day db d = Some (b, db') ->
  0 < window_count db0 (combine_midnight d) (combine_midnight d + timedelta_days 1) ->
  day_complete db0 db' d.
Proof.
  intros Em E Hpos. rewrite <- (window_count_ext db0 db) in Hpos by exact Em.
  destruct (day_step_shape _ _ _ _ E) as [[_ Hz]|[-> _]]; [lia|].
  eexists. split.
  - cbn [daily_stats with_daily_stats].
    apply insert_or_replace_key, day_key_day_row.
  - unfold day_row. cbv zeta. cbn [DailyStats.measurement_count].
    rewrite row3_select_stats. now apply window_count_ext.
Qed.

Lemma day_rows_kept_by_day_step (db : Database) (d K : Z) (b : bool) (db' : Database) :
  K <> d ->
  aggregate_day db d = Some (b, db') ->
  filter (day_key K) (rows (daily_stats db'))
  = filter (day_key K) (rows (daily_stats db)).
Proof.
  intros Hne E. destruct (day_step_shape _ _ _ _ E) as [[-> _]|[-> _]]; [reflexivity|].
  cbn [daily_stats with_daily_stats]. apply insert_or_replace_others.
  - unfold day_key, day_row. cbv zeta. cbn [DailyStats.date].
    apply Z.eqb_neq. congruence.
  - intros r Hr. unfold day_key in *. apply Z.eqb_eq in Hr. apply Z.eqb_neq. congruence.
Qed.

Lemma day_complete_day_keeps (db0 : Database) (K : Z) (db : Database)
    (d : Z) (b : bool) (db' : Database) :
  measurements db = measurements db0 /\ day_complete db0 db K ->
  aggregate_day db d = Some (b, db') ->
  measurements db' = measurements db0 /\ day_complete db0 db' K.
Proof.
  intros [Em Hc] E.
  destruct (day_step_shape _ _ _ _ E) as [[-> _]|[Edb Hpos]]; [now split|].
  split; [now rewrite Edb|].
  destruct (Z.eq_dec K d) as [->|Hne].
  - apply (day_complete_after_step db0 db d b db' Em E).
    now rewrite <- (window_count_ext db0 db) by exact Em.
  - destruct Hc as (row & Hrow & Hcount). exists row. split; [|exact Hcount].
    now rewrite (day_rows_kept_by_day_step db d K b db').
Qed.

Lemma day_complete_minute_keeps (db0 : Database) (K : Z) (db : Database)
    (s w : Z) (b : bool) (db' : Database) :
  measurements db = measurements db0 /\ day_complete db0 db K ->
  aggregate_minute_interval db s w = Some (b, db') ->
  measurements db' = measurements db0 /\ day_complete db0 db' K.
Proof.
  intros Hi E. destruct (minute_step_shape _ _ _ _ _ E) as [[-> _]|[-> _]]; exact Hi.
Qed.

Lemma day_complete_hour_keeps (db0 : Database) (K : Z) (db : Database)
    (H : Z) (b : bool) (db' : Database) :
  measurements db = measurements db0 /\ day_complete db0 db K ->
  aggregate_hour db H = Some (b, db') ->
  measurements db' = measurements db0 /\ day_complete db0 db' K.
Proof.
  intros Hi E. destruct (hour_step_shape _ _ _ _ E) as [[-> _]|[-> _]]; exact Hi.
Qed.

(** The raw store is the same after every step. *)
Lemma same_raw_minute_keeps (db0 db : Database) (s w : Z) (b : bool) (db' : Database) :
  measurements db = measurements db0 ->
  aggregate_minute_interval db s w = Some (b, db') ->
  measurements db' = measurements db0.
Proof.
  intros Hi E. destruct (minute_step_shape _ _ _ _ _ E) as [[-> _]|[-> _]]; exact Hi.
Qed.

Lemma same_raw_hour_keeps (db0 db : Database) (H : Z) (b : bool) (db' : Database) :
  measurements db = measurements db0 ->
  aggregate_hour db H = Some (b, db') ->
  measurements db' = measurements db0.
Proof.
  intros Hi E. destruct (hour_step_shape _ _ _ _ E) as [[-> _]|[-> _]]; exact Hi.
Qed.

Lemma same_raw_day_keeps (db0 db : Database) (d : Z) (b : bool) (db' : Database) :
  measurements db = measurements db0 ->
  aggregate_day db d = Some (b, db') ->
  measurements db' = measurements db0.
Proof.
  intros Hi E. destruct (day_step_shape _ _ _ _ E) as [[-> _]|[-> _]]; exact Hi.
Qed.

(** ** The incremental pass *)

Lemma incremental_intervals_complete (intervals : list Z) (db0 : Database) (now : Z) :
  forall db, measurements db = measurements db0 ->
  exists db',
    incremental_intervals intervals db now = Some db' /\
    minute_step_frame db db' /\
    forall s w, In w intervals ->
      s = current_interval now w \/ s = current_interval now w - timedelta_minutes w ->
      0 < window_count db0 s (s + timedelta_minutes w) ->
      minute_complete db0 db' s w.
Proof.
  induction intervals as [|interval intervals IH]; intros db Em;
    cbn [incremental_intervals].
  - exists db. split; [reflexivity|]. split; [now repeat split|]. intros s w [].
  - fold (current_interval now interval).
    destruct (minute_step db (current_interval now interval) interval)
      as (b1 & db1 & E1 & Hfr1).
    rewrite E1. cbn [bind snd].
    destruct (minute_step db1 (current_interval now interval - timedelta_minutes interval)
                interval) as (b2 & db2 & E2 & Hfr2).
    rewrite E2. cbn [bind snd].
    assert (Em1 : measurements db1 = measurements db0)
      by (destruct Hfr1 as [-> _]; exact Em).
    assert (Em2 : measurements db2 = measurements db0)
      by (destruct Hfr2 as [-> _]; exact Em1).
    destruct (IH db2 Em2) as (db' & E' & Hfr' & Hrest).
    exists db'. split; [exact E'|].
    split; [eapply minute_step_frame_trans; [|exact Hfr'];
            eapply minute_step_frame_trans; eassumption|].
    intros s w [<-|Hin] Hs Hpos; [|now apply Hrest].
    assert (Hc2 : minute_complete db0 db2 s interval).
    { destruct Hs as [->| ->].
      - pose proof (minute_complete_after_step db0 db _ _ b1 db1 Em E1 Hpos) as Hc1.
        apply (minute_complete_minute_keeps db0 _ _ db1 _ _ b2 db2 (conj Em1 Hc1) E2).
      - apply (minute_complete_after_step db0 db1 _ _ b2 db2 Em1 E2 Hpos). }
    destruct (incremental_intervals_keeps
                (fun d => measurements d = measurements db0
                          /\ minute_complete db0 d s interval)
                (minute_complete_minute_keeps db0 s interval)
                intervals db2 now (conj Em2 Hc2)) as (db'' & E'' & _ & Hc'').
    rewrite E' in E''. now injection E'' as <-.
Qed.

(** X21.  [run_incremental] brings the current and the previous bucket
    of every resolution up to date: afterwards, for each of the widths
    5, 10 and 15 minutes the current and the previous window, the
    current and the previous hour, and today and yesterday have, when
    they hold a reading, exactly one row whose count is the number of
    readings of the raw store in the window.  The raw store and
    [pattern_averages] are unchanged. *)
Theorem run_incremental_completes (db : Database) (now : Z) :
  exists db',
    run_incremental db now = Some db' /\
    measurements db' = measurements db /\
    pattern_averages db' = pattern_averages db /\
    (forall s w, incremental_minute now s w ->
       0 < window_count db s (s + timedelta_minutes w) ->
       minute_complete db db' s w) /\
    (forall H, incremental_hour now H ->
       0 < window_count db H (H + timedelta_hours 1) ->
       hour_complete db db' H) /\
    (forall d, incremental_day now d ->
       0 < window_count db (combine_midnight d) (combine_midnight d + timedelta_days 1) ->
       day_complete db db' d).
Proof.
  unfold run_incremental.
  destruct (incremental_intervals_complete MINUTE_INTERVALS db now db eq_refl)
    as (db1 & E1 & (Em1 & _ & _ & Ep1) & Hmin).
  rewrite E1. cbn [bind].
  destruct (hour_step db1 (replace_minute now 0)) as (b2 & db2 & E2 & Hfr2 & _).
  rewrite E2. cbn [bind snd].
  destruct (hour_step db2 (replace_minute now 0 - timedelta_hours 1))
    as (b3 & db3 & E3 & Hfr3 & _).
  rewrite E3. cbn [bind snd].
  destruct (day_step db3 (date_of now)) as (b4 & db4 & E4 & Hfr4).
  rewrite E4. cbn [bind snd].
  destruct (day_step db4 (date_of now - 1)) as (b5 & db5 & E5 & Hfr5).
  rewrite E5. cbn [bind snd].
  pose proof (same_raw_hour_keeps db db1 _ b2 db2 Em1 E2) as Em2.
  pose proof (same_raw_hour_keeps db db2 _ b3 db3 Em2 E3) as Em3.
  pose proof (same_raw_day_keeps db db3 _ b4 db4 Em3 E4) as Em4.
  pose proof (same_raw_day_keeps db db4 _ b5 db5 Em4 E5) as Em5.
  exists db5. split; [reflexivity|]. split; [exact Em5|]. split; [|split; [|split]].
  - destruct Hfr2 as (_ & _ & _ & Ep2), Hfr3 as (_ & _ & _ & Ep3),
             Hfr4 as (_ & _ & _ & Ep4), Hfr5 as (_ & _ & _ & Ep5).
    congruence.
  - intros s w [Hw Hs] Hpos. specialize (Hmin s w Hw Hs Hpos).
    pose proof (minute_complete_hour_keeps db s w db1 _ b2 db2 (conj Em1 Hmin) E2) as H2.
    pose proof (minute_complete_hour_keeps db s w db2 _ b3 db3 H2 E3) as H3.
    pose proof (minute_complete_day_keeps db s w db3 _ b4 db4 H3 E4) as H4.
    exact (proj2 (minute_complete_day_keeps db s w db4 _ b5 db5 H4 E5)).
  - intros H HH Hpos.
    assert (H3 : measurements db3 = measurements db /\ hour_complete db db3 H).
    { destruct HH as [->| ->].
      - apply (hour_complete_hour_keeps db (replace_minute now 0) db2
                 (replace_minute now 0 - timedelta_hours 1) b3 db3); [|exact E3].
        split; [exact Em2|].
        now apply (hour_complete_after_step db db1 _ b2 db2 Em1 E2).
      - split; [exact Em3|].
        now apply (hour_complete_after_step db db2 _ b3 db3 Em2 E3). }
    pose proof (hour_complete_day_keeps db H db3 _ b4 db4 H3 E4) as H4.
    exact (proj2 (hour_complete_day_keeps db H db4 _ b5 db5 H4 E5)).
  - intros d Hd Hpos. destruct Hd as [->| ->].
    + apply (proj2 (day_complete_day_keeps db _ db4 _ b5 db5
                      (conj Em4 (day_complete_after_step db db3 _ b4 db4 Em3 E4 Hpos))
                      E5)).
    + now apply (day_complete_after_step db db4 _ b5 db5 Em4 E5).
Qed.

Lemma run_incremental_completes_witness :
  exists db',
    run_incremental afternoon_db t_15_10 = Some db' /\
    minute_complete afternoon_db db' (t_14_00 + timedelta_hours 1) 15 /\
    hour_complete afternoon_db db' t_14_00 /\
    day_complete afternoon_db db' day_20251228.
Proof.
  destruct (run_incremental_completes afternoon_db t_15_10)
    as (db' & E & _ & _ & Hm & Hh & Hd).
  exists db'. split; [exact E|]. split; [|split].
  - apply Hm; [|reflexivity]. split; [simpl; auto|]. left. reflexivity.
  - apply Hh; [|reflexivity]. right. reflexivity.
  - apply Hd; [|reflexivity]. left. reflexivity.
Defined.

Lemma incremental_intervals_others (intervals : list Z) (now s w : Z) :
  (In w intervals ->
   s <> current_interval now w /\
   s <> current_interval now w - timedelta_minutes w) ->
  forall db db',
  incremental_intervals intervals db now = Some db' ->
  filter (minute_key s w) (rows (minute_stats db'))
  = filter (minute_key s w) (rows (minute_stats db)).
Proof.
  induction intervals as [|interval intervals IH]; intros Hne db db';
    cbn [incremental_intervals].
  - intro E. now injection E as <-.
  - fold (current_interval now interval).
    destruct (aggregate_minute_interval db (current_interval now interval) interval)
      as [[b1 db1]|] eqn:E1; [|discriminate]. cbn [bind snd].
    destruct (aggregate_minute_interval db1
                (current_interval now interval - timedelta_minutes interval) interval)
      as [[b2 db2]|] eqn:E2; [|discriminate]. cbn [bind snd].
    intro E. rewrite (IH (fun Hin => Hne (or_intror Hin)) db2 db' E).
    rewrite (minute_rows_kept_by_minute_step db1
               (current_interval now interval - timedelta_minutes interval)
               interval s w b2 db2); [| |exact E2].
    + apply (minute_rows_kept_by_minute_step db (current_interval now interval)
               interval s w b1 db1); [|exact E1].
      intro Heq. injection Heq as Hs Hw. subst w.
      now apply (proj1 (Hne (or_introl eq_refl))).
    + intro Heq. injection Heq as Hs Hw. subst w.
      now apply (proj2 (Hne (or_introl eq_refl))).
Qed.

(** X22.  [run_incremental] revisits no other bucket: the rows of the
    three aggregate stores under every key other than the current and
    the previous window of each resolution are exactly the rows that
    were there before the pass. *)
Theorem run_incremental_leaves_other_buckets (db : Database) (now : Z) :
  exists db',
    run_incremental db now = Some db' /\
    (forall s w, ~ incremental_minute now s w ->
       filter (minute_key s w) (rows (minute_stats db'))
       = filter (minute_key s w) (rows (minute_stats db))) /\
    (forall H, ~ incremental_hour now H ->
       filter (hour_key H) (rows (hourly_stats db'))
       = filter (hour_key H) (rows (hourly_stats db))) /\
    (forall d, ~ incremental_day now d ->
       filter (day_key d) (rows (daily_stats db'))
       = filter (day_key d) (rows (daily_stats db))).
Proof.
  unfold run_incremental.
  destruct (incremental_intervals_complete MINUTE_INTERVALS db now db eq_refl)
    as (db1 & E1 & (_ & Eh1 & Ed1 & _) & _).
  rewrite E1. cbn [bind].
  destruct (hour_step db1 (replace_minute now 0)) as (b2 & db2 & E2 & Hfr2 & _).
  rewrite E2. cbn [bind snd].
  destruct (hour_step db2 (replace_minute now 0 - timedelta_hours 1))
    as (b3 & db3 & E3 & Hfr3 & _).
  rewrite E3. cbn [bind snd].
  destruct (day_step db3 (date_of now)) as (b4 & db4 & E4 & Hfr4).
  rewrite E4. cbn [bind snd].
  destruct (day_step db4 (date_of now - 1)) as (b5 & db5 & E5 & Hfr5).
  rewrite E5. cbn [bind snd].
  destruct Hfr2 as (_ & Emin2 & Ed2 & _), Hfr3 as (_ & Emin3 & Ed3 & _),
           Hfr4 as (_ & Emin4 & Eh4 & _), Hfr5 as (_ & Emin5 & Eh5 & _).
  exists db5. split; [reflexivity|]. split; [|split].
  - intros s w Hno. rewrite Emin5, Emin4, Emin3, Emin2.
    apply (incremental_intervals_others MINUTE_INTERVALS now s w); [|exact E1].
    intro Hw. unfold incremental_minute in Hno. split; intro Hs; apply Hno; auto.
  - intros H Hno. rewrite Eh5, Eh4.
    rewrite (hour_rows_kept_by_hour_step db2 (replace_minute now 0 - timedelta_hours 1)
               H b3 db3); [| |exact E3].
    + rewrite (hour_rows_kept_by_hour_step db1 (replace_minute now 0) H b2 db2);
        [| |exact E2].
      * now rewrite Eh1.
      * intro Heq. apply Hno. now left.
    + intro Heq. apply Hno. now right.
  - intros d Hno.
    rewrite (day_rows_kept_by_day_step db4 (date_of now - 1) d b5 db5); [| |exact E5].
    + rewrite (day_rows_kept_by_day_step db3 (date_of now) d b4 db4); [| |exact E4].
      * now rewrite Ed3, Ed2, Ed1.
      * intro Heq. apply Hno. now left.
    + intro Heq. apply Hno. now right.
Qed.

Lemma run_incremental_leaves_other_buckets_witness :
  exists db',
    run_incremental afternoon_db t_15_10 = Some db' /\
    filter (hour_key (t_14_00 - timedelta_hours 2)) (rows (hourly_stats db')) = [].
Proof.
  destruct (run_incremental_leaves_other_buckets afternoon_db t_15_10)
    as (db' & E & _ & Hh & _).
  exists db'. split; [exact E|]. rewrite Hh; [reflexivity|].
  intros [Heq|Heq]; vm_compute in Heq; discriminate.
Defined.

(** ** Backfill of the days and of the minute intervals *)

Lemma backfill_days_complete (db0 db : Database) (date0 end_date : Z) :
  measurements db = measurements db0 ->
  exists db',
    backfill_days (rounds date0 end_date 1) db date0 end_date = Some db' /\
    measurements db' = measurements db0 /\
    forall d, date0 <= d <= end_date ->
      0 < window_count db0 (combine_midnight d) (combine_midnight d + timedelta_days 1) ->
      day_complete db0 db' d.
Proof.
  intro Em. rewrite backfill_days_while.
  set (Inv := fun c d' =>
                date0 <= c /\ measurements d' = measurements db0 /\
                forall d, date0 <= d < c ->
                  0 < window_count db0 (combine_midnight d)
                        (combine_midnight d + timedelta_days 1) ->
                  day_complete db0 d' d).
  assert (Hbody : forall d' c, Inv c d' ->
            exists b d'', aggregate_day d' c = Some (b, d'') /\ Inv (c + 1) d'').
  { intros d' c (Hc & Em' & Hdone).
    destruct (day_step d' c) as (b & d'' & E & _).
    exists b, d''. split; [exact E|]. split; [lia|].
    split; [exact (same_raw_day_keeps db0 d' c b d'' Em' E)|].
    intros d Hd Hpos. destruct (Z.eq_dec d c) as [->|Hne].
    - exact (day_complete_after_step db0 d' c b d'' Em' E Hpos).
    - apply (proj2 (day_complete_day_keeps db0 d d' c b d''
                      (conj Em' (Hdone d ltac:(lia) Hpos)) E)). }
  destruct (while_le_inv aggregate_day 1 ltac:(lia) Inv Hbody
              (rounds date0 end_date 1) db date0 end_date)
    as (db' & c' & E & (_ & Em' & Hdone) & Hc & _).
  - split; [lia|]. split; [exact Em|]. intros d Hd. lia.
  - auto.
  - exists db'. split; [exact E|]. split; [exact Em'|].
    intros d Hd. apply Hdone. lia.
Qed.

Lemma date_of_window (d t : Z) :
  combine_midnight d <= t < combine_midnight d + timedelta_days 1 -> date_of t = d.
Proof.
  unfold combine_midnight, timedelta_days, date_of, SECONDS_PER_DAY. intro H.
  symmetry. apply (Z.div_unique t 86400 d (t - d * 86400)); lia.
Qed.

Lemma date_of_mono (a b : Z) : a <= b -> date_of a <= date_of b.
Proof. unfold date_of, SECONDS_PER_DAY. intro H. apply Z.div_le_mono; lia. Qed.

Lemma timestamps_bounds (db : Database) (start_ end_ : Z) (m : Measurement.t) :
  min_Z (timestamps db) = Some start_ ->
  max_Z (timestamps db) = Some end_ ->
  In m (measurements db) ->
  start_ <= Measurement.timestamp m <= end_.
Proof.
  intros Emin Emax Hm.
  assert (Hts : In (Measurement.timestamp m) (timestamps db)) by now apply in_map.
  destruct (min_Z_spec _ _ Emin) as [_ Hlo], (max_Z_spec _ _ Emax) as [_ Hhi].
  split; [now apply Hlo|now apply Hhi].
Qed.

(** X23.  After [backfill_all], every date that holds at least one
    reading has exactly one row in [daily_stats], and the
    [measurement_count] of the row is the number of readings of the
    day. *)
Theorem backfill_completes_days (db : Database) :
  exists db',
    backfill_all db = Some db' /\
    forall d,
      0 < window_count db (combine_midnight d) (combine_midnight d + timedelta_days 1) ->
      day_complete db db' d.
Proof.
  unfold backfill_all.
  destruct (min_Z (timestamps db)) as [start_|] eqn:Emin;
    [destruct (max_Z (timestamps db)) as [end_|] eqn:Emax|].
  - destruct (backfill_intervals_frame MINUTE_INTERVALS
                ltac:(repeat constructor) db start_ end_) as (db1 & E1 & Em1 & _).
    rewrite E1. cbn [bind].
    destruct (backfill_hours_complete db1 (replace_minute start_ 0) end_)
      as (db2 & E2 & (Em2 & _) & _).
    rewrite E2. cbn [bind].
    destruct (backfill_days_complete db db2 (date_of start_) (date_of end_))
      as (db3 & E3 & _ & Hdone); [congruence|].
    exists db3. split; [exact E3|].
    intros d Hpos. apply Hdone; [|exact Hpos].
    destruct (window_count_witness _ _ _ Hpos) as (m & Hm & Ht).
    pose proof (timestamps_bounds db start_ end_ m Emin Emax Hm) as Hb.
    rewrite <- (date_of_window d _ Ht).
    split; apply date_of_mono; lia.
  - apply max_Z_none in Emax. rewrite Emax in Emin. discriminate.
  - exists db. split; [reflexivity|]. intros d Hpos.
    rewrite (no_timestamps db) in Hpos by now apply min_Z_none. lia.
Qed.

Lemma backfill_completes_days_witness :
  exists db', backfill_all afternoon_db = Some db' /\
              day_complete afternoon_db db' day_20251228.
Proof.
  destruct (backfill_completes_days afternoon_db) as (db' & E & Hd).
  exists db'. split; [exact E|]. apply Hd. reflexivity.
Defined.

Lemma backfill_minutes_complete (db0 db : Database) (c0 end_ interval : Z) :
  0 < interval ->
  measurements db = measurements db0 ->
  exists db',
    backfill_minutes (rounds c0 end_ (timedelta_minutes interval)) db c0 end_ interval
    = Some db' /\
    measurements db' = measurements db0 /\
    forall s, reached_from c0 (timedelta_minutes interval) s -> s <= end_ ->
      0 < window_count db0 s (s + timedelta_minutes interval) ->
      minute_complete db0 db' s interval.
Proof.
  intros Hi Em. rewrite backfill_minutes_while.
  assert (Hstride : 0 < timedelta_minutes interval)
    by (unfold timedelta_minutes, SECONDS_PER_MINUTE; lia).
  set (stride := timedelta_minutes interval) in *.
  set (Inv := fun c d' =>
                reached_from c0 stride c /\ measurements d' = measurements db0 /\
                forall s, reached_from c0 stride s -> s < c ->
                  0 < window_count db0 s (s + stride) ->
                  minute_complete db0 d' s interval).
  assert (Hbody : forall d' c, Inv c d' ->
            exists b d'', aggregate_minute_interval d' c interval = Some (b, d'')
                          /\ Inv (c + stride) d'').
  { intros d' c ((j & Hj & Ec) & Em' & Hdone).
    destruct (minute_step d' c interval) as (b & d'' & E & _).
    exists b, d''. split; [exact E|]. split; [exists (j + 1); split; [lia|]; lia|].
    split; [exact (same_raw_minute_keeps db0 d' c interval b d'' Em' E)|].
    intros s (k & Hk & Es) Hlt Hpos. destruct (Z.eq_dec s c) as [->|Hne].
    - exact (minute_complete_after_step db0 d' c interval b d'' Em' E Hpos).
    - assert (Hk1 : k < j + 1).
      { apply (Z.mul_lt_mono_pos_r stride); [exact Hstride|]. lia. }
      assert (Hkj : k <> j) by (intros ->; lia).
      assert (Hsc : s < c).
      { assert (k * stride <= (j - 1) * stride)
          by (apply Z.mul_le_mono_nonneg_r; lia).
        lia. }
      apply (proj2 (minute_complete_minute_keeps db0 s interval d' c interval b d''
                      (conj Em' (Hdone s (ex_intro _ k (conj Hk Es)) ltac:(lia) Hpos))
                      E)). }
  destruct (while_le_inv (fun d c => aggregate_minute_interval d c interval) stride
              Hstride Inv Hbody (rounds c0 end_ stride) db c0 end_)
    as (db' & c' & E & (_ & Em' & Hdone) & Hc & _).
  - split; [exists 0; split; lia|]. split; [exact Em|].
    intros s (k & Hk & ->) Hlt. nia.
  - auto.
  - exists db'. split; [exact E|]. split; [exact Em'|].
    intros s Hs Hle. apply Hdone; [exact Hs|lia].
Qed.

(** For the widths of [MINUTE_INTERVALS], which divide the hour, rounding
    the minute down inside the hour is rounding the time down to a
    multiple of the width. *)
Lemma current_interval_grid (t i : Z) :
  In i MINUTE_INTERVALS ->
  current_interval t i = t / timedelta_minutes i * timedelta_minutes i.
Proof.
  unfold MINUTE_INTERVALS, current_interval, replace_minute, minute, timedelta_minutes,
    SECONDS_PER_HOUR, SECONDS_PER_MINUTE.
  intros [<-|[<-|[<-|[]]]]; Z.div_mod_to_equations; lia.
Qed.

Lemma current_interval_window (t i : Z) :
  In i MINUTE_INTERVALS ->
  current_interval t i <= t < current_interval t i + timedelta_minutes i.
Proof.
  intro Hi. rewrite (current_interval_grid t i Hi).
  assert (0 < timedelta_minutes i).
  { unfold MINUTE_INTERVALS, timedelta_minutes, SECONDS_PER_MINUTE in *.
    destruct Hi as [<-|[<-|[<-|[]]]]; lia. }
  pose proof (Z.div_mod t (timedelta_minutes i) ltac:(lia)).
  pose proof (Z.mod_pos_bound t (timedelta_minutes i) ltac:(lia)). lia.
Qed.

Lemma current_interval_reached (start_ t i : Z) :
  In i MINUTE_INTERVALS -> start_ <= t ->
  reached_from (current_interval start_ i) (timedelta_minutes i) (current_interval t i).
Proof.
  intros Hi Hle. rewrite !(current_interval_grid _ i Hi).
  assert (0 < timedelta_minutes i).
  { unfold MINUTE_INTERVALS, timedelta_minutes, SECONDS_PER_MINUTE in *.
    destruct Hi as [<-|[<-|[<-|[]]]]; lia. }
  exists (t / timedelta_minutes i - start_ / timedelta_minutes i). split.
  - pose proof (Z.div_le_mono start_ t (timedelta_minutes i) ltac:(lia) Hle). lia.
  - lia.
Qed.

Lemma backfill_intervals_complete (intervals : list Z) (db0 : Database)
    (start_ end_ s i : Z) :
  Forall (fun interval => 0 < interval) intervals ->
  In i intervals ->
  reached_from (current_interval start_ i) (timedelta_minutes i) s ->
  s <= end_ ->
  0 < window_count db0 s (s + timedelta_minutes i) ->
  forall db, measurements db = measurements db0 ->
  exists db',
    backfill_intervals intervals db start_ end_ = Some db' /\
    measurements db' = measurements db0 /\
    minute_complete db0 db' s i.
Proof.
  intros Hall Hin Hreach Hle Hpos. induction Hall as [|interval intervals Hi Hall IH];
    [destruct Hin|].
  intros db Em. cbn [backfill_intervals]. cbv zeta.
  destruct (Z.eq_dec interval i) as [->|Hne].
  - destruct (backfill_minutes_complete db0 db (current_interval start_ i) end_ i Hi Em)
      as (db1 & E1 & Em1 & Hdone).
    unfold current_interval in E1. rewrite E1. cbn [bind].
    destruct (backfill_intervals_keeps
                (fun d => measurements d = measurements db0 /\ minute_complete db0 d s i)
                (minute_complete_minute_keeps db0 s i)
                intervals Hall db1 start_ end_
                (conj Em1 (Hdone s Hreach Hle Hpos)))
      as (db2 & E2 & Em2 & Hc2).
    now exists db2.
  - destruct (backfill_minutes_frame db
                (replace_minute start_ (minute start_ / interval * interval))
                end_ interval Hi) as (db1 & E1 & Em1 & _).
    rewrite E1. cbn [bind]. apply IH.
    + destruct Hin as [Heq|Hin]; [contradiction|exact Hin].
    + congruence.
Qed.

(** X24.  After [backfill_all], for each of the widths 5, 10 and 15
    minutes the window that holds a reading of the raw store has exactly
    one row in [minute_stats], and the [co2_count] of the row is the
    number of readings in the window. *)
Theorem backfill_completes_minute_intervals (db : Database) :
  exists db',
    backfill_all db = Some db' /\
    forall m i, In m (measurements db) -> In i MINUTE_INTERVALS ->
      minute_complete db db' (current_interval (Measurement.timestamp m) i) i.
Proof.
  assert (Hnone : forall m i, In m (measurements db) -> timestamps db = [] ->
            minute_complete db db (current_interval (Measurement.timestamp m) i) i).
  { intros m i Hm Ets. unfold timestamps in Ets.
    destruct (measurements db); [destruct Hm|discriminate]. }
  unfold backfill_all.
  destruct (min_Z (timestamps db)) as [start_|] eqn:Emin;
    [destruct (max_Z (timestamps db)) as [end_|] eqn:Emax|].
  - destruct (backfill_intervals_frame MINUTE_INTERVALS
                ltac:(repeat constructor) db start_ end_) as (db1 & E1 & Em1 & _).
    rewrite E1. cbn [bind]. rewrite backfill_hours_while.
    set (I := fun d => measurements d = measurements db /\
                       forall m i, In m (measurements db) -> In i MINUTE_INTERVALS ->
                         minute_complete db d
                           (current_interval (Measurement.timestamp m) i) i).
    assert (Hi1 : I db1).
    { split; [exact Em1|]. intros m i Hm Hi.
      pose proof (timestamps_bounds db start_ end_ m Emin Emax Hm) as Hb.
      pose proof (current_interval_window (Measurement.timestamp m) i Hi) as Hw.
      destruct (backfill_intervals_complete MINUTE_INTERVALS db start_ end_
                  (current_interval (Measurement.timestamp m) i) i
                  ltac:(repeat constructor) Hi
                  (current_interval_reached start_ _ i Hi (proj1 Hb))
                  ltac:(lia)
                  (window_count_pos db _ _ m
                     (proj2 (select_window_In db _ _ m) (conj Hm Hw)))
                  db eq_refl) as (db1' & E1' & _ & Hc).
      rewrite E1 in E1'. injection E1' as <-. exact Hc. }
    assert (Hhour : forall d H b d', I d -> aggregate_hour d H = Some (b, d') -> I d').
    { intros d H b d' [Em Hc] E.
      split; [exact (same_raw_hour_keeps db d H b d' Em E)|].
      intros m i Hm Hi.
      exact (proj2 (minute_complete_hour_keeps db _ i d H b d' (conj Em (Hc m i Hm Hi)) E)). }
    assert (Hday : forall d c b d', I d -> aggregate_day d c = Some (b, d') -> I d').
    { intros d c b d' [Em Hc] E.
      split; [exact (same_raw_day_keeps db d c b d' Em E)|].
      intros m i Hm Hi.
      exact (proj2 (minute_complete_day_keeps db _ i d c b d' (conj Em (Hc m i Hm Hi)) E)). }
    destruct (while_le_inv aggregate_hour (timedelta_hours 1)
                ltac:(unfold timedelta_hours, SECONDS_PER_HOUR; lia)
                (fun _ db' => I db') (fun d c Hd => hour_step_keeps I Hhour d c Hd)
                (rounds (replace_minute start_ 0) end_ (timedelta_hours 1))
                db1 (replace_minute start_ 0) end_ Hi1 ltac:(auto))
      as (db2 & _ & E2 & Hi2 & _).
    rewrite E2. cbn [bind]. rewrite backfill_days_while.
    destruct (while_le_inv aggregate_day 1 ltac:(lia)
                (fun _ db' => I db') (fun d c Hd => day_step_keeps I Hday d c Hd)
                (rounds (date_of start_) (date_of end_) 1)
                db2 (date_of start_) (date_of end_) Hi2 ltac:(auto))
      as (db3 & _ & E3 & Hi3 & _).
    exists db3. split; [exact E3|exact (proj2 Hi3)].
  - apply max_Z_none in Emax. rewrite Emax in Emin. discriminate.
  - exists db. split; [reflexivity|]. intros m i Hm _.
    apply Hnone; [exact Hm|now apply min_Z_none].
Qed.

Lemma backfill_completes_minute_intervals_witness :
  exists db', backfill_all afternoon_db = Some db' /\
              minute_complete afternoon_db db'
                (current_interval (Measurement.timestamp last_reading) 5) 5.
Proof.
  destruct (backfill_completes_minute_intervals afternoon_db) as (db' & E & Hd).
  exists db'. split; [exact E|]. apply Hd.
  - vm_compute. tauto.
  - vm_compute. tauto.
Defined.

(** ** The history endpoint *)

Lemma range_hours_le (span k : Z) :
  Qle_bool (inject_Z span / inject_Z (at_second 3600)) (inject_Z k)
  = (span <=? k * at_second 3600).
Proof.
  unfold at_second, MICROSECONDS_PER_SECOND.
  destruct (Z.leb_spec span (k * (3600 * 1000000))) as [H|H].
  - apply Qle_bool_iff. unfold Qle, Qdiv, Qmult, Qinv, inject_Z. simpl. lia.
  - destruct (Qle_bool _ _) eqn:E; [|reflexivity].
    apply Qle_bool_iff in E. unfold Qle, Qdiv, Qmult, Qinv, inject_Z in E. simpl in E.
    lia.
Qed.

Lemma auto_resolution_days (now d : Z) :
  d <> 0 ->
  auto_resolution (now - at_second (timedelta_days d)) now = resolution_for_days d.
Proof.
  intro Hd. unfold auto_resolution, resolution_for_days. cbv zeta.
  rewrite !range_hours_le.
  unfold at_second, MICROSECONDS_PER_SECOND, timedelta_days, SECONDS_PER_DAY.
  destruct (Z.ltb_spec d 0).
  - destruct (Z.leb_spec (now - (now - d * 86400 * 1000000)) (6 * (3600 * 1000000)));
      [reflexivity|lia].
  - destruct (Z.leb_spec (now - (now - d * 86400 * 1000000)) (6 * (3600 * 1000000)));
      [lia|].
    destruct (Z.eqb_spec d 1) as [->|].
    + destruct (Z.leb_spec (now - (now - 1 * 86400 * 1000000)) (24 * (3600 * 1000000)));
        [reflexivity|lia].
    + destruct (Z.leb_spec (now - (now - d * 86400 * 1000000)) (24 * (3600 * 1000000)));
        [lia|].
      destruct (Z.eqb_spec d 2) as [->|].
      * destruct (Z.leb_spec (now - (now - 2 * 86400 * 1000000))
                    (48 * (3600 * 1000000))); [reflexivity|lia].
      * destruct (Z.leb_spec (now - (now - d * 86400 * 1000000))
                    (48 * (3600 * 1000000))); [lia|].
        destruct (Z.leb_spec d 7);
          destruct (Z.leb_spec (now - (now - d * 86400 * 1000000))
                      (24 * 7 * (3600 * 1000000))); (reflexivity || lia).
Qed.

(** X25.  With [days] given and not zero, and [start] and [end] not
    both given, [get_history] raises when the start of the range is no
    [datetime], and otherwise answers [auto] by the number of days: one
    day in 5-minute buckets, two days in 15-minute buckets, three to
    seven days in hourly buckets, more in daily buckets, whatever
    [hours] says.  A negative number of days gives raw data, and in the
    years of four digits none: the range ends before it starts. *)
Theorem history_days_resolution (db : Database) (now : Z) (hours : option Z) (d : Z)
    (start_ end_ : IsoParam) :
  d <> 0 ->
  given start_ && given end_ = false ->
  (datetime_sub now (timedelta_days d) = None ->
   get_history db now Auto hours (Some d) start_ end_ = None) /\
  (datetime_sub now (timedelta_days d) <> None ->
   exists data,
     get_history db now Auto hours (Some d) start_ end_
     = Some (History.mk (resolution_for_days d) data)) /\
  (d < 0 ->
   cutoff_in_four_digit_years now d ->
   at_second YEAR_1000 <= now ->
   stamped_in_four_digit_years db ->
   get_history db now Auto hours (Some d) start_ end_
   = Some (History.mk Raw (RawData []))).
Proof.
  intros Hd Hg.
  assert (Hnz : nonzero (Some d) = Some d).
  { unfold nonzero. destruct (Z.eqb_spec d 0); [contradiction|reflexivity]. }
  assert (Hsome : forall start_dt,
            datetime_sub now (timedelta_days d) = Some start_dt ->
            start_dt = now - at_second (timedelta_days d)).
  { intros start_dt E. unfold datetime_sub in E. cbv zeta in E.
    destruct (_ && _) in E; [|discriminate]. now injection E as <-. }
  unfold get_history, time_range. rewrite Hg, Hnz. cbv zeta.
  split; [|split].
  - intros ->. reflexivity.
  - intro Hne. destruct (datetime_sub now (timedelta_days d)) as [start_dt|] eqn:E;
      [|contradiction].
    rewrite (Hsome start_dt eq_refl). cbn [bind fst snd].
    rewrite (auto_resolution_days now d Hd).
    unfold resolution_for_days.
    destruct (d <? 0); [eexists; reflexivity|].
    destruct (d =? 1); [eexists; reflexivity|].
    destruct (d =? 2); [eexists; reflexivity|].
    destruct (d <=? 7); eexists; reflexivity.
  - intros Hneg Hc Hnow Hdb.
    destruct (datetime_sub_four_digit now (timedelta_days d) Hc) as [E Hys].
    rewrite E. cbn [bind fst snd]. rewrite (auto_resolution_days now d Hd).
    unfold resolution_for_days. destruct (Z.ltb_spec d 0); [|lia].
    do 3 f_equal.
    assert (Hyn : four_digit_year (second_of now)).
    { destruct Hc as [Hlo Hhi].
      unfold four_digit_year, second_of, at_second, MICROSECONDS_PER_SECOND,
        timedelta_days, SECONDS_PER_DAY in *.
      Z.div_mod_to_equations. lia. }
    destruct (get_range db (now - at_second (timedelta_days d)) now) as [|m l] eqn:Er;
      [reflexivity|exfalso].
    assert (Hin : In m (get_range db (now - at_second (timedelta_days d)) now))
      by (rewrite Er; now left).
    assert (Hm : In m (measurements db)).
    { apply (Permutation_in _ (get_range_perm db _ _)) in Hin.
      now apply filter_In in Hin. }
    unfold stamped_in_four_digit_years in Hdb. rewrite Forall_forall in Hdb.
    apply (get_range_In db _ _ m Hys Hyn (Hdb m Hm)) in Hin.
    destruct Hin as [_ [Hlo Hhi]].
    unfold second_of, at_second, MICROSECONDS_PER_SECOND, timedelta_days,
      SECONDS_PER_DAY in *.
    Z.div_mod_to_equations. lia.
Qed.

Lemma history_days_resolution_witness :
  (exists data,
     get_history example_db (at_second t_15_30 + 250000) Auto (Some 1) (Some 2)
       Malformed Missing
     = Some (History.mk Min15 data)) /\
  get_history example_db (at_second t_15_30 + 250000) Auto None (Some (-1))
    Missing Missing
  = Some (History.mk Raw (RawData [])) /\
  get_history example_db (at_second t_15_30 + 250000) Auto None (Some 800000)
    Missing Missing
  = None.
Proof.
  split; [|split].
  - apply (history_days_resolution example_db (at_second t_15_30 + 250000) (Some 1) 2
             Malformed Missing); [discriminate|reflexivity|].
    vm_compute. discriminate.
  - apply (history_days_resolution example_db (at_second t_15_30 + 250000) None (-1)
             Missing Missing); [discriminate|reflexivity|lia| | |].
    + vm_compute. split; [discriminate|reflexivity].
    + vm_compute. discriminate.
    + repeat constructor; vm_compute; discriminate.
  - apply (history_days_resolution example_db (at_second t_15_30 + 250000) None 800000
             Missing Missing); [discriminate|reflexivity|].
    vm_compute. reflexivity.
Defined.

(** X26.  A range parameter that is zero counts as absent, and so do a
    [start] without an [end] and an [end] without a [start], even
    malformed ones: with no other parameter [get_history] answers as
    for the last 24 hours, and [auto] then stands for 5-minute
    buckets. *)
Theorem history_falls_back_to_a_day (db : Database) (now : Z)
    (resolution : Resolution) (hours days : option Z) (start_ end_ : IsoParam) :
  nonzero hours = None ->
  nonzero days = None ->
  given start_ && given end_ = false ->
  get_history db now resolution hours days start_ end_
  = get_history db now resolution (Some 24) None Missing Missing /\
  forall h, get_history db now Auto hours days start_ end_ = Some h ->
            History.resolution h = Min5.
Proof.
  intros Hh Hd Hg.
  assert (Hsame : forall res,
            get_history db now res hours days start_ end_
            = get_history db now res (Some 24) None Missing Missing).
  { intro res. unfold get_history, time_range. rewrite Hg, Hh, Hd. reflexivity. }
  split; [apply Hsame|].
  intros h. rewrite Hsame. unfold get_history, time_range. cbn [given andb nonzero].
  cbv zeta. change (24 =? 0) with false. cbv iota.
  destruct (datetime_sub now (timedelta_hours 24)) as [start_dt|] eqn:E;
    cbn [bind fst snd]; [|discriminate].
  assert (Es : start_dt = now - at_second (timedelta_hours 24)).
  { unfold datetime_sub in E. cbv zeta in E.
    destruct (_ && _) in E; [|discriminate]. now injection E as <-. }
  assert (Ea : auto_resolution start_dt now = Min5).
  { subst start_dt. unfold auto_resolution. cbv zeta. rewrite !range_hours_le.
    unfold at_second, MICROSECONDS_PER_SECOND, timedelta_hours, SECONDS_PER_HOUR.
    destruct (Z.leb_spec (now - (now - 24 * 3600 * 1000000)) (6 * (3600 * 1000000)));
      [lia|].
    destruct (Z.leb_spec (now - (now - 24 * 3600 * 1000000)) (24 * (3600 * 1000000)));
      [reflexivity|lia]. }
  rewrite Ea. intro Eh. now injection Eh as <-.
Qed.

Lemma history_falls_back_to_a_day_witness :
  get_history example_db (at_second t_15_30) Auto (Some 0) (Some 0) Malformed Missing
  = get_history example_db (at_second t_15_30) Auto (Some 24) None Missing Missing.
Proof.
  apply (history_falls_back_to_a_day example_db (at_second t_15_30) Auto
           (Some 0) (Some 0) Malformed Missing); reflexivity.
Defined.

Lemma filter_map_swap {A B : Type} (f : A -> B) (p : B -> bool) (l : list A) :
  filter p (map f l) = map f (filter (fun a => p (f a)) l).
Proof.
  induction l as [|a l IH]; simpl; [reflexivity|].
  destruct (p (f a)); simpl; now rewrite IH.
Qed.

(** After [backfill_all] every hour of the clock that holds a reading
    has exactly one row, which counts the readings of the hour. *)
Lemma backfill_all_hour_complete (db : Database) (H : Z) :
  H mod SECONDS_PER_HOUR = 0 ->
  0 < window_count db H (H + timedelta_hours 1) ->
  exists db', backfill_all db = Some db' /\ hour_complete db db' H.
Proof.
  intros Hal Hpos. unfold backfill_all.
  destruct (min_Z (timestamps db)) as [start_|] eqn:Emin;
    [destruct (max_Z (timestamps db)) as [end_|] eqn:Emax|].
  - destruct (backfill_intervals_frame MINUTE_INTERVALS
                ltac:(repeat constructor) db start_ end_) as (db1 & E1 & Hm1 & _).
    rewrite E1. cbn [bind].
    destruct (backfill_hours_complete db1 (replace_minute start_ 0) end_)
      as (db2 & E2 & (Hm2 & _) & Hdone).
    rewrite E2. cbn [bind].
    destruct (backfill_days_frame db2 (date_of start_) (date_of end_))
      as (db3 & E3 & Hm3 & _ & Hh3 & _).
    exists db3. split; [exact E3|].
    destruct (hour_with_reading_is_visited db start_ end_ H Emin Emax Hal Hpos)
      as [Hfrom Hle].
    rewrite <- (window_count_ext db db1) in Hpos by exact Hm1.
    destruct (Hdone H Hfrom Hle Hpos) as (row & Hrow & Hcount).
    exists row. rewrite Hh3. split; [exact Hrow|].
    rewrite Hcount. apply window_count_ext. exact Hm1.
  - apply max_Z_none in Emax. rewrite Emax in Emin. discriminate.
  - rewrite (no_timestamps db) in Hpos by now apply min_Z_none. lia.
Qed.

(** X27.  What the dashboard shows is what the raw store holds: after
    [backfill_all], the hourly history of a range of four-digit years
    has, for every hour of the clock in the range that holds a
    reading, exactly one point, and its [count] is the number of
    readings of the hour. *)
Theorem history_hourly_after_backfill (db : Database) (now : Z)
    (hours days : option Z) (a b H : Z) :
  four_digit_year (second_of a) -> four_digit_year (second_of b) ->
  second_of a <= H <= second_of b ->
  H mod SECONDS_PER_HOUR = 0 ->
  0 < window_count db H (H + timedelta_hours 1) ->
  exists db' points point,
    backfill_all db = Some db' /\
    get_history db' now Hourly hours days (Iso a) (Iso b)
    = Some (History.mk Hourly (BucketData points)) /\
    points_at H points = [point] /\
    BucketPoint.count point = window_count db H (H + timedelta_hours 1).
Proof.
  intros Ha Hb Hab Hal Hpos.
  destruct (backfill_all_hour_complete db H Hal Hpos) as (db' & E & row & Hrow & Hc).
  exists db', (map hour_point (get_hourly_stats db' a b)), (hour_point row).
  split; [exact E|]. split; [reflexivity|]. split; [|exact Hc].
  assert (Hy : four_digit_year H) by (unfold four_digit_year in *; lia).
  unfold points_at. rewrite filter_map_swap.
  change (fun r => BucketPoint.timestamp (hour_point r) =? H) with (hour_key H).
  unfold get_hourly_stats. cbv zeta.
  assert (Hp : Permutation
                 (filter (hour_key H)
                    (order_by HourlyStats.hour_start
                       (filter (fun r => text_between (strftime a) (strftime b)
                                           (HourlyStats.hour_start r))
                          (rows (hourly_stats db')))))
                 [row]).
  { rewrite <- Hrow. etransitivity.
    - apply filter_Permutation, order_with_perm.
    - rewrite filter_filter. erewrite filter_ext; [reflexivity|].
      intro r. unfold hour_key. destruct (Z.eqb_spec (HourlyStats.hour_start r) H) as [->|];
        [|apply andb_false_r].
      rewrite andb_true_r, (text_between_spec a b H Ha Hb Hy). now apply between_Z_spec. }
  apply Permutation_sym, Permutation_length_1_inv in Hp. now rewrite Hp.
Qed.

Lemma history_hourly_after_backfill_witness :
  exists db' points point,
    backfill_all afternoon_db = Some db' /\
    get_history db' (at_second t_15_30) Hourly None None
      (Iso (at_second t_14_00 - 1800000000)) (Iso (at_second t_15_30 + 250000))
    = Some (History.mk Hourly (BucketData points)) /\
    points_at t_14_00 points = [point] /\
    BucketPoint.count point = 2.
Proof.
  destruct (history_hourly_after_backfill afternoon_db (at_second t_15_30) None None
              (at_second t_14_00 - 1800000000) (at_second t_15_30 + 250000) t_14_00)
    as (db' & points & point & E & Eh & Hp & Hc).
  - vm_compute. split; [discriminate|reflexivity].
  - vm_compute. split; [discriminate|reflexivity].
  - vm_compute. split; discriminate.
  - reflexivity.
  - reflexivity.
  - exists db', points, point. split; [exact E|]. split; [exact Eh|]. split; [exact Hp|].
    rewrite Hc. reflexivity.
Defined.

(** ** The sensor protocol *)

Lemma below_In (n : nat) (x : Z) : 0 <= x < Z.of_nat n -> In x (below n).
Proof.
  intro Hx. unfold below. apply in_map_iff. exists (Z.to_nat x).
  split; [lia|]. apply in_seq. lia.
Qed.

(** The final transformation moves the five high bits of a byte down
    and puts the three low bits of the byte before it on top. *)
Lemma rotate_spec (a b : Z) :
  is_byte a -> is_byte b -> rotate a b = a / 8 + 32 * (b mod 8).
Proof.
  intros Ha Hb. unfold is_byte in *.
  assert (Htable :
            forallb (fun x =>
                       forallb (fun y =>
                                  Z.land (Z.lor x (Z.shiftl y 5)) 0xFF
                                  =? x + 32 * (y mod 8))
                         (below 256))
              (below 32) = true) by (vm_compute; reflexivity).
  rewrite forallb_forall in Htable.
  assert (Hx : 0 <= a / 8 < Z.of_nat 32) by (Z.div_mod_to_equations; lia).
  specialize (Htable (a / 8) (below_In 32 _ Hx)).
  rewrite forallb_forall in Htable.
  specialize (Htable b (below_In 256 b ltac:(lia))).
  apply Z.eqb_eq in Htable. unfold rotate.
  rewrite Z.shiftr_div_pow2 by lia. exact Htable.
Qed.

Lemma rotate_byte (a b : Z) : is_byte a -> is_byte b -> is_byte (rotate a b).
Proof.
  intros Ha Hb. rewrite (rotate_spec a b Ha Hb). unfold is_byte in *.
  Z.div_mod_to_equations. lia.
Qed.

(** From the transformed bytes the high bits of the one byte and the low
    bits of the other can be read off. *)
Lemma rotate_inj (a b a' b' : Z) :
  is_byte a -> is_byte b -> is_byte a' -> is_byte b' ->
  rotate a b = rotate a' b' -> a / 8 = a' / 8 /\ b mod 8 = b' mod 8.
Proof.
  intros Ha Hb Ha' Hb'. rewrite !rotate_spec by assumption.
  unfold is_byte in *. intro E. Z.div_mod_to_equations. lia.
Qed.

Lemma lxor_key_byte (d k : Z) : is_byte d -> In k KEY -> is_byte (Z.lxor d k).
Proof.
  intros Hd Hk. unfold is_byte in *.
  assert (Htable :
            forallb (fun x =>
                       forallb (fun y => (0 <=? Z.lxor x y) && (Z.lxor x y <? 256)) KEY)
              (below 256) = true) by (vm_compute; reflexivity).
  rewrite forallb_forall in Htable.
  specialize (Htable d (below_In 256 d ltac:(lia))).
  rewrite forallb_forall in Htable. specialize (Htable k Hk).
  apply andb_true_iff in Htable. destruct Htable as [H1 H2].
  apply Z.leb_le in H1. apply Z.ltb_lt in H2. lia.
Qed.

Lemma lxor_cancel_r (a b k : Z) : Z.lxor a k = Z.lxor b k -> a = b.
Proof.
  intro E. apply (f_equal (fun x => Z.lxor x k)) in E.
  now rewrite !Z.lxor_assoc, !Z.lxor_nilpotent, !Z.lxor_0_r in E.
Qed.

Lemma byte_of_parts (a b : Z) : a / 8 = b / 8 -> a mod 8 = b mod 8 -> a = b.
Proof. intros. Z.div_mod_to_equations. lia. Qed.

Lemma decrypt_frame (d0 d1 d2 d3 d4 d5 d6 d7 : Z) :
  _decrypt [d0; d1; d2; d3; d4; d5; d6; d7] =
  Some [ rotate (Z.lxor d2 0xC4) (Z.lxor d3 0x96);
         rotate (Z.lxor d4 0xC6) (Z.lxor d2 0xC4);
         rotate (Z.lxor d0 0xC0) (Z.lxor d4 0xC6);
         rotate (Z.lxor d7 0x92) (Z.lxor d0 0xC0);
         rotate (Z.lxor d1 0x40) (Z.lxor d7 0x92);
         rotate (Z.lxor d6 0x23) (Z.lxor d1 0x40);
         rotate (Z.lxor d5 0xDC) (Z.lxor d6 0x23);
         rotate (Z.lxor d3 0x96) (Z.lxor d5 0xDC) ].
Proof. reflexivity. Qed.

(** X28.  [_decrypt] fails on a frame of fewer than eight bytes; on a
    frame of eight bytes it answers eight bytes, and it loses nothing:
    two frames with the same answer are the same frame. *)
Theorem decrypt_frames (data : list Z) :
  ((List.length data < 8)%nat -> _decrypt data = None) /\
  (is_frame data ->
   (exists out, _decrypt data = Some out /\ is_frame out) /\
   forall data', is_frame data' -> _decrypt data' = _decrypt data -> data' = data).
Proof.
  split.
  - intro Hlen.
    do 8 (destruct data as [|? data]; [reflexivity|]).
    cbn [List.length] in Hlen. lia.
  - intros [Hlen Hbytes].
    do 8 (destruct data as [|? data]; [discriminate|]).
    destruct data; [|discriminate].
    repeat match goal with
           | H : Forall _ (_ :: _) |- _ => inversion H; subst; clear H
           end.
    assert (Hk : forall k, In k KEY -> forall d, is_byte d -> is_byte (Z.lxor d k))
      by (intros; now apply lxor_key_byte).
    assert (K0 := Hk 0xC4 ltac:(simpl; tauto)).
    assert (K1 := Hk 0xC6 ltac:(simpl; tauto)).
    assert (K2 := Hk 0xC0 ltac:(simpl; tauto)).
    assert (K3 := Hk 0x92 ltac:(simpl; tauto)).
    assert (K4 := Hk 0x40 ltac:(simpl; tauto)).
    assert (K5 := Hk 0x23 ltac:(simpl; tauto)).
    assert (K6 := Hk 0xDC ltac:(simpl; tauto)).
    assert (K7 := Hk 0x96 ltac:(simpl; tauto)).
    split.
    + eexists. split; [apply decrypt_frame|].
      split; [reflexivity|].
      repeat constructor; apply rotate_byte; auto.
    + intros data' [Hlen' Hbytes'].
      do 8 (destruct data' as [|? data']; [discriminate|]).
      destruct data'; [|discriminate].
      repeat match goal with
             | H : Forall _ (_ :: _) |- _ => inversion H; subst; clear H
             end.
      rewrite !decrypt_frame. intro E.
      injection E as E0 E1 E2 E3 E4 E5 E6 E7.
      apply rotate_inj in E0, E1, E2, E3, E4, E5, E6, E7; auto.
      destruct E0, E1, E2, E3, E4, E5, E6, E7.
      repeat f_equal;
        match goal with
        | |- ?x = ?y =>
            match goal with
            | H : Z.lxor x ?k / 8 = Z.lxor y ?k / 8 |- _ =>
                apply (lxor_cancel_r x y k), byte_of_parts; assumption
            end
        end.
Qed.

Lemma decrypt_frames_witness :
  exists out, _decrypt sample_frame = Some out /\ is_frame out.
Proof.
  apply (decrypt_frames sample_frame).
  split; [reflexivity|]. repeat constructor; vm_compute; discriminate.
Defined.
